(** * teamtgbot: task store, limit guard, wizard deadline step,
      status transitions and the reminder scheduler

    A shallow embedding of the parts of the bot that carry its task
    lifecycle: [database.py] (the SQLite repository), [config.py]
    (the subscription table), [utils/validators.py], the deadline step of
    [handlers/tasks.py], the status handlers of [handlers/callbacks.py]
    with [utils/notifications.py], and [scheduler/reminders.py].

    Conventions of the embedding.
    - A table is the list of its rows in rowid order; a query is a filter
      over that list.
    - A timestamp is the instant it denotes, as microseconds in [Z]. The
      program stores instants as ISO-8601 text produced by
      [datetime.isoformat()], whose text order is the order of the
      instants, so SQL comparisons of such columns are comparisons in [Z].
    - A Python dict is a [gmap] when only lookups matter and an
      association list when the iteration order is observable.
    - A call that may raise is given its outcome as an argument (or by an
      environment indexed by the call's ordinal), so that both the normal
      path and the [except] path of the source are present. *)

From Stdlib Require Import ZArith Ascii String List Bool Lia.
From stdpp Require Import base option list strings gmap pretty.
Import ListNotations.

#[local] Open Scope string_scope.
#[local] Open Scope list_scope.
#[local] Open Scope Z_scope.

(* ===================================================================== *)
(** ** Python values *)
(* ===================================================================== *)

(** The values held by the dicts the handlers pass around. *)
Inductive Value : Type :=
| VNone
| VBool (b : bool)
| VInt (z : Z)
| VStr (s : string)
| VTime (t : Z).

(** Python truthiness of an optional integer column: [None] and [0] are
    falsy. *)
Definition truthy (o : option Z) : bool :=
  match o with
  | Some z => negb (z =? 0)
  | None => false
  end.

(** Outcome of a statement sent to SQLite: it executes, or
    [sqlite3.Error] is raised. *)
Inductive SqlOutcome : Type := SqlOk | SqlError.

(** [timedelta(hours=h, minutes=m)] in microseconds. *)
Definition timedelta (hours minutes : Z) : Z :=
  (hours * 3600 + minutes * 60) * 1000000.

(** SQLite's [DATE(ts)]: the day an instant falls on. *)
Definition DATE (ts : Z) : Z := ts / 86400000000.

(* ===================================================================== *)
(** ** database.py *)
(* ===================================================================== *)

Record User : Type := mkUser {
  user_id : Z;
  username : option string;
  first_name : option string;
  last_name : option string
}.

Record Team : Type := mkTeam {
  team_id : Z;
  name : string;
  owner_id : Z;
  invite_code : string;
  subscription_type : string;
  subscription_expires : option Z
}.

Record TeamMember : Type := mkTeamMember {
  tm_team_id : Z;
  tm_user_id : Z;
  role : string;
  joined_at : Z
}.

Record Task : Type := mkTask {
  task_id : Z;
  task_team_id : Z;
  title : string;
  description : option string;
  assignee_id : option Z;
  author_id : Z;
  deadline : option Z;
  priority : string;
  status : string;
  tags : option string;
  created_at : Z;
  updated_at : Z;
  completed_at : option Z
}.

(** A row of [reminders]; the table has no uniqueness constraint, so the
    same (task, type) pair may occur in several rows. *)
Record Reminder : Type := mkReminder {
  r_task_id : Z;
  reminder_type : string;
  sent_at : Z
}.

Record Database : Type := mkDatabase {
  users : list User;
  teams : list Team;
  team_members : list TeamMember;
  tasks : list Task;
  reminders : list Reminder
}.

(** [fetchone()]: the first row of a result, if any. *)
Definition fetchone {A : Type} (rows : list A) : option A := head rows.

(** SQL [COALESCE(a, b)]. *)
Definition COALESCE {A : Type} (a b : option A) : option A :=
  match a with
  | Some _ => a
  | None => b
  end.

Definition get_user (db : Database) (uid : Z) : option User :=
  fetchone (filter (fun u => user_id u = uid) (users db)).

Definition get_team (db : Database) (tid : Z) : option Team :=
  fetchone (filter (fun t => team_id t = tid) (teams db)).

(** [SELECT t.* FROM teams t JOIN team_members tm ON ... WHERE tm.user_id = ?]:
    SQLite walks the user's membership rows (the index on
    [team_members.user_id]) and looks each one's team up by its id, so
    the teams come in the order of the user's memberships. *)
Definition get_user_teams (db : Database) (uid : Z) : list Team :=
  m ← team_members db;
  t ← teams db;
  if bool_decide (team_id t = tm_team_id m ∧ tm_user_id m = uid) then [t] else [].

Definition get_user_active_team (db : Database) (uid : Z) : option Team :=
  head (get_user_teams db uid).

Definition get_member_role (db : Database) (tid uid : Z) : option string :=
  role <$> fetchone (filter (fun m => tm_team_id m = tid ∧ tm_user_id m = uid)
                            (team_members db)).

Definition get_team_member_count (db : Database) (tid : Z) : Z :=
  Z.of_nat (length (filter (fun m => tm_team_id m = tid) (team_members db))).

Definition get_task (db : Database) (tid : Z) : option Task :=
  fetchone (filter (fun t => task_id t = tid) (tasks db)).

(** [status IN ('todo', 'in_progress')] *)
Definition status_active (s : string) : bool :=
  String.eqb s "todo" || String.eqb s "in_progress".

(** [status NOT IN ('done', 'cancelled')] *)
Definition status_open (s : string) : bool :=
  negb (String.eqb s "done" || String.eqb s "cancelled").

Definition get_active_tasks_count (db : Database) (tid : Z) : Z :=
  Z.of_nat (length (filter (fun t => task_team_id t = tid ∧ status_active (status t) = true)
                           (tasks db))).

(** The row written by the [UPDATE] of [update_task_status]. *)
Definition set_status (now : Z) (st : string) (t : Task) : Task :=
  {| task_id := task_id t;
     task_team_id := task_team_id t;
     title := title t;
     description := description t;
     assignee_id := assignee_id t;
     author_id := author_id t;
     deadline := deadline t;
     priority := priority t;
     status := st;
     tags := tags t;
     created_at := created_at t;
     updated_at := now;
     completed_at :=
       COALESCE (if String.eqb st "done" then Some now else None) (completed_at t) |}.

Definition with_tasks (db : Database) (ts : list Task) : Database :=
  {| users := users db; teams := teams db; team_members := team_members db;
     tasks := ts; reminders := reminders db |}.

Definition with_reminders (db : Database) (rs : list Reminder) : Database :=
  {| users := users db; teams := teams db; team_members := team_members db;
     tasks := tasks db; reminders := rs |}.

(** [... WHERE task_id = ?]: what the [UPDATE] does to each row. *)
Definition updated_row (now : Z) (tid : Z) (st : string) (t : Task) : Task :=
  if bool_decide (task_id t = tid) then set_status now st t else t.

(** [Database.update_task_status]. [exec] is the outcome of the [UPDATE];
    [now] is [datetime.now()]. The status is written as given. *)
Definition update_task_status (exec : SqlOutcome) (now : Z) (db : Database)
    (tid : Z) (st : string) : Database * bool :=
  match exec with
  | SqlOk => (with_tasks db (map (updated_row now tid st) (tasks db)), true)
  | SqlError => (db, false)
  end.

Definition is_reminder_sent (db : Database) (tid : Z) (rt : string) : bool :=
  match fetchone (filter (fun r => r_task_id r = tid ∧ reminder_type r = rt) (reminders db)) with
  | Some _ => true
  | None => false
  end.

(** [Database.mark_reminder_sent]: the [INSERT], whose [sqlite3.Error] is
    logged and swallowed. The statement names [task_id] and
    [reminder_type] only: [sent_at] takes its default, SQLite's
    [CURRENT_TIMESTAMP], here [stamp]. *)
Definition mark_reminder_sent (exec : SqlOutcome) (stamp : Z) (db : Database)
    (tid : Z) (rt : string) : Database :=
  match exec with
  | SqlOk => with_reminders db (reminders db ++ [mkReminder tid rt stamp])
  | SqlError => db
  end.

(** SQL [x BETWEEN lo AND hi] on a nullable column. *)
Definition BETWEEN (x : option Z) (lo hi : Z) : bool :=
  match x with
  | Some d => (lo <=? d) && (d <=? hi)
  | None => false
  end.

(** [Database.get_upcoming_tasks]: active tasks joined with their team,
    with the deadline inside [start, end]. *)
Definition get_upcoming_tasks (db : Database) (start end_ : Z) : list (Task * string) :=
  t ← tasks db;
  tm ← teams db;
  if bool_decide (task_team_id t = team_id tm)
     && status_active (status t) && BETWEEN (deadline t) start end_
  then [(t, name tm)] else [].

(** [ORDER BY deadline ASC]: a stable insertion sort on the deadline. Rows
    reaching it have a deadline; SQLite puts a [NULL] first. *)
Definition deadline_le (a b : Task) : bool :=
  match deadline a, deadline b with
  | None, _ => true
  | Some _, None => false
  | Some x, Some y => x <=? y
  end.

Fixpoint insert_by_deadline (t : Task) (l : list Task) : list Task :=
  match l with
  | [] => [t]
  | u :: l' => if deadline_le t u then t :: l else u :: insert_by_deadline t l'
  end.

Definition order_by_deadline (l : list Task) : list Task :=
  foldr insert_by_deadline [] l.

(** [Database.get_tasks_today]. *)
Definition due_on (day : Z) (t : Task) : bool :=
  match deadline t with
  | Some d => DATE d =? day
  | None => false
  end.

Definition get_tasks_today (now : Z) (db : Database) (tid : Z) : list Task :=
  order_by_deadline
    (filter (fun t => task_team_id t = tid ∧ due_on (DATE now) t = true
                      ∧ status_open (status t) = true)
            (tasks db)).

(** [Database.get_overdue_tasks]. *)
Definition overdue (now : Z) (t : Task) : bool :=
  match deadline t with
  | Some d => d <? now
  | None => false
  end.

Definition get_overdue_tasks (now : Z) (db : Database) : list Task :=
  order_by_deadline
    (filter (fun t => status_active (status t) = true ∧ overdue now t = true) (tasks db)).

(* ===================================================================== *)
(** ** Exceptions *)
(* ===================================================================== *)

Inductive Exception : Type := KeyError | ValueError | TypeError | TelegramError.

(** The result of a call that may raise. *)
Inductive Result (A : Type) : Type :=
| Ok (a : A)
| Raise (e : Exception).
Arguments Ok {A} a.
Arguments Raise {A} e.

Definition bind_result {A B : Type} (r : Result A) (k : A -> Result B) : Result B :=
  match r with
  | Ok a => k a
  | Raise e => Raise e
  end.

Notation "'let!' x ':=' r 'in' k" := (bind_result r (fun x => k))
  (at level 10, x name, r at level 100, k at level 200).

(** [d[k]] on a dict. *)
Definition getitem {V : Type} (d : gmap string V) (k : string) : Result V :=
  match d !! k with
  | Some v => Ok v
  | None => Raise KeyError
  end.

(** [d.get(k, dflt)]. *)
Definition dict_get {V : Type} (d : gmap string V) (k : string) (dflt : V) : V :=
  default dflt (d !! k).

(* ===================================================================== *)
(** ** config.py *)
(* ===================================================================== *)

(** One entry of [SUBSCRIPTION_LIMITS]. *)
Record Limits : Type := mkLimits {
  max_members : Z;
  max_tasks : Z;
  feat_reminders : bool;
  feat_calendar_export : bool;
  feat_analytics : bool
}.

(** The member and task ceilings read from the environment at import time
    ([FREE_MEMBER_LIMIT], [FREE_TASK_LIMIT], [PRO_MEMBER_LIMIT]; defaults
    3, 20 and 15). *)
Record Environ : Type := mkEnviron {
  FREE_MEMBER_LIMIT : Z;
  FREE_TASK_LIMIT : Z;
  PRO_MEMBER_LIMIT : Z
}.

Definition default_environ : Environ := mkEnviron 3 20 15.

(** The entry of the free tier. *)
Definition free_limits (env : Environ) : Limits :=
  mkLimits (FREE_MEMBER_LIMIT env) (FREE_TASK_LIMIT env) false false false.

Definition SUBSCRIPTION_LIMITS (env : Environ) : gmap string Limits :=
  <["free" := free_limits env]>
  (<["pro" := mkLimits (PRO_MEMBER_LIMIT env) 999999 true true true]>
  (<["enterprise" := mkLimits 999999 999999 true true true]> ∅)).

(** The states of the creation wizard, [range(6)], and
    [ConversationHandler.END]. *)
Definition STATE_TITLE : Z := 0.
Definition STATE_DESCRIPTION : Z := 1.
Definition STATE_ASSIGNEE : Z := 2.
Definition STATE_DEADLINE : Z := 3.
Definition STATE_PRIORITY : Z := 4.
Definition STATE_CONFIRM : Z := 5.
Definition END : Z := -1.

(* ===================================================================== *)
(** ** utils/validators.py *)
(* ===================================================================== *)

(** The dict returned by a limit check on an existing team. *)
Definition limit_decision (allowed : bool) (current limit : Z) (plan : string)
    : gmap string Value :=
  <["allowed" := VBool allowed]>
  (<["current" := VInt current]>
  (<["limit" := VInt limit]>
  (<["plan" := VStr plan]> ∅))).

Definition team_not_found : gmap string Value :=
  <["allowed" := VBool false]> (<["error" := VStr "Команда не найдена"]> ∅).

Definition check_task_limit (env : Environ) (db : Database) (tid : Z)
    : Result (gmap string Value) :=
  match get_team db tid with
  | None => Ok team_not_found
  | Some team =>
      let plan := subscription_type team in
      let! free := getitem (SUBSCRIPTION_LIMITS env) "free" in
      let limits := dict_get (SUBSCRIPTION_LIMITS env) plan free in
      let current := get_active_tasks_count db tid in
      Ok (limit_decision (current <? max_tasks limits) current (max_tasks limits) plan)
  end.

Definition check_member_limit (env : Environ) (db : Database) (tid : Z)
    : Result (gmap string Value) :=
  match get_team db tid with
  | None => Ok team_not_found
  | Some team =>
      let plan := subscription_type team in
      let! free := getitem (SUBSCRIPTION_LIMITS env) "free" in
      let limits := dict_get (SUBSCRIPTION_LIMITS env) plan free in
      let current := get_team_member_count db tid in
      Ok (limit_decision (current <? max_members limits) current (max_members limits) plan)
  end.

(** The standard-library calls of the validators: [str.strip] and
    [datetime.strptime], the latter giving the parsed instant or [None]
    where it raises [ValueError]. *)
Record StdLib : Type := mkStdLib {
  strip : string -> string;
  strptime : string -> string -> option Z;
  int : string -> option Z
}.

Definition formats : list string :=
  [ "%d.%m.%Y %H:%M"; "%d.%m.%Y"; "%Y-%m-%d %H:%M"; "%Y-%m-%d";
    "%d/%m/%Y %H:%M"; "%d/%m/%Y" ].

(** The loop of [validate_deadline] over the remaining formats. *)
Fixpoint validate_deadline_from (lib : StdLib) (now : Z) (text : string)
    (fmts : list string) : option Z :=
  match fmts with
  | [] => None
  | fmt :: rest =>
      match strptime lib (strip lib text) fmt with
      | Some dt => if dt <? now then None else Some dt
      | None => validate_deadline_from lib now text rest
      end
  end.

Definition validate_deadline (lib : StdLib) (now : Z) (text : string) : option Z :=
  validate_deadline_from lib now text formats.

(* ===================================================================== *)
(** ** handlers/tasks.py: the deadline step of the wizard *)
(* ===================================================================== *)

(** What the wizard answers at the deadline step. *)
Inductive WizardReply : Type :=
| ReplyBadDeadline
| ReplyAskPriority.

(** [task_deadline_received]: [draft] is [context.user_data["new_task"]].
    Returns the reply, the next state and the draft. *)
Definition task_deadline_received (lib : StdLib) (now : Z) (message_text : string)
    (draft : gmap string Value) : WizardReply * Z * gmap string Value :=
  let text := strip lib message_text in
  match validate_deadline lib now text with
  | None => (ReplyBadDeadline, STATE_DEADLINE, draft)
  | Some deadline => (ReplyAskPriority, STATE_PRIORITY, <["deadline" := VTime deadline]> draft)
  end.

(* ===================================================================== *)
(** ** The chat transport *)
(* ===================================================================== *)

(** One call of [bot.send_message]: the recipient, the text, and whether
    the call returned ([true]) or raised ([false]). *)
Record Sent (T : Type) : Type := mkSent {
  chat_id : Z;
  text : T;
  delivered : bool
}.
Arguments mkSent {T} chat_id text delivered.
Arguments chat_id {T} s.
Arguments text {T} s.
Arguments delivered {T} s.

(** [update.effective_user]. *)
Record TgUser : Type := mkTgUser {
  tg_id : Z;
  tg_first_name : option string;
  tg_username : option string
}.

(** Python's [a or b] on an optional string: [None] and the empty string
    are falsy. *)
Definition or_else (a : option string) (b : string) : string :=
  match a with
  | Some s => if String.eqb s "" then b else s
  | None => b
  end.

(* ===================================================================== *)
(** ** utils/notifications.py *)
(* ===================================================================== *)

Definition STATUS_EMOJI : gmap string string :=
  <["todo" := "⏳"]> (<["in_progress" := "🔄"]> (<["done" := "✅"]> (<["cancelled" := "❌"]> ∅))).

Definition STATUS_TEXT : gmap string string :=
  <["todo" := "К выполнению"]> (<["in_progress" := "В процессе"]>
  (<["done" := "Выполнено"]> (<["cancelled" := "Отменено"]> ∅))).

Definition PRIORITY_EMOJI : gmap string string :=
  <["low" := "🟢"]> (<["medium" := "🟡"]> (<["high" := "🔴"]> ∅)).

(** The fields interpolated into the status-change message. *)
Record StatusText : Type := mkStatusText {
  sc_task_id : Z;
  sc_title : string;
  sc_emoji : string;
  sc_status : string;
  sc_changed_by : string
}.

(** [notify_status_changed]: one send to the author; a raising send is
    logged and swallowed. [send_returns] is the outcome of the send. *)
Definition notify_status_changed (send_returns : bool) (author : Z) (task : Task)
    (new_status changed_by : string) : list (Sent StatusText) :=
  let s_emoji := dict_get STATUS_EMOJI new_status "⚪️" in
  let s_text := dict_get STATUS_TEXT new_status new_status in
  [ mkSent author (mkStatusText (task_id task) (title task) s_emoji s_text changed_by)
           send_returns ].

(* ===================================================================== *)
(** ** handlers/callbacks.py: status changes *)
(* ===================================================================== *)

(** [s.partition("_")]: the text before the first underscore and, when
    there is one, the text after it. *)
Fixpoint partition_underscore (s : string) : string * option string :=
  match s with
  | EmptyString => (EmptyString, None)
  | String c s' =>
      if Ascii.eqb c "_"%char then (EmptyString, Some s')
      else let '(a, b) := partition_underscore s' in (String c a, b)
  end.

(** [s.split("_", 2)]. *)
Definition split_underscore_2 (s : string) : list string :=
  match partition_underscore s with
  | (a, None) => [a]
  | (a, Some r) =>
      match partition_underscore r with
      | (b, None) => [a; b]
      | (b, Some c) => [a; b; c]
      end
  end.

(** [s.replace(pat, "")] for a non-empty [pat]: [skip] counts the
    characters of a matched occurrence still to be dropped. *)
Fixpoint remove_from (pat : string) (skip : nat) (s : string) : string :=
  match s with
  | EmptyString => EmptyString
  | String c s' =>
      match skip with
      | S k => remove_from pat k s'
      | O =>
          if String.prefix pat s then remove_from pat (Nat.pred (String.length pat)) s'
          else String c (remove_from pat 0 s')
      end
  end.

Definition remove_all (pat s : string) : string := remove_from pat 0 s.

(** What a callback handler shows in place of the message. *)
Inductive CallbackReply : Type :=
| ReplyTaskNotFound
| ReplyStatusError
| ReplyTaskCard (task : Task) (assignee_name : string) (author_name : option string)
                (role : option string)
| ReplyTaskCancelled (tid : Z).

(** The effects of one handler call: the store after it, the edits of
    the message, the notifications attempted, and the exception that
    ended it, if any. *)
Record Handled : Type := mkHandled {
  h_db : Database;
  h_replies : list CallbackReply;
  h_notified : list (Sent StatusText);
  h_raised : option Exception
}.

(** The outcomes of the external calls of a handler: the [UPDATE], the
    [edit_message_text] and the notification's [send_message]. *)
Record CallbackEnv : Type := mkCallbackEnv {
  cb_exec : SqlOutcome;
  cb_edit_returns : bool;
  cb_send_returns : bool
}.

Definition str (z : Z) : string := pretty.pretty z.

(** [handle_status_callback]: callback data [status_{task_id}_{new_status}]. *)
Definition handle_status_callback (lib : StdLib) (env : CallbackEnv) (now : Z)
    (db : Database) (user : TgUser) (data : string) : Handled :=
  match split_underscore_2 data with
  | [_; p1; new_status] =>
      match int lib p1 with
      | None => mkHandled db [] [] (Some ValueError)
      | Some tid =>
          match get_task db tid with
          | None => mkHandled db [ReplyTaskNotFound] [] None
          | Some _ =>
              let '(db1, success) := update_task_status (cb_exec env) now db tid new_status in
              if negb success then mkHandled db1 [ReplyStatusError] [] None
              else
                match get_task db1 tid with
                | None => mkHandled db1 [] [] (Some TypeError)
                | Some task =>
                    let team := get_user_active_team db1 (tg_id user) in
                    let role :=
                      match team with
                      | Some tm => get_member_role db1 (team_id tm) (tg_id user)
                      | None => None
                      end in
                    let assignee_name :=
                      if truthy (assignee_id task) then
                        match assignee_id task ≫= get_user db1 with
                        | Some a => or_else (first_name a) (or_else (username a) "—")
                        | None => "Не назначен"
                        end
                      else "Не назначен" in
                    let author_name :=
                      match get_user db1 (author_id task) with
                      | Some a => first_name a
                      | None => Some "—"
                      end in
                    let card := ReplyTaskCard task assignee_name author_name role in
                    if negb (cb_edit_returns env)
                    then mkHandled db1 [] [] (Some TelegramError)
                    else if bool_decide (author_id task ≠ tg_id user) then
                      let changer_name :=
                        or_else (tg_first_name user)
                                (or_else (tg_username user) (str (tg_id user))) in
                      mkHandled db1 [card]
                        (notify_status_changed (cb_send_returns env) (author_id task) task
                                               new_status changer_name)
                        None
                    else mkHandled db1 [card] [] None
                end
          end
      end
  | _ => mkHandled db [] [] None
  end.

(** [handle_cancel_task_callback]: callback data [cancel_{task_id}]. *)
Definition handle_cancel_task_callback (lib : StdLib) (env : CallbackEnv) (now : Z)
    (db : Database) (user : TgUser) (data : string) : Handled :=
  match int lib (remove_all "cancel_" data) with
  | None => mkHandled db [] [] (Some ValueError)
  | Some tid =>
      let db1 := (update_task_status (cb_exec env) now db tid "cancelled").1 in
      if cb_edit_returns env then mkHandled db1 [ReplyTaskCancelled tid] [] None
      else mkHandled db1 [] [] (Some TelegramError)
  end.

(* ===================================================================== *)
(** ** scheduler/reminders.py: the deadline sweep *)
(* ===================================================================== *)

(** The three headers of [_format_reminder]. *)
Inductive ReminderHeader : Type :=
| HeaderTomorrow
| HeaderInThreeHours
| HeaderDeadlineNow.

(** The fields interpolated into a reminder. *)
Record ReminderText : Type := mkReminderText {
  rem_header : ReminderHeader;
  rem_task_id : Z;
  rem_title : string;
  rem_deadline : option Z
}.

(** The [if]/[elif]/[else] of [_format_reminder] on the reminder type. *)
Definition header_of (rt : string) : ReminderHeader :=
  if String.eqb rt "24h" then HeaderTomorrow
  else if String.eqb rt "3h" then HeaderInThreeHours
  else HeaderDeadlineNow.

Definition _format_reminder (task : Task) (rt : string) : ReminderText :=
  mkReminderText (header_of rt) (task_id task) (title task) (deadline task).

(** The window dict of [check_upcoming_deadlines], in insertion order. *)
Definition windows (now : Z) : list (string * (Z * Z)) :=
  [ ("24h", (now + timedelta 23 30, now + timedelta 24 30));
    ("3h", (now + timedelta 2 30, now + timedelta 3 30));
    ("now", (now - timedelta 0 15, now + timedelta 0 15)) ].

(** The outcomes of the external calls of a sweep. The sends of a world
    are numbered in the order they are made, the number of a send being
    the length of the outbox before it: [send_returns n] tells whether
    send [n] returns or raises, [insert_outcome n] is the outcome of the
    [INSERT] that follows send [n], and [insert_stamp n] is what the
    database's clock gives that [INSERT] for [sent_at]. *)
Record SweepEnv : Type := mkSweepEnv {
  send_returns : nat -> bool;
  insert_outcome : nat -> SqlOutcome;
  insert_stamp : nat -> Z
}.

(** The store together with the log of the sends made so far. *)
Record World : Type := mkWorld {
  w_db : Database;
  w_outbox : list (Sent ReminderText)
}.

(** The body of the inner loop, for one row of [get_upcoming_tasks], in
    the sweep made at [now]. The [INSERT] is inside the [try], after the
    send: it is reached only when the send returns. The loop body does
    not read the sweep's instant. *)
Definition remind (env : SweepEnv) (now : Z) (rt : string) (w : World)
    (row : Task * string) : World :=
  let task := row.1 in
  if is_reminder_sent (w_db w) (task_id task) rt then w
  else
    match assignee_id task with
    | None => w
    | Some assignee =>
        if assignee =? 0 then w
        else
          let message := _format_reminder task rt in
          let n := length (w_outbox w) in
          if send_returns env n then
            mkWorld (mark_reminder_sent (insert_outcome env n) (insert_stamp env n) (w_db w)
                                        (task_id task) rt)
                    (w_outbox w ++ [mkSent assignee message true])
          else
            mkWorld (w_db w) (w_outbox w ++ [mkSent assignee message false])
    end.

(** The body of the outer loop, for one window. *)
Definition sweep_window (env : SweepEnv) (now : Z) (w : World)
    (win : string * (Z * Z)) : World :=
  let '(reminder_type, (start, end_)) := win in
  foldl (remind env now reminder_type) w (get_upcoming_tasks (w_db w) start end_).

Definition check_upcoming_deadlines (env : SweepEnv) (now : Z) (w : World) : World :=
  foldl (sweep_window env now) w (windows now).

(** *** Vocabulary for statements about the sweep *)

(** The window kind a header belongs to. *)
Definition kind_of_header (h : ReminderHeader) : string :=
  match h with
  | HeaderTomorrow => "24h"
  | HeaderInThreeHours => "3h"
  | HeaderDeadlineNow => "now"
  end.

Definition window_kinds : list string := ["24h"; "3h"; "now"].

(** The send [e] is the reminder of task [tid] for the window [rt]. *)
Definition about (e : Sent ReminderText) (tid : Z) (rt : string) : Prop :=
  rem_task_id (text e) = tid ∧ rem_header (text e) = header_of rt.

(** Some send of the outbox for the pair, and some send that returned. *)
Definition attempted (w : World) (tid : Z) (rt : string) : Prop :=
  ∃ e, e ∈ w_outbox w ∧ about e tid rt.

Definition notified (w : World) (tid : Z) (rt : string) : Prop :=
  ∃ e, e ∈ w_outbox w ∧ about e tid rt ∧ delivered e = true.

(** The row is a candidate of the window: it is in the window's query
    result and has a truthy assignee. *)
Definition candidate (db : Database) (now : Z) (rt : string) (task : Task) : Prop :=
  ∃ start end_ team_name,
    (rt, (start, end_)) ∈ windows now
    ∧ (task, team_name) ∈ get_upcoming_tasks db start end_
    ∧ truthy (assignee_id task) = true.

(** The candidate needs nothing more from the sweep: its pair is in the
    ledger, or it has no assignee, or a send for the pair was made. *)
Definition handled (w : World) (task : Task) (rt : string) : Prop :=
  is_reminder_sent (w_db w) (task_id task) rt = true
  ∨ truthy (assignee_id task) = false
  ∨ attempted w (task_id task) rt.

(** Every send that returned has its pair in the ledger. *)
Definition ledger_covers_outbox (w : World) : Prop :=
  ∀ e, e ∈ w_outbox w -> delivered e = true ->
       is_reminder_sent (w_db w) (rem_task_id (text e)) (kind_of_header (rem_header (text e)))
       = true.

(** Every pair of the ledger was there in [db0] or has a send that
    returned. *)
Definition ledger_from (db0 : Database) (w : World) : Prop :=
  ∀ tid rt, is_reminder_sent (w_db w) tid rt = true ->
            is_reminder_sent db0 tid rt = true ∨ notified w tid rt.


(** [w] is [base] after some steps of a sweep: same tasks and teams, a
    ledger that only grew, an outbox that only grew, and every new send
    was for a pair the ledger of [base] did not hold. *)
Definition extends (base w : World) : Prop :=
  tasks (w_db w) = tasks (w_db base)
  ∧ teams (w_db w) = teams (w_db base)
  ∧ (∀ tid rt, is_reminder_sent (w_db base) tid rt = true ->
               is_reminder_sent (w_db w) tid rt = true)
  ∧ ∃ extra, w_outbox w = w_outbox base ++ extra
             ∧ ∀ e, e ∈ extra ->
                    is_reminder_sent (w_db base) (rem_task_id (text e))
                                     (kind_of_header (rem_header (text e))) = false.

(* ===================================================================== *)
(** ** scheduler/reminders.py: the daily digest *)
(* ===================================================================== *)

(** The lines appended to a digest. *)
Inductive DigestLine : Type :=
| LineGreeting
| LineTeam (team_name : string)
| LineToday (tid : Z) (emoji : string) (task_title : string) (dl : option Z)
| LineBlank
| LineOverdueHeader
| LineOverdue (tid : Z) (task_title : string)
| LineFarewell.

(** [SELECT DISTINCT tm.user_id, tm.team_id, t.name FROM team_members tm
    JOIN teams t ON tm.team_id = t.team_id] *)
Definition all_members (db : Database) : list (Z * (Z * string)) :=
  remove_dups
    (m ← team_members db;
     t ← teams db;
     if bool_decide (tm_team_id m = team_id t)
     then [(tm_user_id m, (tm_team_id m, name t))] else []).

(** [user_teams[uid].append(info)], creating the entry at the end of the
    dict when [uid] is new. *)
Fixpoint dict_append (d : list (Z * list (Z * string))) (uid : Z) (info : Z * string)
    : list (Z * list (Z * string)) :=
  match d with
  | [] => [(uid, [info])]
  | (k, v) :: d' =>
      if bool_decide (k = uid) then (k, v ++ [info]) :: d'
      else (k, v) :: dict_append d' uid info
  end.

Definition group_by_user (rows : list (Z * (Z * string))) : list (Z * list (Z * string)) :=
  foldl (fun d row => dict_append d row.1 row.2) [] rows.

Definition today_line (task : Task) : DigestLine :=
  LineToday (task_id task) (dict_get PRIORITY_EMOJI (priority task) "⚪️")
            (title task) (deadline task).

(** The body of the loop over a user's teams: [acc] is [(msg, has_tasks)]. *)
Definition team_section (now : Z) (db : Database) (user : Z)
    (acc : list DigestLine * bool) (team_info : Z * string) : list DigestLine * bool :=
  let today_tasks := get_tasks_today now db team_info.1 in
  let user_today := filter (fun t => assignee_id t = Some user) today_tasks in
  match user_today with
  | [] => acc
  | _ :: _ => (acc.1 ++ [LineTeam team_info.2] ++ map today_line user_today ++ [LineBlank], true)
  end.

Definition overdue_line (task : Task) : DigestLine :=
  LineOverdue (task_id task) (title task).

Definition overdue_section (now : Z) (db : Database) (user : Z)
    (acc : list DigestLine * bool) : list DigestLine * bool :=
  let user_overdue := filter (fun t => assignee_id t = Some user) (get_overdue_tasks now db) in
  match user_overdue with
  | [] => acc
  | _ :: _ => (acc.1 ++ [LineOverdueHeader] ++ map overdue_line (take 5 user_overdue)
                     ++ [LineBlank], true)
  end.

(** The message built for one user and whether it has anything to say. *)
Definition build_digest (now : Z) (db : Database) (user : Z) (user_teams : list (Z * string))
    : list DigestLine * bool :=
  overdue_section now db user
    (foldl (team_section now db user) ([LineGreeting], false) user_teams).

(** The body of the loop over users: [outbox] is the log of the sends
    made so far in this run. A raising send is logged and the loop goes
    on. *)
Definition digest_user (send_ok : nat -> bool) (now : Z) (db : Database)
    (outbox : list (Sent (list DigestLine))) (entry : Z * list (Z * string))
    : list (Sent (list DigestLine)) :=
  let '(msg, has_tasks) := build_digest now db entry.1 entry.2 in
  if has_tasks
  then outbox ++ [mkSent entry.1 (msg ++ [LineFarewell]) (send_ok (length outbox))]
  else outbox.

(** [send_daily_summary]: [query] is the outcome of the membership query,
    whose failure ends the run. *)
Definition send_daily_summary (query : SqlOutcome) (send_ok : nat -> bool) (now : Z)
    (db : Database) : list (Sent (list DigestLine)) :=
  match query with
  | SqlError => []
  | SqlOk => foldl (digest_user send_ok now db) [] (group_by_user (all_members db))
  end.

(** The date the validator decides on: the result of the first format
    that parses the text. *)
Fixpoint parsed_date (lib : StdLib) (text : string) (fmts : list string) : option Z :=
  match fmts with
  | [] => None
  | fmt :: rest =>
      match strptime lib text fmt with
      | Some dt => Some dt
      | None => parsed_date lib text rest
      end
  end.

(* ===================================================================== *)
(** ** A concrete standard library for the examples *)
(* ===================================================================== *)

Definition is_space (c : ascii) : bool :=
  let n := nat_of_ascii c in
  (Nat.eqb n 32 || (Nat.leb 9 n && Nat.leb n 13))%bool.

Fixpoint lstrip (s : string) : string :=
  match s with
  | EmptyString => EmptyString
  | String c s' => if is_space c then lstrip s' else s
  end.

Fixpoint rstrip (s : string) : string :=
  match s with
  | EmptyString => EmptyString
  | String c s' =>
      match rstrip s' with
      | EmptyString => if is_space c then EmptyString else String c EmptyString
      | r => String c r
      end
  end.

(** [int] on a plain decimal numeral. *)
Fixpoint digits (acc : Z) (s : string) : option Z :=
  match s with
  | EmptyString => Some acc
  | String c s' =>
      let n := nat_of_ascii c in
      if (Nat.leb 48 n && Nat.leb n 57)%bool
      then digits (10 * acc + Z.of_nat (n - 48)) s'
      else None
  end.

Definition int_decimal (s : string) : option Z :=
  match s with
  | EmptyString => None
  | String c s' =>
      if Ascii.eqb c "-"%char
      then match s' with EmptyString => None | _ => Z.opp <$> digits 0 s' end
      else digits 0 s
  end.

(** [strptime] on the two texts of the examples: 20 February 2026, 18:00
    and 31 December 2020, 10:00, in the day.month.year hour:minute
    format. *)
Definition strptime_sample (text fmt : string) : option Z :=
  if String.eqb fmt "%d.%m.%Y %H:%M" then
    if String.eqb text "20.02.2026 18:00" then Some 1771610400000000
    else if String.eqb text "31.12.2020 10:00" then Some 1609408800000000
    else None
  else None.

Definition sample_lib : StdLib :=
  {| strip := fun s => rstrip (lstrip s); strptime := strptime_sample; int := int_decimal |}.

(** *** Vocabulary for statements about the digest *)

(** The statuses of the data model, and the non-terminal ones. *)
Definition statuses : list string := ["todo"; "in_progress"; "done"; "cancelled"].

Definition non_terminal (s : string) : Prop := s = "todo" ∨ s = "in_progress".

(** Every task of the store carries a status of the data model. *)
Definition statuses_valid (db : Database) : Prop :=
  ∀ t, t ∈ tasks db -> status t ∈ statuses.

(** The user is enumerated by the digest: a member of an existing team. *)
Definition enumerated (db : Database) (user : Z) : Prop :=
  ∃ m tm, m ∈ team_members db ∧ tm ∈ teams db
          ∧ tm_user_id m = user ∧ tm_team_id m = team_id tm.

(** A non-terminal task due today, assigned to the user, in one of the
    user's teams. *)
Definition has_due_today (now : Z) (db : Database) (user : Z) : Prop :=
  ∃ t m tm, t ∈ tasks db ∧ m ∈ team_members db ∧ tm ∈ teams db
            ∧ tm_user_id m = user ∧ tm_team_id m = team_id tm
            ∧ task_team_id t = team_id tm
            ∧ assignee_id t = Some user
            ∧ due_on (DATE now) t = true
            ∧ non_terminal (status t).

(** A non-terminal overdue task assigned to the user. *)
Definition has_overdue (now : Z) (db : Database) (user : Z) : Prop :=
  ∃ t, t ∈ tasks db ∧ assignee_id t = Some user ∧ overdue now t = true
       ∧ non_terminal (status t).

(** A task due today whose status is neither [done] nor [cancelled],
    assigned to the user, in one of the user's teams: the filter of
    [get_tasks_today]. *)
Definition has_open_due_today (now : Z) (db : Database) (user : Z) : Prop :=
  ∃ t m tm, t ∈ tasks db ∧ m ∈ team_members db ∧ tm ∈ teams db
            ∧ tm_user_id m = user ∧ tm_team_id m = team_id tm
            ∧ task_team_id t = team_id tm
            ∧ assignee_id t = Some user
            ∧ due_on (DATE now) t = true
            ∧ status t ≠ "done" ∧ status t ≠ "cancelled".

(** The number of overdue tasks a message lists. *)
Fixpoint overdue_lines (msg : list DigestLine) : nat :=
  match msg with
  | [] => 0
  | LineOverdue _ _ :: msg' => S (overdue_lines msg')
  | _ :: msg' => overdue_lines msg'
  end.

(** [info] is among the teams the dict holds for [user]. *)
Definition entry_of (d : list (Z * list (Z * string))) (user : Z) (info : Z * string) : Prop :=
  ∃ ts, (user, ts) ∈ d ∧ info ∈ ts.

(* ===================================================================== *)
(** ** Sample data *)
(* ===================================================================== *)

(** Task #7 of team 1: written by user 1, assigned to user 42, completed
    at instant 100. *)
Definition task7 : Task :=
  {| task_id := 7; task_team_id := 1; title := "Ship the release";
     description := None; assignee_id := Some 42; author_id := 1;
     deadline := Some 1771610400000000; priority := "medium"; status := "done";
     tags := None; created_at := 10; updated_at := 100; completed_at := Some 100 |}.

Definition alice : User := mkUser 1 (Some "alice") (Some "Alice") None.
Definition bob : User := mkUser 42 (Some "bob") (Some "Bob") None.

Definition alpha : Team := mkTeam 1 "Alpha" 1 "abc123" "free" None.

Definition sample_db : Database :=
  {| users := [alice; bob];
     teams := [alpha];
     team_members := [mkTeamMember 1 1 "owner" 0; mkTeamMember 1 42 "admin" 5];
     tasks := [task7];
     reminders := [] |}.

(** An active task of team 1 with the given id. *)
Definition open_task (n : nat) : Task :=
  {| task_id := Z.of_nat n; task_team_id := 1; title := "Chore";
     description := None; assignee_id := Some 42; author_id := 1;
     deadline := None; priority := "low"; status := "todo";
     tags := None; created_at := 10; updated_at := 10; completed_at := None |}.

(** Team Alpha with twenty active tasks. *)
Definition busy_db : Database :=
  {| users := [alice; bob];
     teams := [alpha];
     team_members := [mkTeamMember 1 1 "owner" 0; mkTeamMember 1 42 "admin" 5];
     tasks := map open_task (seq 1 20);
     reminders := [] |}.

(** A team whose stored tier is not in the table. *)
Definition legacy : Team := mkTeam 2 "Legacy" 1 "zzz999" "premium" None.

Definition legacy_db : Database :=
  {| users := [alice];
     teams := [alpha; legacy];
     team_members := [mkTeamMember 1 1 "owner" 0; mkTeamMember 2 1 "owner" 0];
     tasks := [];
     reminders := [] |}.

(** Bob, an admin of team Alpha who did not write task #7, and Alice, who
    did. *)
Definition tg_bob : TgUser := mkTgUser 42 (Some "Bob") (Some "bob").
Definition tg_alice : TgUser := mkTgUser 1 (Some "Alice") (Some "alice").

(** Every external call of a handler succeeds. *)
Definition calm : CallbackEnv := mkCallbackEnv SqlOk true true.

(** Task #7 while in progress, due on 20 February 2026 at 18:00. *)
Definition task7_open : Task :=
  {| task_id := 7; task_team_id := 1; title := "Ship the release";
     description := None; assignee_id := Some 42; author_id := 1;
     deadline := Some 1771610400000000; priority := "medium"; status := "in_progress";
     tags := None; created_at := 10; updated_at := 50; completed_at := None |}.

Definition sweep_db : Database :=
  {| users := [alice; bob];
     teams := [alpha];
     team_members := [mkTeamMember 1 1 "owner" 0; mkTeamMember 1 42 "admin" 5];
     tasks := [task7_open];
     reminders := [] |}.

(** Twenty-four hours before the deadline of task #7. *)
Definition day_before : Z := 1771610400000000 - timedelta 24 0.

(** The database's clock of the samples: UTC, three hours behind the
    local clock the sweeps read. *)
Definition db_clock (n : nat) : Z := day_before - timedelta 3 0 + Z.of_nat n.

(** Transports: one that always delivers, one that is down, and one
    whose first send raises and whose later sends return. The store
    accepts every insert. *)
Definition reliable : SweepEnv := mkSweepEnv (fun _ => true) (fun _ => SqlOk) db_clock.
Definition outage : SweepEnv := mkSweepEnv (fun _ => false) (fun _ => SqlOk) db_clock.

(** Nine o'clock in the morning of 20 February 2026, the day task #7 is
    due. *)
Definition morning : Z := 1771578000000000.

(** The store after the status handler has taken the callback data
    [status_7_review] from Bob: task #7 carries the status [review]. *)
Definition review_db : Database :=
  h_db (handle_status_callback sample_lib calm 200 sweep_db tg_bob "status_7_review").

(* ===================================================================== *)
(** ** Further vocabulary: sequences of updates, sweep cadence *)
(* ===================================================================== *)

(** One call of [update_task_status]: the outcome of its [UPDATE], the
    instant of the call, the task id and the status. *)
Record StatusOp : Type := mkStatusOp {
  op_exec : SqlOutcome;
  op_now : Z;
  op_task : Z;
  op_status : string
}.

(** The store after a sequence of status updates. *)
Definition apply_status_updates (db : Database) (ops : list StatusOp) : Database :=
  foldl (fun d op => (update_task_status (op_exec op) (op_now op) d (op_task op)
                                         (op_status op)).1) db ops.

(** [setup_scheduler]: the deadline sweep is an interval job with
    [minutes=30]. *)
Definition SWEEP_INTERVAL : Z := timedelta 0 30.

(** The deadline [d] is inside the window [rt] of the sweep made at
    [now]. *)
Definition in_window (now : Z) (rt : string) (d : Z) : Prop :=
  ∃ start end_, (rt, (start, end_)) ∈ windows now ∧ BETWEEN (Some d) start end_ = true.

(* ===================================================================== *)
(** ** utils/keyboards.py *)
(* ===================================================================== *)

Record InlineKeyboardButton : Type := mkButton {
  label : string;
  callback_data : string
}.

(** [InlineKeyboardMarkup]: the rows of buttons. *)
Definition InlineKeyboardMarkup : Type := list (list InlineKeyboardButton).

(** [user_role in ("owner", "admin", None)] *)
Definition may_manage (user_role : option string) : bool :=
  match user_role with
  | None => true
  | Some r => String.eqb r "owner" || String.eqb r "admin"
  end.

Definition back_row : list InlineKeyboardButton :=
  [mkButton "🔙 Главное меню" "back_to_menu"].

Definition get_back_to_menu_keyboard : InlineKeyboardMarkup := [back_row].

Definition get_task_keyboard (task_id : Z) (current_status : string)
    (user_role : option string) (add_back_button : bool) : InlineKeyboardMarkup :=
  let status_rows :=
    if String.eqb current_status "todo" then
      [[mkButton "▶️ В работу" ("status_" ++ str task_id ++ "_in_progress")]]
    else if String.eqb current_status "in_progress" then
      [[mkButton "✅ Выполнено" ("status_" ++ str task_id ++ "_done");
        mkButton "⏸ Вернуть" ("status_" ++ str task_id ++ "_todo")]]
    else if String.eqb current_status "done" then
      [[mkButton "🔄 Вернуть в работу" ("status_" ++ str task_id ++ "_in_progress")]]
    else if String.eqb current_status "cancelled" then
      [[mkButton "🔄 Возобновить" ("status_" ++ str task_id ++ "_todo")]]
    else [] in
  let action_row :=
    [mkButton "💬 Комментарий" ("comment_" ++ str task_id)]
    ++ (if may_manage user_role
        then [mkButton "✏️ Изменить" ("edit_" ++ str task_id)] else []) in
  let manage_rows :=
    if may_manage user_role
    then [[mkButton "❌ Отменить задачу" ("cancel_" ++ str task_id);
           mkButton "🗑 Удалить" ("delete_" ++ str task_id)]]
    else [] in
  status_rows ++ [action_row] ++ manage_rows
  ++ (if add_back_button then [back_row] else []).

Definition get_delete_confirm_keyboard (task_id : Z) : InlineKeyboardMarkup :=
  [[mkButton "✅ Да, удалить" ("confirm_delete_" ++ str task_id);
    mkButton "❌ Нет" ("cancel_delete_" ++ str task_id)]].

(** Every button of a keyboard. *)
Definition buttons (kb : InlineKeyboardMarkup) : list InlineKeyboardButton := concat kb.

(* ===================================================================== *)
(** ** handlers/callbacks.py: the router and deletion *)
(* ===================================================================== *)

(** The branch of [callback_handler] that takes the callback data; the
    last constructor is the fall-through, where nothing is called. *)
Inductive Route : Type :=
| RouteBackToMenu
| RouteMenu
| RouteStatus
| RouteDelete
| RouteConfirmDelete
| RouteCancelDelete
| RouteCancelTask
| RouteComment
| RouteEdit
| RouteNone.

(** [data.startswith(p)] *)
Definition startswith (data p : string) : bool := String.prefix p data.

(** The [if]/[elif] chain of [callback_handler]. *)
Definition callback_route (data : string) : Route :=
  if String.eqb data "back_to_menu" then RouteBackToMenu
  else if startswith data "menu_" then RouteMenu
  else if startswith data "status_" then RouteStatus
  else if startswith data "delete_" then RouteDelete
  else if startswith data "confirm_delete_" then RouteConfirmDelete
  else if startswith data "cancel_delete_" then RouteCancelDelete
  else if startswith data "cancel_" then RouteCancelTask
  else if startswith data "comment_" then RouteComment
  else if startswith data "edit_" then RouteEdit
  else RouteNone.

(** [Database.delete_task]: the [DELETE], with the cascade the schema
    declares on [reminders.task_id] (foreign keys are switched on when the
    connection is opened). *)
Definition delete_task (exec : SqlOutcome) (db : Database) (tid : Z) : Database * bool :=
  match exec with
  | SqlOk =>
      ({| users := users db; teams := teams db; team_members := team_members db;
          tasks := filter (fun t => task_id t ≠ tid) (tasks db);
          reminders := filter (fun r => r_task_id r ≠ tid) (reminders db) |},
       true)
  | SqlError => (db, false)
  end.

(** What the deletion handlers show. *)
Inductive DeleteReply : Type :=
| ReplyConfirmDelete (tid : Z) (kb : InlineKeyboardMarkup)
| ReplyDeleted (tid : Z)
| ReplyDeleteError.

(** [handle_delete_callback]: asks for confirmation; the store is not
    touched. [None] stands for the [ValueError] of [int]. *)
Definition handle_delete_callback (lib : StdLib) (data : string) : option DeleteReply :=
  match int lib (remove_all "delete_" data) with
  | None => None
  | Some tid => Some (ReplyConfirmDelete tid (get_delete_confirm_keyboard tid))
  end.

(** [handle_confirm_delete_callback]. *)
Definition handle_confirm_delete_callback (lib : StdLib) (exec : SqlOutcome)
    (db : Database) (data : string) : option (Database * DeleteReply) :=
  match int lib (remove_all "confirm_delete_" data) with
  | None => None
  | Some tid =>
      let '(db1, success) := delete_task exec db tid in
      Some (db1, if success then ReplyDeleted tid else ReplyDeleteError)
  end.

(** *** Vocabulary for statements about callback data *)

(** The characters [str] writes: digits and the minus sign. *)
Definition numeric_char (c : ascii) : bool :=
  let n := nat_of_ascii c in
  (Nat.eqb n 45 || (Nat.leb 48 n && Nat.leb n 57))%bool.

Fixpoint numeric (s : string) : bool :=
  match s with
  | EmptyString => true
  | String c s' => numeric_char c && numeric s'
  end.

(* ===================================================================== *)
(** ** database.py: teams and memberships *)
(* ===================================================================== *)

Definition with_team_members (db : Database) (ms : list TeamMember) : Database :=
  {| users := users db; teams := teams db; team_members := ms;
     tasks := tasks db; reminders := reminders db |}.

Definition get_team_by_invite (db : Database) (code : string) : option Team :=
  fetchone (filter (fun t => invite_code t = code) (teams db)).

(** [Database.create_team]: two [INSERT]s in one [try], committed
    together. [rowid] is the id SQLite gives the new team; [exec] and
    [member_exec] are the outcomes of the first and of the second
    statement. The first is refused when the owner is not a registered
    user, the invite code is taken or the id is taken; the second when
    the membership exists already. A statement that raises makes the
    function return 0. There is no rollback: when the second statement
    raises, the team row written by the first stays in the connection's
    open transaction, is seen by every later query and is committed with
    the next [commit]. [now] stands for the default of [joined_at], the
    database's [CURRENT_TIMESTAMP]. *)
Definition create_team (exec member_exec : SqlOutcome) (rowid now : Z) (db : Database)
    (team_name : string) (owner : Z) (code : string) : Database * Z :=
  match exec with
  | SqlError => (db, 0)
  | SqlOk =>
      match get_user db owner, get_team_by_invite db code, get_team db rowid with
      | Some _, None, None =>
          let db1 :=
            {| users := users db;
               teams := teams db ++ [mkTeam rowid team_name owner code "free" None];
               team_members := team_members db; tasks := tasks db;
               reminders := reminders db |} in
          match member_exec, get_member_role db1 rowid owner with
          | SqlOk, None =>
              (with_team_members db1
                 (team_members db1 ++ [mkTeamMember rowid owner "owner" now]), rowid)
          | _, _ => (db1, 0)
          end
      | _, _, _ => (db, 0)
      end
  end.

(** [Database.add_team_member]: the [INSERT] raises [IntegrityError] when
    the team or the user does not exist or the pair is already there; the
    function then returns [False], as on any other [sqlite3.Error]. [now]
    stands for the default of [joined_at], the database's
    [CURRENT_TIMESTAMP]. *)
Definition add_team_member (exec : SqlOutcome) (now : Z) (db : Database)
    (tid uid : Z) (role_ : string) : Database * bool :=
  match exec with
  | SqlError => (db, false)
  | SqlOk =>
      match get_team db tid, get_user db uid, get_member_role db tid uid with
      | Some _, Some _, None =>
          (with_team_members db (team_members db ++ [mkTeamMember tid uid role_ now]), true)
      | _, _, _ => (db, false)
      end
  end.

Definition remove_team_member (exec : SqlOutcome) (db : Database) (tid uid : Z)
    : Database * bool :=
  match exec with
  | SqlError => (db, false)
  | SqlOk =>
      (with_team_members db
         (filter (fun m => ¬ (tm_team_id m = tid ∧ tm_user_id m = uid)) (team_members db)),
       true)
  end.

(** [ORDER BY tm.role DESC, tm.joined_at]: a stable insertion sort. *)
Definition member_before (a b : TeamMember) : bool :=
  match String.compare (role a) (role b) with
  | Gt => true
  | Lt => false
  | Eq => joined_at a <=? joined_at b
  end.

Fixpoint insert_member (m : TeamMember) (l : list TeamMember) : list TeamMember :=
  match l with
  | [] => [m]
  | x :: l' => if member_before m x then m :: l else x :: insert_member m l'
  end.

(** [Database.get_team_members]: the users of the team with their roles. *)
Definition get_team_members (db : Database) (tid : Z) : list (User * string) :=
  m ← foldr insert_member [] (filter (fun m => tm_team_id m = tid) (team_members db));
  u ← users db;
  if bool_decide (user_id u = tm_user_id m) then [(u, role m)] else [].

(* ===================================================================== *)
(** ** handlers/team.py: joining and leaving *)
(* ===================================================================== *)

(** Python truthiness of a value. *)
Definition py_truthy (v : Value) : bool :=
  match v with
  | VNone => false
  | VBool b => b
  | VInt z => negb (z =? 0)
  | VStr s => negb (String.eqb s "")
  | VTime _ => true
  end.

(** [notify_new_member]: one send per member; a send that raises is
    logged and the loop goes on. [send_ok n] is the outcome of the n-th
    send. *)
Record NewMemberText : Type := mkNewMemberText {
  nm_member : string;
  nm_team : string
}.

Definition notify_new_member (send_ok : nat -> bool) (member_ids : list Z)
    (new_member_name team_name : string) : list (Sent NewMemberText) :=
  imap (fun n uid => mkSent uid (mkNewMemberText new_member_name team_name) (send_ok n))
       member_ids.

(** The fields [format_limit_message] interpolates: the plan (shown in
    upper case), the count, the ceiling and the kind of item. *)
Record LimitMessage : Type := mkLimitMessage {
  lm_plan : string;
  lm_current : Value;
  lm_limit : Value;
  lm_item : string
}.

(** [format_limit_message]: a key the result of the check does not have
    raises [KeyError]; [TypeError] stands for the error of [.upper()] on
    a plan that is not a string. *)
Definition format_limit_message (check_result : gmap string Value) (item : string)
    : Result LimitMessage :=
  let! plan := getitem check_result "plan" in
  match plan with
  | VStr p =>
      let! current := getitem check_result "current" in
      let! limit := getitem check_result "limit" in
      Ok (mkLimitMessage p current limit item)
  | _ => Raise TypeError
  end.

Inductive TeamReply : Type :=
| ReplyJoinUsage
| ReplyNoSuchInvite
| ReplyMemberLimit (msg : LimitMessage)
| ReplyAlreadyMember
| ReplyJoined (team_name : string)
| ReplyNotInTeam
| ReplyOwnerCannotLeave
| ReplyLeft (team_name : string).

(** The effects of one handler call: the store after it, the reply (none
    when an exception ended the call before it), the notifications
    attempted and the exception, if any. Replies are taken to be
    delivered. *)
Record TeamHandled : Type := mkTeamHandled {
  th_db : Database;
  th_reply : option TeamReply;
  th_notified : list (Sent NewMemberText);
  th_raised : option Exception
}.

(** [join_command]: [args] is [context.args]. *)
Definition join_command (env : Environ) (exec : SqlOutcome) (send_ok : nat -> bool)
    (now : Z) (db : Database) (user : TgUser) (args : list string) : TeamHandled :=
  match args with
  | [] => mkTeamHandled db (Some ReplyJoinUsage) [] None
  | code :: _ =>
      match get_team_by_invite db code with
      | None => mkTeamHandled db (Some ReplyNoSuchInvite) [] None
      | Some team =>
          match check_member_limit env db (team_id team) with
          | Raise e => mkTeamHandled db None [] (Some e)
          | Ok limit_check =>
              match getitem limit_check "allowed" with
              | Raise e => mkTeamHandled db None [] (Some e)
              | Ok allowed =>
                  if negb (py_truthy allowed)
                  then
                    match format_limit_message limit_check "участника" with
                    | Raise e => mkTeamHandled db None [] (Some e)
                    | Ok msg => mkTeamHandled db (Some (ReplyMemberLimit msg)) [] None
                    end
                  else
                    let '(db1, success) :=
                      add_team_member exec now db (team_id team) (tg_id user) "member" in
                    if negb success then mkTeamHandled db1 (Some ReplyAlreadyMember) [] None
                    else
                      let members := get_team_members db1 (team_id team) in
                      let member_ids :=
                        filter (fun i => i ≠ tg_id user) (map (fun m => user_id m.1) members) in
                      let member_name :=
                        or_else (tg_first_name user)
                                (or_else (tg_username user) (str (tg_id user))) in
                      mkTeamHandled db1 (Some (ReplyJoined (name team)))
                        (notify_new_member send_ok member_ids member_name (name team)) None
              end
          end
      end
  end.

(** [leave_command]. *)
Definition leave_command (exec : SqlOutcome) (db : Database) (user : TgUser) : TeamHandled :=
  match get_user_active_team db (tg_id user) with
  | None => mkTeamHandled db (Some ReplyNotInTeam) [] None
  | Some team =>
      if bool_decide (owner_id team = tg_id user)
      then mkTeamHandled db (Some ReplyOwnerCannotLeave) [] None
      else
        mkTeamHandled (remove_team_member exec db (team_id team) (tg_id user)).1
                      (Some (ReplyLeft (name team))) [] None
  end.

(** *** Vocabulary for statements about memberships *)

(** The primary key of [teams] and the uniqueness constraint of
    [team_members]. *)
Definition team_ids_unique (db : Database) : Prop := NoDup (team_id <$> teams db).

Definition memberships_unique (db : Database) : Prop :=
  NoDup ((fun m => (tm_team_id m, tm_user_id m)) <$> team_members db).

(** The foreign keys of [team_members]. *)
Definition memberships_refer (db : Database) : Prop :=
  ∀ m, m ∈ team_members db ->
       is_Some (get_team db (tm_team_id m)) ∧ is_Some (get_user db (tm_user_id m)).

(** The owner of every team is a member of it with the role [owner]. *)
Definition owners_are_members (db : Database) : Prop :=
  ∀ t, t ∈ teams db ->
       ∃ m, m ∈ team_members db ∧ tm_team_id m = team_id t
            ∧ tm_user_id m = owner_id t ∧ role m = "owner".

(** The ceiling [check_member_limit] compares a team's size with. *)
Definition member_ceiling (env : Environ) (team : Team) : Z :=
  max_members (dict_get (SUBSCRIPTION_LIMITS env) (subscription_type team) (free_limits env)).

(** [Database.add_user]: insert, or update the names of the row that has
    the id. An [sqlite3.Error] is logged and swallowed. *)
Definition add_user (exec : SqlOutcome) (db : Database) (uid : Z)
    (username_ first_name_ last_name_ : option string) : Database :=
  match exec with
  | SqlError => db
  | SqlOk =>
      let row := mkUser uid username_ first_name_ last_name_ in
      {| users :=
           match get_user db uid with
           | Some _ => map (fun u => if bool_decide (user_id u = uid) then row else u) (users db)
           | None => users db ++ [row]
           end;
         teams := teams db; team_members := team_members db;
         tasks := tasks db; reminders := reminders db |}
  end.

(** The operations on users, teams and memberships. *)
Inductive TeamOp : Type :=
| OpAddUser (exec : SqlOutcome) (uid : Z) (username_ first_name_ last_name_ : option string)
| OpCreateTeam (exec member_exec : SqlOutcome) (rowid now : Z) (team_name : string)
               (owner : Z) (code : string)
| OpJoin (exec : SqlOutcome) (send_ok : nat -> bool) (now : Z) (user : TgUser)
         (args : list string)
| OpLeave (exec : SqlOutcome) (user : TgUser).

Definition run_team_op (env : Environ) (db : Database) (op : TeamOp) : Database :=
  match op with
  | OpAddUser exec uid un fn ln => add_user exec db uid un fn ln
  | OpCreateTeam exec member_exec rowid now team_name owner code =>
      (create_team exec member_exec rowid now db team_name owner code).1
  | OpJoin exec send_ok now user args => th_db (join_command env exec send_ok now db user args)
  | OpLeave exec user => th_db (leave_command exec db user)
  end.

Definition run_team_ops (env : Environ) (db : Database) (ops : list TeamOp) : Database :=
  foldl (run_team_op env) db ops.

(** The constraints of the schema on teams and memberships, together with
    the rule that every team's owner is a member of it. *)
Definition store_consistent (db : Database) : Prop :=
  team_ids_unique db ∧ memberships_unique db ∧ memberships_refer db ∧ owners_are_members db.

(** The constraints of the schema alone. *)
Definition schema_consistent (db : Database) : Prop :=
  team_ids_unique db ∧ memberships_unique db ∧ memberships_refer db.

(** In every [create_team] of the sequence the second [INSERT] executes. *)
Definition owner_inserts_execute (ops : list TeamOp) : Prop :=
  ∀ exec member_exec rowid now team_name owner code,
    OpCreateTeam exec member_exec rowid now team_name owner code ∈ ops ->
    member_exec = SqlOk.

Definition empty_db : Database := mkDatabase [] [] [] [] [].

(** Team Alpha with Carol registered but not yet a member. *)
Definition carol : User := mkUser 5 (Some "carol") (Some "Carol") None.
Definition tg_carol : TgUser := mkTgUser 5 (Some "Carol") (Some "carol").

Definition club_db : Database :=
  {| users := [alice; bob; carol];
     teams := [alpha];
     team_members := [mkTeamMember 1 1 "owner" 0; mkTeamMember 1 42 "admin" 5];
     tasks := [task7_open];
     reminders := [] |}.

(** Carol belongs to two teams and joined team Beta (id 2) before team
    Alpha (id 1). *)
Definition beta : Team := mkTeam 2 "Beta" 5 "xyz789" "free" None.

Definition two_team_db : Database :=
  {| users := [alice; bob; carol];
     teams := [alpha; beta];
     team_members := [mkTeamMember 1 1 "owner" 0; mkTeamMember 2 5 "owner" 3;
                      mkTeamMember 1 5 "member" 8];
     tasks := [];
     reminders := [] |}.

(* ===================================================================== *)
(** ** database.py: creating a task *)
(* ===================================================================== *)

(** The row an [INSERT] into [tasks] writes: the columns not listed in
    the statement take their defaults; [now] stands for that of
    [created_at] and [updated_at], the database's [CURRENT_TIMESTAMP]. *)
Definition new_task (rowid now team : Z) (title_ : string) (author : Z)
    (description_ : option string) (assignee deadline_ : option Z) (priority_ : string)
    : Task :=
  {| task_id := rowid; task_team_id := team; title := title_;
     description := description_; assignee_id := assignee; author_id := author;
     deadline := deadline_; priority := priority_; status := "todo";
     tags := None; created_at := now; updated_at := now; completed_at := None |}.

(** [Database.create_task]. [rowid] is the id SQLite gives the new task.
    The [INSERT] is refused when the team, the author or a given assignee
    does not exist, or when the id is taken; the function then returns 0,
    as on any other [sqlite3.Error]. *)
Definition create_task (exec : SqlOutcome) (rowid now : Z) (db : Database)
    (team : Z) (title_ : string) (author : Z) (description_ : option string)
    (assignee : option Z) (deadline_ : option Z) (priority_ : string) : Database * Z :=
  match exec with
  | SqlError => (db, 0)
  | SqlOk =>
      let assignee_ok :=
        match assignee with
        | None => true
        | Some a => bool_decide (is_Some (get_user db a))
        end in
      if bool_decide (is_Some (get_team db team))
         && bool_decide (is_Some (get_user db author))
         && assignee_ok
         && bool_decide (get_task db rowid = None)
      then
        (with_tasks db
           (tasks db ++
            [new_task rowid now team title_ author description_ assignee deadline_
                      priority_]),
         rowid)
      else (db, 0)
  end.

(* ===================================================================== *)
(** ** utils/keyboards.py and utils/notifications.py for the wizard *)
(* ===================================================================== *)

(** One row of [get_members_keyboard]. *)
Definition member_button (action : string) (member : User * string) : InlineKeyboardButton :=
  let name_ :=
    or_else (first_name member.1) (or_else (username member.1) (str (user_id member.1))) in
  let role_badge :=
    if String.eqb member.2 "owner" then "👑 "
    else if String.eqb member.2 "admin" then "⭐ " else "" in
  mkButton (role_badge ++ name_) (action ++ "_" ++ str (user_id member.1)).

Definition get_members_keyboard (members : list (User * string)) (action : string)
    : InlineKeyboardMarkup :=
  map (fun m => [member_button action m]) members
  ++ [[mkButton "👤 Без исполнителя" (action ++ "_none")]].

(** The fields interpolated into the assignment message. *)
Record AssignedText : Type := mkAssignedText {
  as_task_id : Z;
  as_title : string;
  as_emoji : string;
  as_priority : string;
  as_author : string;
  as_deadline : option Z
}.

(** [notify_task_assigned]: one send to the assignee; a raising send is
    logged and swallowed. *)
Definition notify_task_assigned (send_returns : bool) (assignee : Z) (task : Task)
    (author_name : string) : list (Sent AssignedText) :=
  [ mkSent assignee
      (mkAssignedText (task_id task) (title task)
         (dict_get PRIORITY_EMOJI (priority task) "⚪️") (priority task) author_name
         (deadline task))
      send_returns ].

(* ===================================================================== *)
(** ** handlers/tasks.py: the other steps of the wizard *)
(* ===================================================================== *)

(** [len]: the number of code points of a text, a function of the
    standard library like those of [StdLib]. *)
Definition Len : Type := string -> Z.

Inductive NewTaskReply : Type :=
| ReplyNoTeam
| ReplyTaskLimit (msg : LimitMessage)
| ReplyAskTitle.

(** [newtask_command]: the reply, the next state and the draft stored
    under [new_task], if one is. *)
Definition newtask_command (env : Environ) (db : Database) (user : TgUser)
    : Result (NewTaskReply * Z * option (gmap string Value)) :=
  match get_user_active_team db (tg_id user) with
  | None => Ok (ReplyNoTeam, END, None)
  | Some team =>
      let! limit_check := check_task_limit env db (team_id team) in
      let! allowed := getitem limit_check "allowed" in
      if negb (py_truthy allowed) then
        let! msg := format_limit_message limit_check "задачу" in
        Ok (ReplyTaskLimit msg, END, None)
      else Ok (ReplyAskTitle, STATE_TITLE, Some (<["team_id" := VInt (team_id team)]> ∅))
  end.

Inductive StepReply : Type :=
| ReplyTitleTooLong
| ReplyTitleTooShort
| ReplyAskDescription
| ReplyDescriptionTooLong
| ReplyAskAssignee (kb : InlineKeyboardMarkup)
| ReplyAskDeadline
| ReplyAskPriorityAfterSkip
| ReplyPreview (task_title : string) (task_description : option string)
               (assignee_name : string) (task_deadline : Value) (emoji priority_ : string).

(** The effects of one step: the reply (none when an exception ended the
    call before it), the state the conversation is in afterwards, the
    draft, and the exception, if any. An exception leaves the
    conversation in the state it was in. *)
Record StepOut : Type := mkStepOut {
  so_reply : option StepReply;
  so_state : Z;
  so_draft : gmap string Value;
  so_raised : option Exception
}.

Definition task_title_received (lib : StdLib) (len : Len) (message_text : string)
    (draft : gmap string Value) : StepOut :=
  let title_ := strip lib message_text in
  if 200 <? len title_ then mkStepOut (Some ReplyTitleTooLong) STATE_TITLE draft None
  else if len title_ <? 2 then mkStepOut (Some ReplyTitleTooShort) STATE_TITLE draft None
  else mkStepOut (Some ReplyAskDescription) STATE_DESCRIPTION
                 (<["title" := VStr title_]> draft) None.

(** The integer held by a value; a value of another kind is not one the
    wizard writes, and the model raises [TypeError] for it. *)
Definition as_int (v : Value) : Result Z :=
  match v with VInt z => Ok z | _ => Raise TypeError end.

Definition as_str (v : Value) : Result string :=
  match v with VStr s => Ok s | _ => Raise TypeError end.

Definition as_opt_int (v : option Value) : Result (option Z) :=
  match v with
  | None | Some VNone => Ok None
  | Some (VInt z) => Ok (Some z)
  | Some _ => Raise TypeError
  end.

Definition as_opt_str (v : option Value) : Result (option string) :=
  match v with
  | None | Some VNone => Ok None
  | Some (VStr s) => Ok (Some s)
  | Some _ => Raise TypeError
  end.

Definition as_opt_time (v : option Value) : Result (option Z) :=
  match v with
  | None | Some VNone => Ok None
  | Some (VTime t) => Ok (Some t)
  | Some _ => Raise TypeError
  end.

(** [_ask_assignee], called in the state [from]: the keyboard of the
    members of the draft's team. *)
Definition _ask_assignee (db : Database) (from : Z) (draft : gmap string Value) : StepOut :=
  match (let! v := getitem draft "team_id" in as_int v) with
  | Raise e => mkStepOut None from draft (Some e)
  | Ok team =>
      mkStepOut (Some (ReplyAskAssignee
                         (get_members_keyboard (get_team_members db team) "assign")))
                STATE_ASSIGNEE draft None
  end.

Definition task_description_received (lib : StdLib) (len : Len) (db : Database)
    (message_text : string) (draft : gmap string Value) : StepOut :=
  let description_ := strip lib message_text in
  if 1000 <? len description_
  then mkStepOut (Some ReplyDescriptionTooLong) STATE_DESCRIPTION draft None
  else _ask_assignee db STATE_DESCRIPTION (<["description" := VStr description_]> draft).

Definition task_description_skipped (db : Database) (draft : gmap string Value) : StepOut :=
  _ask_assignee db STATE_DESCRIPTION (<["description" := VNone]> draft).

(** [task_assignee_selected]: callback data [assign_{user_id}] or
    [assign_none]. *)
Definition task_assignee_selected (lib : StdLib) (data : string)
    (draft : gmap string Value) : StepOut :=
  let assignee := remove_all "assign_" data in
  if String.eqb assignee "none"
  then mkStepOut (Some ReplyAskDeadline) STATE_DEADLINE (<["assignee_id" := VNone]> draft) None
  else
    match int lib assignee with
    | None => mkStepOut None STATE_ASSIGNEE draft (Some ValueError)
    | Some a =>
        mkStepOut (Some ReplyAskDeadline) STATE_DEADLINE (<["assignee_id" := VInt a]> draft)
                  None
    end.

Definition task_deadline_skipped (draft : gmap string Value) : StepOut :=
  mkStepOut (Some ReplyAskPriorityAfterSkip) STATE_PRIORITY (<["deadline" := VNone]> draft)
            None.

(** The preview [task_priority_selected] renders from the draft. *)
Definition preview (db : Database) (priority_ : string) (task_data : gmap string Value)
    : Result StepReply :=
  let! assignee := as_opt_int (task_data !! "assignee_id") in
  let assignee_name :=
    if truthy assignee then
      match assignee ≫= get_user db with
      | Some a => or_else (first_name a) (or_else (username a) "—")
      | None => "Не назначен"
      end
    else "Не назначен" in
  let! t := getitem task_data "title" in
  let! title_ := as_str t in
  let! d := as_opt_str (task_data !! "description") in
  Ok (ReplyPreview title_ (if py_truthy (default VNone (VStr <$> d)) then d else None)
        assignee_name
        (dict_get task_data "deadline" (VStr "Не установлен"))
        (dict_get PRIORITY_EMOJI priority_ "⚪️") priority_).

(** [task_priority_selected]: callback data [priority_{low|medium|high}]. *)
Definition task_priority_selected (db : Database) (data : string)
    (draft : gmap string Value) : StepOut :=
  let priority_ := remove_all "priority_" data in
  let task_data := <["priority" := VStr priority_]> draft in
  match preview db priority_ task_data with
  | Raise e => mkStepOut None STATE_PRIORITY task_data (Some e)
  | Ok p => mkStepOut (Some p) STATE_CONFIRM task_data None
  end.

Inductive ConfirmReply : Type :=
| ReplyCreationCancelled
| ReplyCreationFailed
| ReplyCreated (tid : Z) (task_title : string).

(** The effects of [task_confirmed]: the store, the reply, the next
    state, what is left of the draft, the notification attempted and the
    exception that ended the call, if any. *)
Record Confirmed : Type := mkConfirmed {
  cf_db : Database;
  cf_reply : option ConfirmReply;
  cf_state : Z;
  cf_draft : option (gmap string Value);
  cf_notified : list (Sent AssignedText);
  cf_raised : option Exception
}.

(** The outcomes of the external calls of [task_confirmed]: the
    [INSERT], the id it gives, and the notification's send. *)
Record ConfirmEnv : Type := mkConfirmEnv {
  ce_exec : SqlOutcome;
  ce_rowid : Z;
  ce_send_returns : bool
}.

(** The arguments [task_confirmed] reads from the draft. *)
Definition draft_fields (task_data : gmap string Value)
    : Result (Z * string * option string * option Z * option Z * string) :=
  let! v := getitem task_data "team_id" in
  let! team := as_int v in
  let! t := getitem task_data "title" in
  let! title_ := as_str t in
  let! description_ := as_opt_str (task_data !! "description") in
  let! assignee := as_opt_int (task_data !! "assignee_id") in
  let! deadline_ := as_opt_time (task_data !! "deadline") in
  let! priority_ := as_str (dict_get task_data "priority" (VStr "medium")) in
  Ok (team, title_, description_, assignee, deadline_, priority_).

Definition task_confirmed (env : ConfirmEnv) (now : Z) (db : Database) (user : TgUser)
    (data : string) (draft : gmap string Value) : Confirmed :=
  if String.eqb data "confirm_no"
  then mkConfirmed db (Some ReplyCreationCancelled) END None [] None
  else
    match draft_fields draft with
    | Raise e => mkConfirmed db None STATE_CONFIRM (Some draft) [] (Some e)
    | Ok (team, title_, description_, assignee, deadline_, priority_) =>
        let '(db1, tid) :=
          create_task (ce_exec env) (ce_rowid env) now db team title_ (tg_id user)
                      description_ assignee deadline_ priority_ in
        if tid =? 0 then mkConfirmed db1 (Some ReplyCreationFailed) END None [] None
        else
          let created := Some (ReplyCreated tid title_) in
          if truthy assignee && negb (bool_decide (assignee = Some (tg_id user))) then
            match get_task db1 tid with
            | Some task =>
                mkConfirmed db1 created END None
                  (notify_task_assigned (ce_send_returns env) (default 0 assignee) task
                     (or_else (tg_first_name user)
                              (or_else (tg_username user) (str (tg_id user)))))
                  None
            | None => mkConfirmed db1 created STATE_CONFIRM (Some draft) [] (Some TypeError)
            end
          else mkConfirmed db1 created END None [] None
    end.

(** The ceiling [check_task_limit] compares a team's active tasks with. *)
Definition task_ceiling (env : Environ) (team : Team) : Z :=
  max_tasks (dict_get (SUBSCRIPTION_LIMITS env) (subscription_type team) (free_limits env)).

(** [get_priority_keyboard] and [get_confirm_keyboard]. *)
Definition get_priority_keyboard : InlineKeyboardMarkup :=
  [[mkButton "🟢 Низкий" "priority_low";
    mkButton "🟡 Средний" "priority_medium";
    mkButton "🔴 Высокий" "priority_high"]].

Definition get_confirm_keyboard : InlineKeyboardMarkup :=
  [[mkButton "✅ Создать" "confirm_yes"; mkButton "❌ Отменить" "confirm_no"]].

(** [len] on texts of one-byte characters. *)
Definition len_bytes : Len := fun s => Z.of_nat (String.length s).

(** A store's outcomes for a confirmation that succeeds, with 8 as the
    id of the new task. *)
Definition smooth : ConfirmEnv := mkConfirmEnv SqlOk 8 true.

(* ===================================================================== *)
(** ** Subscriptions: database.py and utils/validators.py *)
(* ===================================================================== *)

Definition with_teams (db : Database) (ts : list Team) : Database :=
  {| users := users db; teams := ts; team_members := team_members db;
     tasks := tasks db; reminders := reminders db |}.

Definition set_subscription (sub_type : string) (expires : option Z) (t : Team) : Team :=
  {| team_id := team_id t; name := name t; owner_id := owner_id t;
     invite_code := invite_code t; subscription_type := sub_type;
     subscription_expires := expires |}.

(** [Database.update_subscription]: the [UPDATE] of the rows that have the
    team id; [True] whenever the statement executes. *)
Definition update_subscription (exec : SqlOutcome) (db : Database) (tid : Z)
    (sub_type : string) (expires : option Z) : Database * bool :=
  match exec with
  | SqlError => (db, false)
  | SqlOk =>
      (with_teams db
         (map (fun t => if bool_decide (team_id t = tid)
                        then set_subscription sub_type expires t else t)
              (teams db)),
       true)
  end.

(** [limits.get(feature, False)] on an entry of [SUBSCRIPTION_LIMITS]. *)
Definition limits_get (l : Limits) (feature : string) : Value :=
  if String.eqb feature "max_members" then VInt (max_members l)
  else if String.eqb feature "max_tasks" then VInt (max_tasks l)
  else if String.eqb feature "reminders" then VBool (feat_reminders l)
  else if String.eqb feature "calendar_export" then VBool (feat_calendar_export l)
  else if String.eqb feature "analytics" then VBool (feat_analytics l)
  else VBool false.

(** [check_feature_access]. *)
Definition check_feature_access (env : Environ) (db : Database) (tid : Z) (feature : string)
    : Result Value :=
  match get_team db tid with
  | None => Ok (VBool false)
  | Some team =>
      let plan := subscription_type team in
      let! free := getitem (SUBSCRIPTION_LIMITS env) "free" in
      let limits := dict_get (SUBSCRIPTION_LIMITS env) plan free in
      Ok (limits_get limits feature)
  end.

(** The features a tier can switch on. *)
Definition features : list string := ["reminders"; "calendar_export"; "analytics"].

(** Two stores that differ at most in the subscriptions of their teams. *)
Definition same_but_subscriptions (db db' : Database) : Prop :=
  users db' = users db ∧ team_members db' = team_members db
  ∧ tasks db' = tasks db ∧ reminders db' = reminders db
  ∧ (λ t, (team_id t, name t, owner_id t, invite_code t)) <$> teams db'
    = (λ t, (team_id t, name t, owner_id t, invite_code t)) <$> teams db.

(** Two worlds that agree on everything a sweep reads or writes. *)
Definition sweep_alike (w w' : World) : Prop :=
  same_but_subscriptions (w_db w) (w_db w') ∧ w_outbox w' = w_outbox w.

(* ===================================================================== *)
(** ** The task store: status updates *)
(* ===================================================================== *)

Section StatusUpdate.
Context (now : Z) (db : Database) (tid : Z) (st : string).

Lemma update_task_status_ok :
  update_task_status SqlOk now db tid st
  = (with_tasks db (map (updated_row now tid st) (tasks db)), true).
Proof. reflexivity. Qed.

Lemma updated_row_id (t : Task) : task_id (updated_row now tid st t) = task_id t.
Proof. unfold updated_row. case_bool_decide; reflexivity. Qed.

Lemma filter_id_map_updated (k : Z) (l : list Task) :
  filter (fun t => task_id t = k) (map (updated_row now tid st) l)
  = map (updated_row now tid st) (filter (fun t => task_id t = k) l).
Proof.
  induction l as [|t l IH]; [reflexivity|].
  cbn [map]. rewrite !filter_cons, updated_row_id.
  destruct (decide (task_id t = k)); cbn [map]; rewrite IH; reflexivity.
Qed.

(** Reading a task back after the update. *)
Lemma get_task_update (k : Z) :
  get_task (update_task_status SqlOk now db tid st).1 k
  = updated_row now tid st <$> get_task db k.
Proof.
  unfold get_task, fetchone. cbn. rewrite filter_id_map_updated.
  destruct (filter _ (tasks db)); reflexivity.
Qed.

Lemma updated_row_id_raw (t : Task) :
  task_id (if bool_decide (task_id t = tid) then set_status now st t else t) = task_id t.
Proof. case_bool_decide; reflexivity. Qed.

Lemma lookup_update (i : nat) :
  tasks (update_task_status SqlOk now db tid st).1 !! i
  = updated_row now tid st <$> (tasks db !! i).
Proof. cbn. apply list_lookup_fmap. Qed.
End StatusUpdate.

(** The update touches the [tasks] table only. *)
Lemma update_task_status_frame (exec : SqlOutcome) (now : Z) (db : Database) (tid : Z)
    (st : string) :
  let db' := (update_task_status exec now db tid st).1 in
  users db' = users db ∧ teams db' = teams db
  ∧ team_members db' = team_members db ∧ reminders db' = reminders db.
Proof. destruct exec; cbn; auto. Qed.

(** C4. For a task whose [completed_at] is set, a transition to a status
    other than [done] rewrites the row with the new status and the new
    [updated_at] and nothing else: [completed_at] and every other column
    keep their values, the other rows and the other tables are as
    before. *)
Theorem status_regression_keeps_completed_at
    (now : Z) (db : Database) (tid : Z) (st : string) (i : nat) (t : Task) (c : Z) :
  tasks db !! i = Some t ->
  task_id t = tid ->
  completed_at t = Some c ->
  st ≠ "done" ->
  let db' := (update_task_status SqlOk now db tid st).1 in
  tasks db' !! i =
    Some {| task_id := task_id t; task_team_id := task_team_id t; title := title t;
            description := description t; assignee_id := assignee_id t;
            author_id := author_id t; deadline := deadline t; priority := priority t;
            status := st; tags := tags t; created_at := created_at t;
            updated_at := now; completed_at := Some c |}
  ∧ (∀ j u, tasks db !! j = Some u -> task_id u ≠ tid -> tasks db' !! j = Some u)
  ∧ users db' = users db ∧ teams db' = teams db
  ∧ team_members db' = team_members db ∧ reminders db' = reminders db.
Proof.
  intros Hi Hid Hc Hst db'. subst db'.
  split; [|split; [|apply update_task_status_frame]].
  - rewrite lookup_update, Hi. cbn. unfold updated_row.
    rewrite bool_decide_eq_true_2 by exact Hid.
    unfold set_status. apply String.eqb_neq in Hst. rewrite Hst, Hc. reflexivity.
  - intros j u Hj Hne. rewrite lookup_update, Hj. cbn. unfold updated_row.
    rewrite bool_decide_eq_false_2 by exact Hne. reflexivity.
Qed.

Lemma status_regression_keeps_completed_at_witness :
  tasks (update_task_status SqlOk 200 sample_db 7 "todo").1 !! 0%nat =
    Some {| task_id := 7; task_team_id := 1; title := "Ship the release";
            description := None; assignee_id := Some 42; author_id := 1;
            deadline := Some 1771610400000000; priority := "medium"; status := "todo";
            tags := None; created_at := 10; updated_at := 200;
            completed_at := Some 100 |}.
Proof.
  refine (proj1 (status_regression_keeps_completed_at
                   200 sample_db 7 "todo" 0%nat task7 100 _ _ _ _));
    [reflexivity | reflexivity | reflexivity | discriminate].
Defined.

(** C2 (as the code has it). Every executed transition to [done] stamps
    [completed_at] with the instant of that transition, whether or not the
    column was set before. Leaving [done] keeps the stamp, whichever it
    is, and re-entering [done] replaces it with the instant of the
    re-entry. *)
Theorem done_stamps_completed_at_every_time
    (db : Database) (tid : Z) (st : string) (t0 t1 t2 : Z) (i : nat) (t : Task) :
  tasks db !! i = Some t ->
  task_id t = tid ->
  st ≠ "done" ->
  let db0 := (update_task_status SqlOk t0 db tid "done").1 in
  let db1 := (update_task_status SqlOk t1 db0 tid st).1 in
  let db2 := (update_task_status SqlOk t2 db1 tid "done").1 in
  completed_at <$> (tasks db0 !! i) = Some (Some t0)
  ∧ completed_at <$> (tasks db1 !! i) = Some (Some t0)
  ∧ completed_at <$> (tasks db2 !! i) = Some (Some t2)
  ∧ (∀ c, completed_at t = Some c ->
          completed_at <$> (tasks (update_task_status SqlOk t1 db tid st).1 !! i)
          = Some (Some c)).
Proof.
  intros Hi Hid Hst db0 db1 db2. subst db0 db1 db2.
  rewrite !lookup_update, Hi. cbn. unfold updated_row.
  rewrite !updated_row_id_raw, !bool_decide_eq_true_2 by exact Hid.
  apply String.eqb_neq in Hst.
  split; [reflexivity|]. split; [cbn; rewrite Hst; reflexivity|].
  split; [reflexivity|].
  intros c Hc. cbn. rewrite Hst, Hc. reflexivity.
Qed.

Lemma done_stamps_completed_at_every_time_witness :
  let db0 := (update_task_status SqlOk 100 sweep_db 7 "done").1 in
  let db1 := (update_task_status SqlOk 200 db0 7 "todo").1 in
  let db2 := (update_task_status SqlOk 300 db1 7 "done").1 in
  completed_at <$> (tasks db0 !! 0%nat) = Some (Some 100)
  ∧ completed_at <$> (tasks db1 !! 0%nat) = Some (Some 100)
  ∧ completed_at <$> (tasks db2 !! 0%nat) = Some (Some 300)
  ∧ (∀ c, completed_at task7_open = Some c ->
          completed_at <$> (tasks (update_task_status SqlOk 200 sweep_db 7 "todo").1 !! 0%nat)
          = Some (Some c)).
Proof.
  apply (done_stamps_completed_at_every_time sweep_db 7 "todo" 100 200 300 0%nat task7_open);
    [reflexivity | reflexivity | discriminate].
Defined.

(** C2, refuted as stated: task #7 was completed at instant 100; it is
    moved back to [todo] at 200 and to [done] again at 300, and its
    [completed_at] is then 300, not 100. *)
Lemma completed_at_not_set_once :
  let db1 := (update_task_status SqlOk 200 sample_db 7 "todo").1 in
  let db2 := (update_task_status SqlOk 300 db1 7 "done").1 in
  completed_at <$> get_task sample_db 7 = Some (Some 100)
  ∧ status <$> get_task db1 7 = Some "todo"
  ∧ completed_at <$> get_task db2 7 = Some (Some 300)
  ∧ completed_at <$> get_task db2 7 ≠ completed_at <$> get_task sample_db 7.
Proof. cbv zeta. repeat split; [reflexivity .. | discriminate]. Qed.

(** C9. The status argument is not validated: whatever the string, the
    update (when the statement executes) returns [True] and the task read
    back carries that string as its status. *)
Theorem update_task_status_accepts_any_status
    (now : Z) (db : Database) (tid : Z) (s : string) :
  (update_task_status SqlOk now db tid s).2 = true
  ∧ (∀ t, get_task db tid = Some t ->
          status <$> get_task (update_task_status SqlOk now db tid s).1 tid = Some s).
Proof.
  split; [reflexivity|].
  intros t Ht. rewrite get_task_update, Ht. cbn. unfold updated_row.
  assert (task_id t = tid) as Hid.
  { unfold get_task, fetchone in Ht. apply head_Some_elem_of in Ht.
    apply list_elem_of_filter in Ht. tauto. }
  rewrite bool_decide_eq_true_2 by exact Hid. reflexivity.
Qed.

(** An instance outside the enumeration. *)
Example status_outside_enumeration :
  status <$> get_task (update_task_status SqlOk 200 sample_db 7 "archived").1 7
  = Some "archived".
Proof. reflexivity. Qed.

(* ===================================================================== *)
(** ** The limit guard *)
(* ===================================================================== *)

Lemma limits_free (env : Environ) :
  getitem (SUBSCRIPTION_LIMITS env) "free" = Ok (free_limits env).
Proof. reflexivity. Qed.

Lemma limits_unknown (env : Environ) (plan : string) :
  plan ≠ "free" -> plan ≠ "pro" -> plan ≠ "enterprise" ->
  SUBSCRIPTION_LIMITS env !! plan = None.
Proof.
  intros Hf Hp He. unfold SUBSCRIPTION_LIMITS.
  rewrite !lookup_insert_ne by congruence. apply lookup_empty.
Qed.

Lemma limit_decision_lookups (allowed : bool) (current limit : Z) (plan : string) :
  let d := limit_decision allowed current limit plan in
  d !! "allowed" = Some (VBool allowed) ∧ d !! "current" = Some (VInt current)
  ∧ d !! "limit" = Some (VInt limit) ∧ d !! "plan" = Some (VStr plan).
Proof. repeat split. Qed.

(** The check on an existing team, in closed form. *)
Lemma check_task_limit_existing (env : Environ) (db : Database) (tid : Z) (team : Team) :
  get_team db tid = Some team ->
  let limits := dict_get (SUBSCRIPTION_LIMITS env) (subscription_type team) (free_limits env) in
  let current := get_active_tasks_count db tid in
  check_task_limit env db tid
  = Ok (limit_decision (current <? max_tasks limits) current (max_tasks limits)
                       (subscription_type team)).
Proof. intros Ht. unfold check_task_limit. rewrite Ht, limits_free. reflexivity. Qed.

Lemma check_member_limit_existing (env : Environ) (db : Database) (tid : Z) (team : Team) :
  get_team db tid = Some team ->
  let limits := dict_get (SUBSCRIPTION_LIMITS env) (subscription_type team) (free_limits env) in
  let current := get_team_member_count db tid in
  check_member_limit env db tid
  = Ok (limit_decision (current <? max_members limits) current (max_members limits)
                       (subscription_type team)).
Proof. intros Ht. unfold check_member_limit. rewrite Ht, limits_free. reflexivity. Qed.

(** C5. For an existing team the task-limit check raises nothing and
    returns a dict with the keys [allowed], [current], [limit] and [plan]
    (the tier): [current] is the number of active tasks, [plan] the
    stored tier, [allowed] is [current < limit]. On the free tier [limit]
    is the free [max_tasks], and a team with exactly that many active
    tasks gets [allowed = False]. *)
Theorem check_task_limit_structured
    (env : Environ) (db : Database) (tid : Z) (team : Team) :
  get_team db tid = Some team ->
  ∃ (d : gmap string Value) (limit : Z),
    check_task_limit env db tid = Ok d
    ∧ d !! "current" = Some (VInt (get_active_tasks_count db tid))
    ∧ d !! "limit" = Some (VInt limit)
    ∧ d !! "plan" = Some (VStr (subscription_type team))
    ∧ d !! "allowed" = Some (VBool (get_active_tasks_count db tid <? limit))
    ∧ (subscription_type team = "free" ->
       limit = FREE_TASK_LIMIT env
       ∧ (get_active_tasks_count db tid = FREE_TASK_LIMIT env ->
          d !! "allowed" = Some (VBool false))).
Proof.
  intros Ht. eexists _, _. split; [apply (check_task_limit_existing env db tid team Ht)|].
  repeat split; try reflexivity.
  - match goal with H : subscription_type team = _ |- _ => rewrite H end. reflexivity.
  - intros Hcur.
    match goal with H : subscription_type team = _ |- _ => rewrite H end.
    cbn. rewrite Hcur, Z.ltb_irrefl. reflexivity.
Qed.

Lemma check_task_limit_structured_witness :
  ∃ (d : gmap string Value) (limit : Z),
    check_task_limit default_environ busy_db 1 = Ok d
    ∧ d !! "current" = Some (VInt (get_active_tasks_count busy_db 1))
    ∧ d !! "limit" = Some (VInt limit)
    ∧ d !! "plan" = Some (VStr (subscription_type alpha))
    ∧ d !! "allowed" = Some (VBool (get_active_tasks_count busy_db 1 <? limit))
    ∧ (subscription_type alpha = "free" ->
       limit = FREE_TASK_LIMIT default_environ
       ∧ (get_active_tasks_count busy_db 1 = FREE_TASK_LIMIT default_environ ->
          d !! "allowed" = Some (VBool false))).
Proof. apply (check_task_limit_structured default_environ busy_db 1 alpha). reflexivity. Defined.

(** The scenario of the specification: team Alpha, free tier, limit 20,
    twenty active tasks. *)
Example alpha_at_limit :
  check_task_limit default_environ busy_db 1 = Ok (limit_decision false 20 20 "free").
Proof. reflexivity. Qed.

(** C10. A team whose stored tier is none of [free], [pro] and
    [enterprise] is checked against the free tier's entry: both checks
    return, with [limit] the free ceiling and [allowed] the comparison of
    the count with it; [plan] still reports the stored tier. *)
Theorem unknown_tier_uses_free_limits
    (env : Environ) (db : Database) (tid : Z) (team : Team) :
  get_team db tid = Some team ->
  subscription_type team ≠ "free" ->
  subscription_type team ≠ "pro" ->
  subscription_type team ≠ "enterprise" ->
  dict_get (SUBSCRIPTION_LIMITS env) (subscription_type team) (free_limits env)
  = dict_get (SUBSCRIPTION_LIMITS env) "free" (free_limits env)
  ∧ check_task_limit env db tid
    = Ok (limit_decision (get_active_tasks_count db tid <? FREE_TASK_LIMIT env)
                         (get_active_tasks_count db tid) (FREE_TASK_LIMIT env)
                         (subscription_type team))
  ∧ check_member_limit env db tid
    = Ok (limit_decision (get_team_member_count db tid <? FREE_MEMBER_LIMIT env)
                         (get_team_member_count db tid) (FREE_MEMBER_LIMIT env)
                         (subscription_type team)).
Proof.
  intros Ht Hf Hp He.
  assert (dict_get (SUBSCRIPTION_LIMITS env) (subscription_type team) (free_limits env)
          = free_limits env) as Hl.
  { unfold dict_get. rewrite limits_unknown by assumption. reflexivity. }
  split; [rewrite Hl; reflexivity|].
  split.
  - rewrite (check_task_limit_existing env db tid team Ht). cbv zeta. rewrite Hl. reflexivity.
  - rewrite (check_member_limit_existing env db tid team Ht). cbv zeta. rewrite Hl. reflexivity.
Qed.

Lemma unknown_tier_uses_free_limits_witness :
  dict_get (SUBSCRIPTION_LIMITS default_environ) "premium" (free_limits default_environ)
  = dict_get (SUBSCRIPTION_LIMITS default_environ) "free" (free_limits default_environ)
  ∧ check_task_limit default_environ legacy_db 2 = Ok (limit_decision true 0 20 "premium")
  ∧ check_member_limit default_environ legacy_db 2 = Ok (limit_decision true 1 3 "premium").
Proof.
  apply (unknown_tier_uses_free_limits default_environ legacy_db 2 legacy);
    [reflexivity | discriminate | discriminate | discriminate].
Defined.

(* ===================================================================== *)
(** ** The deadline step of the wizard *)
(* ===================================================================== *)

(** The validator decides on the first date that parses. *)
Lemma validate_deadline_from_parsed (lib : StdLib) (now : Z) (text : string)
    (fmts : list string) :
  validate_deadline_from lib now text fmts
  = match parsed_date lib (strip lib text) fmts with
    | Some dt => if dt <? now then None else Some dt
    | None => None
    end.
Proof.
  induction fmts as [|fmt rest IH]; [reflexivity|].
  cbn [validate_deadline_from parsed_date].
  destruct (strptime lib (strip lib text) fmt); [reflexivity | exact IH].
Qed.

(** C6 (as the code has it). A text whose parsed date is strictly before
    the current instant is rejected: the validator returns [None] and the
    wizard answers with the error, stays in [STATE_DEADLINE] and leaves
    the draft as it was. *)
Theorem past_deadline_rejected
    (lib : StdLib) (now : Z) (message_text : string) (draft : gmap string Value) (dt : Z) :
  parsed_date lib (strip lib (strip lib message_text)) formats = Some dt ->
  dt < now ->
  validate_deadline lib now (strip lib message_text) = None
  ∧ task_deadline_received lib now message_text draft
    = (ReplyBadDeadline, STATE_DEADLINE, draft).
Proof.
  intros Hp Hlt.
  assert (validate_deadline lib now (strip lib message_text) = None) as Hv.
  { unfold validate_deadline. rewrite validate_deadline_from_parsed, Hp.
    apply Z.ltb_lt in Hlt. rewrite Hlt. reflexivity. }
  split; [exact Hv|].
  unfold task_deadline_received. rewrite Hv. reflexivity.
Qed.

(** The scenario of the specification: "31.12.2020 10:00" submitted on
    20 February 2026. *)
Lemma past_deadline_rejected_witness :
  validate_deadline sample_lib 1771610400000000 "31.12.2020 10:00" = None
  ∧ task_deadline_received sample_lib 1771610400000000 " 31.12.2020 10:00 " ∅
    = (ReplyBadDeadline, STATE_DEADLINE, ∅).
Proof.
  apply (past_deadline_rejected sample_lib 1771610400000000 " 31.12.2020 10:00 " ∅
           1609408800000000); [reflexivity | lia].
Defined.

(** A date that is not before the current instant is accepted, the
    current instant included. *)
Lemma present_or_future_deadline_accepted
    (lib : StdLib) (now : Z) (message_text : string) (draft : gmap string Value) (dt : Z) :
  parsed_date lib (strip lib (strip lib message_text)) formats = Some dt ->
  now <= dt ->
  task_deadline_received lib now message_text draft
  = (ReplyAskPriority, STATE_PRIORITY, <["deadline" := VTime dt]> draft).
Proof.
  intros Hp Hle. unfold task_deadline_received, validate_deadline.
  rewrite validate_deadline_from_parsed, Hp.
  apply Z.ltb_ge in Hle. rewrite Hle. reflexivity.
Qed.

(** C6, refuted as stated: "20.02.2026 18:00" is submitted at exactly
    that instant. The parsed date is at the current instant, yet the
    validator returns it and the wizard moves on to [STATE_PRIORITY] with
    the deadline written into the draft. *)
Lemma deadline_at_current_instant_accepted :
  let now := 1771610400000000 in
  parsed_date sample_lib "20.02.2026 18:00" formats = Some now
  ∧ validate_deadline sample_lib now "20.02.2026 18:00" = Some now
  ∧ task_deadline_received sample_lib now "20.02.2026 18:00" ∅
    = (ReplyAskPriority, STATE_PRIORITY, <["deadline" := VTime now]> ∅)
  ∧ (task_deadline_received sample_lib now "20.02.2026 18:00" ∅).1.2 ≠ STATE_DEADLINE.
Proof. cbv zeta. repeat split. discriminate. Qed.

(* ===================================================================== *)
(** ** Status changes from the task card *)
(* ===================================================================== *)

Lemma set_status_author (now : Z) (tid : Z) (st : string) (t : Task) :
  author_id (updated_row now tid st t) = author_id t.
Proof. unfold updated_row. case_bool_decide; reflexivity. Qed.

(** The status button: when the task exists, the update executes and the
    card is redrawn, the author is sent one notification unless the author
    pressed the button. *)
Lemma status_callback_notifies_author
    (lib : StdLib) (env : CallbackEnv) (now : Z) (db : Database) (user : TgUser)
    (data p0 p1 new_status : string) (tid : Z) (task : Task) :
  split_underscore_2 data = [p0; p1; new_status] ->
  int lib p1 = Some tid ->
  get_task db tid = Some task ->
  cb_exec env = SqlOk ->
  cb_edit_returns env = true ->
  let r := handle_status_callback lib env now db user data in
  h_raised r = None
  ∧ h_db r = (update_task_status SqlOk now db tid new_status).1
  ∧ (author_id task ≠ tg_id user ->
     ∃ txt, h_notified r = [mkSent (author_id task) txt (cb_send_returns env)])
  ∧ (author_id task = tg_id user -> h_notified r = []).
Proof.
  intros Hs Hi Ht Hx He r. subst r. unfold handle_status_callback.
  rewrite Hs, Hi, Ht, Hx.
  change (update_task_status SqlOk now db tid new_status)
    with ((update_task_status SqlOk now db tid new_status).1, true).
  cbv iota beta. cbn [negb].
  rewrite get_task_update, Ht. cbn [fmap option_fmap option_map].
  rewrite He. cbn [negb]. rewrite set_status_author.
  case_bool_decide as Ha; cbn.
  - split; [reflexivity|]. split; [reflexivity|].
    split; [intros _; eexists; reflexivity | congruence].
  - split; [reflexivity|]. split; [reflexivity|].
    split; [intros Hne; exfalso; apply Hne; exact Ha | reflexivity].
Qed.

(** The cancel button never notifies anybody, whoever presses it. *)
Lemma cancel_callback_notifies_nobody
    (lib : StdLib) (env : CallbackEnv) (now : Z) (db : Database) (user : TgUser)
    (data : string) :
  h_notified (handle_cancel_task_callback lib env now db user data) = [].
Proof.
  unfold handle_cancel_task_callback.
  destruct (int lib _); [destruct (cb_edit_returns env)|]; reflexivity.
Qed.

(** C8, at the failing input: Bob, who is not the author of task #7,
    presses "cancel" on it. The task goes from [done] to [cancelled] and
    no notification is attempted, whereas the same transition through the
    status button notifies the author, user 1. *)
Theorem cancel_by_non_author_notifies_nobody :
  let r := handle_cancel_task_callback sample_lib calm 200 sample_db tg_bob "cancel_7" in
  let r' := handle_status_callback sample_lib calm 200 sample_db tg_bob "status_7_cancelled" in
  author_id task7 ≠ tg_id tg_bob
  ∧ status <$> get_task sample_db 7 = Some "done"
  ∧ status <$> get_task (h_db r) 7 = Some "cancelled"
  ∧ h_raised r = None
  ∧ h_notified r = []
  ∧ h_db r' = h_db r
  ∧ h_notified r' = [mkSent 1 (mkStatusText 7 "Ship the release" "❌" "Отменено" "Bob") true].
Proof. cbv zeta. repeat split. discriminate. Qed.

(* ===================================================================== *)
(** ** The dispatch ledger *)
(* ===================================================================== *)

Lemma is_reminder_sent_spec (db : Database) (tid : Z) (rt : string) :
  is_reminder_sent db tid rt = true
  ↔ ∃ r, r ∈ reminders db ∧ r_task_id r = tid ∧ reminder_type r = rt.
Proof.
  unfold is_reminder_sent, fetchone.
  destruct (filter _ (reminders db)) as [|r l] eqn:E; cbn.
  - split; [discriminate|]. intros (r & Hr & H1 & H2).
    assert (r ∈ filter (fun r => r_task_id r = tid ∧ reminder_type r = rt) (reminders db))
      as Hin by (apply list_elem_of_filter; auto).
    rewrite E in Hin. apply elem_of_nil in Hin. destruct Hin.
  - split; [|reflexivity]. intros _. exists r.
    assert (r ∈ filter (fun r => r_task_id r = tid ∧ reminder_type r = rt) (reminders db))
      as Hin by (rewrite E; left).
    apply list_elem_of_filter in Hin. tauto.
Qed.

Lemma mark_reminder_sent_marks (now : Z) (db : Database) (tid : Z) (rt : string) :
  is_reminder_sent (mark_reminder_sent SqlOk now db tid rt) tid rt = true.
Proof.
  apply is_reminder_sent_spec. exists (mkReminder tid rt now). cbn.
  split; [apply elem_of_app; right; left | split; reflexivity].
Qed.

Lemma mark_reminder_sent_mono (exec : SqlOutcome) (now : Z) (db : Database) (tid : Z)
    (rt : string) (tid' : Z) (rt' : string) :
  is_reminder_sent db tid' rt' = true ->
  is_reminder_sent (mark_reminder_sent exec now db tid rt) tid' rt' = true.
Proof.
  destruct exec; [|exact id]. rewrite !is_reminder_sent_spec.
  intros (r & Hr & H). exists r. cbn. split; [apply elem_of_app; left; exact Hr | exact H].
Qed.

Lemma mark_reminder_sent_inv (exec : SqlOutcome) (now : Z) (db : Database) (tid : Z)
    (rt : string) (tid' : Z) (rt' : string) :
  is_reminder_sent (mark_reminder_sent exec now db tid rt) tid' rt' = true ->
  is_reminder_sent db tid' rt' = true ∨ (exec = SqlOk ∧ tid' = tid ∧ rt' = rt).
Proof.
  destruct exec; [|left; assumption]. rewrite !is_reminder_sent_spec.
  intros (r & Hr & H1 & H2). cbn in Hr. apply elem_of_app in Hr as [Hr|Hr].
  - left. exists r. auto.
  - right. apply list_elem_of_singleton in Hr. subst r. cbn in *. auto.
Qed.

Lemma mark_reminder_sent_tables (exec : SqlOutcome) (now : Z) (db : Database) (tid : Z)
    (rt : string) :
  tasks (mark_reminder_sent exec now db tid rt) = tasks db
  ∧ teams (mark_reminder_sent exec now db tid rt) = teams db.
Proof. destruct exec; split; reflexivity. Qed.

Lemma kind_of_header_of (rt : string) :
  rt ∈ window_kinds -> kind_of_header (header_of rt) = rt.
Proof.
  unfold window_kinds. rewrite !elem_of_cons, elem_of_nil.
  intros [->|[->|[->|[]]]]; reflexivity.
Qed.

Lemma windows_kinds (now : Z) (rt : string) (se : Z * Z) :
  (rt, se) ∈ windows now -> rt ∈ window_kinds.
Proof.
  unfold windows, window_kinds. rewrite !elem_of_cons, !elem_of_nil.
  intros [H|[H|[H|[]]]]; injection H as -> _; auto.
Qed.

(* ===================================================================== *)
(** ** The deadline sweep *)
(* ===================================================================== *)

Lemma foldl_invariant {A : Type} (P : World -> Prop) (f : World -> A -> World) (l : list A) :
  (∀ w x, x ∈ l -> P w -> P (f w x)) ->
  ∀ w, P w -> P (foldl f w l).
Proof.
  induction l as [|x l IH]; intros Hstep w Hw; [exact Hw|].
  cbn. apply IH.
  - intros w' y Hy. apply Hstep. right. exact Hy.
  - apply Hstep; [left | exact Hw].
Qed.

Section Sweep.
Context (env : SweepEnv) (now : Z).

(** One step of the inner loop either skips the row or makes one send,
    followed by the insert when the send returns. *)
Lemma remind_cases (rt : string) (w : World) (row : Task * string) :
  (remind env now rt w row = w
   ∧ (is_reminder_sent (w_db w) (task_id row.1) rt = true
      ∨ truthy (assignee_id row.1) = false))
  ∨ (is_reminder_sent (w_db w) (task_id row.1) rt = false
     ∧ ∃ a, assignee_id row.1 = Some a ∧ a ≠ 0
            ∧ remind env now rt w row
              = mkWorld
                  (if send_returns env (length (w_outbox w))
                   then mark_reminder_sent (insert_outcome env (length (w_outbox w)))
                                           (insert_stamp env (length (w_outbox w)))
                                           (w_db w) (task_id row.1) rt
                   else w_db w)
                  (w_outbox w
                   ++ [mkSent a (_format_reminder row.1 rt)
                              (send_returns env (length (w_outbox w)))])).
Proof.
  unfold remind.
  destruct (is_reminder_sent (w_db w) (task_id row.1) rt) eqn:E; [left; auto|].
  destruct (assignee_id row.1) as [a|] eqn:Ea; [|left; auto].
  destruct (a =? 0) eqn:E0.
  - left. split; [reflexivity|]. right. cbn. rewrite E0. reflexivity.
  - right. split; [reflexivity|]. exists a. split; [reflexivity|].
    split; [apply Z.eqb_neq; exact E0|].
    destruct (send_returns env (length (w_outbox w))); reflexivity.
Qed.

(** An invariant of the loop body is an invariant of the sweep over any
    list of windows. *)
Lemma windows_invariant (P : World -> Prop) (wins : list (string * (Z * Z))) :
  (∀ w rt row, (∃ se, (rt, se) ∈ wins) -> P w -> P (remind env now rt w row)) ->
  ∀ w, P w -> P (foldl (sweep_window env now) w wins).
Proof.
  intros Hstep. apply foldl_invariant.
  intros w [rt [s e]] Hwin Hw. unfold sweep_window.
  apply foldl_invariant; [|exact Hw].
  intros w' row _. apply Hstep. exists (s, e). exact Hwin.
Qed.

Lemma sweep_invariant (P : World -> Prop) :
  (∀ w rt row, rt ∈ window_kinds -> P w -> P (remind env now rt w row)) ->
  ∀ w, P w -> P (check_upcoming_deadlines env now w).
Proof.
  intros Hstep. unfold check_upcoming_deadlines. apply windows_invariant.
  intros w rt row [se Hse]. apply Hstep. exact (windows_kinds now rt se Hse).
Qed.

Lemma extends_refl (w : World) : extends w w.
Proof.
  repeat split; auto. exists []. split; [symmetry; apply app_nil_r|].
  intros e He. apply elem_of_nil in He. destruct He.
Qed.

Lemma remind_extends (base : World) (rt : string) (w : World) (row : Task * string) :
  rt ∈ window_kinds -> extends base w -> extends base (remind env now rt w row).
Proof.
  intros Hrt (Htasks & Hteams & Hmono & extra & Hout & Hfresh).
  destruct (remind_cases rt w row) as [[-> _]|(Hnot & a & Ha & Ha0 & ->)].
  { repeat split; auto. exists extra. auto. }
  unfold extends. cbn [w_db w_outbox].
  assert (∀ db' : Database,
            db' = (if send_returns env (length (w_outbox w))
                   then mark_reminder_sent (insert_outcome env (length (w_outbox w)))
                                           (insert_stamp env (length (w_outbox w)))
                                           (w_db w) (task_id row.1) rt
                   else w_db w) ->
            tasks db' = tasks (w_db w) ∧ teams db' = teams (w_db w)
            ∧ ∀ tid' rt', is_reminder_sent (w_db w) tid' rt' = true ->
                          is_reminder_sent db' tid' rt' = true) as Hdb.
  { intros db' ->. destruct (send_returns env _).
    - split; [apply mark_reminder_sent_tables|].
      split; [apply mark_reminder_sent_tables|].
      intros tid' rt'. apply mark_reminder_sent_mono.
    - auto. }
  destruct (Hdb _ eq_refl) as (Ht & Hm & Hl).
  split; [congruence|]. split; [congruence|]. split; [auto|].
  exists (extra ++ [mkSent a (_format_reminder row.1 rt)
                           (send_returns env (length (w_outbox w)))]).
  split; [rewrite Hout, app_assoc; reflexivity|].
  intros e He. apply elem_of_app in He as [He|He]; [auto|].
  apply list_elem_of_singleton in He. subst e. cbn.
  rewrite kind_of_header_of by exact Hrt.
  destruct (is_reminder_sent (w_db base) (task_id row.1) rt) eqn:E; [|reflexivity].
  apply Hmono in E. congruence.
Qed.

Lemma sweep_extends (w : World) : extends w (check_upcoming_deadlines env now w).
Proof.
  apply (sweep_invariant (extends w)); [|apply extends_refl].
  intros w' rt row Hrt. apply remind_extends. exact Hrt.
Qed.


Lemma remind_ledger_from (db0 : Database) (rt : string) (w : World) (row : Task * string) :
  ledger_from db0 w -> ledger_from db0 (remind env now rt w row).
Proof.
  intros Hfrom.
  destruct (remind_cases rt w row) as [[-> _]|(_ & a & _ & _ & ->)]; [exact Hfrom|].
  intros tid' rt'. cbn [w_db]. intros Hsent.
  assert (is_reminder_sent (w_db w) tid' rt' = true
          ∨ (send_returns env (length (w_outbox w)) = true
             ∧ tid' = task_id row.1 ∧ rt' = rt)) as [Hold|(Hret & -> & ->)].
  { destruct (send_returns env (length (w_outbox w))); [|left; exact Hsent].
    apply mark_reminder_sent_inv in Hsent as [?|(_ & ? & ?)]; auto. }
  - destruct (Hfrom _ _ Hold) as [?|(e & He & Hab & Hd)]; [left; assumption|].
    right. exists e. cbn [w_outbox]. split; [apply elem_of_app; left; exact He | auto].
  - right. eexists. cbn [w_outbox]. split; [apply elem_of_app; right; left|].
    split; [split; reflexivity | exact Hret].
Qed.

Lemma remind_tables (rt : string) (w : World) (row : Task * string) :
  tasks (w_db (remind env now rt w row)) = tasks (w_db w)
  ∧ teams (w_db (remind env now rt w row)) = teams (w_db w).
Proof.
  destruct (remind_cases rt w row) as [[-> _]|(_ & a & _ & _ & ->)]; [auto|].
  cbn [w_db]. destruct (send_returns env _); [apply mark_reminder_sent_tables | auto].
Qed.

Lemma windows_tables (wins : list (string * (Z * Z))) (w : World) :
  tasks (w_db (foldl (sweep_window env now) w wins)) = tasks (w_db w)
  ∧ teams (w_db (foldl (sweep_window env now) w wins)) = teams (w_db w).
Proof.
  apply (windows_invariant
           (fun w' => tasks (w_db w') = tasks (w_db w) ∧ teams (w_db w') = teams (w_db w)));
    [|auto].
  intros w' rt row _ [Ht Hm]. destruct (remind_tables rt w' row) as [Ht' Hm'].
  split; congruence.
Qed.

Lemma get_upcoming_tasks_tables (db db' : Database) (s e : Z) :
  tasks db' = tasks db -> teams db' = teams db ->
  get_upcoming_tasks db' s e = get_upcoming_tasks db s e.
Proof. intros Ht Hm. unfold get_upcoming_tasks. rewrite Ht, Hm. reflexivity. Qed.

(** Once handled, always handled. *)
Lemma remind_handled_mono (rt' : string) (w : World) (row' : Task * string)
    (task : Task) (rt : string) :
  handled w task rt -> handled (remind env now rt' w row') task rt.
Proof.
  intros Hh.
  destruct (remind_cases rt' w row') as [[-> _]|(_ & a & _ & _ & ->)]; [exact Hh|].
  destruct Hh as [Hs|[Hf|(e & He & Hab)]].
  - left. cbn [w_db]. destruct (send_returns env _); [|exact Hs].
    apply mark_reminder_sent_mono. exact Hs.
  - right. left. exact Hf.
  - right. right. exists e. cbn [w_outbox]. split; [apply elem_of_app; left; exact He|exact Hab].
Qed.

(** The loop body handles its row. *)
Lemma remind_handles (rt : string) (w : World) (row : Task * string) :
  handled (remind env now rt w row) row.1 rt.
Proof.
  destruct (remind_cases rt w row) as [[-> [Hs|Hf]]|(_ & a & _ & _ & ->)].
  - left. exact Hs.
  - right. left. exact Hf.
  - right. right. eexists. cbn [w_outbox].
    split; [apply elem_of_app; right; left | split; reflexivity].
Qed.

Lemma foldl_remind_handles (rt : string) (l : list (Task * string)) (w : World)
    (row : Task * string) :
  row ∈ l -> handled (foldl (remind env now rt) w l) row.1 rt.
Proof.
  revert w. induction l as [|x l IH]; intros w Hin; [apply elem_of_nil in Hin; destruct Hin|].
  cbn. apply elem_of_cons in Hin as [->|Hin]; [|apply IH; exact Hin].
  apply (foldl_invariant (fun w' => handled w' x.1 rt)); [|apply remind_handles].
  intros w' y _. apply remind_handled_mono.
Qed.

(** After the sweep over [wins], every row of every window's query is
    handled. *)
Lemma windows_handle (wins : list (string * (Z * Z))) (w : World)
    (rt : string) (s e : Z) (row : Task * string) :
  (rt, (s, e)) ∈ wins ->
  row ∈ get_upcoming_tasks (w_db w) s e ->
  handled (foldl (sweep_window env now) w wins) row.1 rt.
Proof.
  revert w. induction wins as [|win wins IH]; intros w Hwin Hrow;
    [apply elem_of_nil in Hwin; destruct Hwin|].
  cbn [foldl]. apply elem_of_cons in Hwin as [<-|Hwin].
  - apply (windows_invariant (fun w' => handled w' row.1 rt)).
    + intros w' rt' row' _. apply remind_handled_mono.
    + cbn. apply foldl_remind_handles. exact Hrow.
  - apply IH; [exact Hwin|].
    destruct (windows_tables [win] w) as [Ht Hm]. cbn [foldl] in Ht, Hm.
    rewrite (get_upcoming_tasks_tables _ _ s e Ht Hm). exact Hrow.
Qed.



Section StoreAcceptsInserts.
Hypothesis inserts_ok : ∀ n, insert_outcome env n = SqlOk.

Lemma remind_ledger_covers (rt : string) (w : World) (row : Task * string) :
  rt ∈ window_kinds ->
  ledger_covers_outbox w -> ledger_covers_outbox (remind env now rt w row).
Proof.
  intros Hrt Hcov.
  destruct (remind_cases rt w row) as [[-> _]|(_ & a & _ & _ & ->)]; [exact Hcov|].
  intros e. cbn [w_db w_outbox]. intros He Hd.
  apply elem_of_app in He as [He|He].
  - specialize (Hcov e He Hd).
    destruct (send_returns env (length (w_outbox w))); [|exact Hcov].
    apply mark_reminder_sent_mono. exact Hcov.
  - apply list_elem_of_singleton in He. subst e. cbn in Hd |- *.
    rewrite Hd, inserts_ok, kind_of_header_of by exact Hrt.
    apply mark_reminder_sent_marks.
Qed.

Lemma sweep_ledger_covers (w : World) :
  ledger_covers_outbox w -> ledger_covers_outbox (check_upcoming_deadlines env now w).
Proof. apply sweep_invariant. intros w' rt row. apply remind_ledger_covers. Qed.
End StoreAcceptsInserts.
End Sweep.

Lemma ledger_covers_empty (db : Database) : ledger_covers_outbox (mkWorld db []).
Proof. intros e He. apply elem_of_nil in He. destruct He. Qed.

Lemma sweep_ledger_from (env : SweepEnv) (now : Z) (db : Database) :
  ledger_from db (check_upcoming_deadlines env now (mkWorld db [])).
Proof.
  apply (sweep_invariant env now (ledger_from db)).
  - intros w rt row _. apply remind_ledger_from.
  - intros tid rt H. left. exact H.
Qed.


Lemma notified_marked (w : World) (tid : Z) (rt : string) :
  ledger_covers_outbox w -> rt ∈ window_kinds -> notified w tid rt ->
  is_reminder_sent (w_db w) tid rt = true.
Proof.
  intros Hcov Hrt (e & He & [Hid Hh] & Hd).
  specialize (Hcov e He Hd). rewrite Hid, Hh, kind_of_header_of in Hcov by exact Hrt.
  exact Hcov.
Qed.

(** C1 (as the code has it). In a sweep over a store that accepts the
    inserts, every candidate task with an assignee and no dispatch record
    for its window has a send made for it, and after the sweep the
    dispatch record for (task, window kind) is in the ledger exactly when
    a send for the pair returned. A pair whose sends all raised has no
    record. *)
Theorem sweep_marks_only_returned_sends
    (env : SweepEnv) (now : Z) (db : Database) (task : Task) (rt : string) :
  (∀ n, insert_outcome env n = SqlOk) ->
  candidate db now rt task ->
  is_reminder_sent db (task_id task) rt = false ->
  let w1 := check_upcoming_deadlines env now (mkWorld db []) in
  attempted w1 (task_id task) rt
  ∧ (is_reminder_sent (w_db w1) (task_id task) rt = true ↔ notified w1 (task_id task) rt).
Proof.
  intros Hins (s & e & team_name & Hwin & Hrow & Hass) Hnot w1.
  assert (rt ∈ window_kinds) as Hrt by exact (windows_kinds now rt (s, e) Hwin).
  assert (is_reminder_sent (w_db w1) (task_id task) rt = true -> notified w1 (task_id task) rt)
    as Hfrom.
  { intros Hs. destruct (sweep_ledger_from env now db _ _ Hs) as [Hold|Hn]; [congruence|exact Hn]. }
  split.
  - destruct (windows_handle env now (windows now) (mkWorld db []) rt s e (task, team_name)
                Hwin Hrow) as [Hs|[Hf|Ha]].
    + destruct (Hfrom Hs) as (e0 & He0 & Hab & _). exists e0. auto.
    + cbn in Hf. congruence.
    + exact Ha.
  - split; [exact Hfrom|].
    apply notified_marked; [|exact Hrt].
    apply sweep_ledger_covers; [exact Hins | apply ledger_covers_empty].
Qed.

Lemma task7_is_candidate : candidate sweep_db day_before "24h" task7_open.
Proof.
  exists (day_before + timedelta 23 30), (day_before + timedelta 24 30), "Alpha".
  split; [left|]. split; [left | reflexivity].
Qed.

Lemma sweep_marks_only_returned_sends_witness :
  let w1 := check_upcoming_deadlines reliable day_before (mkWorld sweep_db []) in
  attempted w1 7 "24h"
  ∧ (is_reminder_sent (w_db w1) 7 "24h" = true ↔ notified w1 7 "24h").
Proof.
  apply (sweep_marks_only_returned_sends reliable day_before sweep_db task7_open "24h");
    [reflexivity | exact task7_is_candidate | reflexivity].
Defined.

(** C1, refuted as stated: the transport is down. Task #7 is a candidate
    of the 24h window with assignee 42 and no dispatch record; the send
    is made and raises, and after the sweep there is still no dispatch
    record for (7, 24h). *)
Lemma failed_delivery_not_marked :
  let w1 := check_upcoming_deadlines outage day_before (mkWorld sweep_db []) in
  is_reminder_sent sweep_db 7 "24h" = false
  ∧ w_outbox w1 = [mkSent 42 (_format_reminder task7_open "24h") false]
  ∧ reminders (w_db w1) = []
  ∧ is_reminder_sent (w_db w1) 7 "24h" = false.
Proof. cbv zeta. repeat split. Qed.



(** The scenario of the specification: the first sweep delivers the 24h
    reminder of task #7 and records it; a second sweep fifteen minutes
    later, with the deadline still inside the 24h window, sends nothing. *)
Example second_sweep_inside_window :
  let w1 := check_upcoming_deadlines reliable day_before (mkWorld sweep_db []) in
  let w2 := check_upcoming_deadlines reliable (day_before + timedelta 0 15) w1 in
  w_outbox w1 = [mkSent 42 (_format_reminder task7_open "24h") true]
  ∧ reminders (w_db w1) = [mkReminder 7 "24h" (db_clock 0)]
  ∧ (task7_open, "Alpha") ∈ get_upcoming_tasks (w_db w1)
       (day_before + timedelta 0 15 + timedelta 23 30)
       (day_before + timedelta 0 15 + timedelta 24 30)
  ∧ w2 = w1.
Proof. cbv zeta. split; [reflexivity|]. split; [reflexivity|]. split; [left | reflexivity]. Qed.


(* ===================================================================== *)
(** ** The daily digest *)
(* ===================================================================== *)

(** *** Grouping the memberships by user *)

Lemma dict_append_keys (d : list (Z * list (Z * string))) (uid : Z) (info : Z * string) :
  ∀ k, k ∈ (dict_append d uid info).*1 ↔ k ∈ d.*1 ∨ k = uid.
Proof.
  induction d as [|[k0 v0] d IH]; intros k; cbn.
  - rewrite list_elem_of_singleton, elem_of_nil. tauto.
  - case_bool_decide as Hk; cbn; rewrite !elem_of_cons.
    + subst k0. tauto.
    + rewrite IH. tauto.
Qed.

Lemma dict_append_NoDup (d : list (Z * list (Z * string))) (uid : Z) (info : Z * string) :
  NoDup d.*1 -> NoDup (dict_append d uid info).*1.
Proof.
  induction d as [|[k0 v0] d IH]; intros Hnd; cbn.
  - apply NoDup_singleton.
  - apply NoDup_cons in Hnd as [Hk0 Hnd].
    case_bool_decide as Hk; cbn; apply NoDup_cons.
    + auto.
    + split; [|auto]. rewrite dict_append_keys. intros [?|?]; [contradiction|]. congruence.
Qed.

Lemma dict_append_entry (d : list (Z * list (Z * string))) (uid : Z) (info : Z * string)
    (u : Z) (i : Z * string) :
  NoDup d.*1 ->
  entry_of (dict_append d uid info) u i ↔ entry_of d u i ∨ (u = uid ∧ i = info).
Proof.
  unfold entry_of. induction d as [|[k0 v0] d IH]; intros Hnd; cbn.
  - split.
    + intros (ts & Hin & Hi). apply list_elem_of_singleton in Hin. injection Hin as -> ->.
      apply list_elem_of_singleton in Hi. auto.
    + intros [(ts & Hin & _)|[-> ->]]; [apply elem_of_nil in Hin; destruct Hin|].
      exists [info]. split; left.
  - apply NoDup_cons in Hnd as [Hk0 Hnd]. specialize (IH Hnd).
    case_bool_decide as Hk.
    + subst k0. split.
      * intros (ts & Hin & Hi). apply elem_of_cons in Hin as [Hin|Hin].
        -- injection Hin as -> ->. apply elem_of_app in Hi as [Hi|Hi].
           ++ left. exists v0. split; [left | exact Hi].
           ++ right. apply list_elem_of_singleton in Hi. auto.
        -- left. exists ts. split; [right; exact Hin | exact Hi].
      * intros [(ts & Hin & Hi)|[-> ->]].
        -- apply elem_of_cons in Hin as [Hin|Hin].
           ++ injection Hin as -> ->. exists (v0 ++ [info]).
              split; [left | apply elem_of_app; left; exact Hi].
           ++ exists ts. split; [right; exact Hin | exact Hi].
        -- exists (v0 ++ [info]). split; [left | apply elem_of_app; right; left].
    + split.
      * intros (ts & Hin & Hi). apply elem_of_cons in Hin as [Hin|Hin].
        -- injection Hin as -> ->. left. exists v0. split; [left | exact Hi].
        -- destruct (proj1 IH (ex_intro _ ts (conj Hin Hi))) as [(ts' & Hin' & Hi')|Heq].
           ++ left. exists ts'. split; [right; exact Hin' | exact Hi'].
           ++ right. exact Heq.
      * intros [(ts & Hin & Hi)|Heq].
        -- apply elem_of_cons in Hin as [Hin|Hin].
           ++ injection Hin as -> ->. exists v0. split; [left | exact Hi].
           ++ destruct (proj2 IH (or_introl (ex_intro _ ts (conj Hin Hi))))
                as (ts' & Hin' & Hi').
              exists ts'. split; [right; exact Hin' | exact Hi'].
        -- destruct (proj2 IH (or_intror Heq)) as (ts' & Hin' & Hi').
           exists ts'. split; [right; exact Hin' | exact Hi'].
Qed.

Lemma group_from (rows : list (Z * (Z * string))) :
  ∀ d, NoDup d.*1 ->
       let d' := foldl (fun d row => dict_append d row.1 row.2) d rows in
       NoDup d'.*1
       ∧ (∀ u i, entry_of d' u i ↔ entry_of d u i ∨ (u, i) ∈ rows)
       ∧ (∀ u, u ∈ d'.*1 ↔ u ∈ d.*1 ∨ ∃ i, (u, i) ∈ rows).
Proof.
  induction rows as [|[u0 i0] rows IH]; intros d Hnd; cbn.
  - split; [exact Hnd|]. split.
    + intros u i. rewrite elem_of_nil. tauto.
    + intros u. split; [auto|]. intros [?|[i Hi]]; [assumption|].
      apply elem_of_nil in Hi. destruct Hi.
  - destruct (IH (dict_append d u0 i0) (dict_append_NoDup d u0 i0 Hnd)) as (Hnd' & He & Hk).
    split; [exact Hnd'|]. split.
    + intros u i. rewrite He, dict_append_entry, elem_of_cons by exact Hnd.
      split; [intros [[?|[-> ->]]|?] | intros [?|[Heq|?]]]; auto.
      injection Heq as -> ->. auto.
    + intros u. rewrite Hk, dict_append_keys. split.
      * intros [[?| ->]|[i Hi]]; auto.
        -- right. exists i0. left.
        -- right. exists i. right. exact Hi.
      * intros [?|[i Hi]]; auto. apply elem_of_cons in Hi as [Heq|Hi].
        -- injection Heq as -> ->. auto.
        -- right. exists i. exact Hi.
Qed.

(** The dict of [send_daily_summary]: one entry per user, holding that
    user's rows. *)
Lemma group_by_user_spec (rows : list (Z * (Z * string))) :
  NoDup (group_by_user rows).*1
  ∧ (∀ u ts, (u, ts) ∈ group_by_user rows -> ∀ i, i ∈ ts ↔ (u, i) ∈ rows)
  ∧ (∀ u, (∃ ts, (u, ts) ∈ group_by_user rows) ↔ ∃ i, (u, i) ∈ rows).
Proof.
  destruct (group_from rows [] (NoDup_nil_2)) as (Hnd & He & Hk).
  fold (group_by_user rows) in Hnd, He, Hk.
  split; [exact Hnd|]. split.
  - intros u ts Hin i. split.
    + intros Hi. destruct (proj1 (He u i) (ex_intro _ ts (conj Hin Hi))) as [(ts' & H & _)|H];
        [apply elem_of_nil in H; destruct H | exact H].
    + intros Hi. destruct (proj2 (He u i) (or_intror Hi)) as (ts' & Hin' & Hi').
      assert (ts' = ts) as <-; [|exact Hi'].
      apply list_elem_of_lookup in Hin as [a Ha]. apply list_elem_of_lookup in Hin' as [b Hb].
      assert (a = b) as ->.
      { apply (NoDup_lookup _ a b u Hnd); rewrite list_lookup_fmap.
        - rewrite Ha. reflexivity.
        - rewrite Hb. reflexivity. }
      congruence.
  - intros u. split.
    + intros [ts Hin]. apply (list_elem_of_fmap_2 fst) in Hin. cbn in Hin.
      apply Hk in Hin as [Hin|Hin]; [apply elem_of_nil in Hin; destruct Hin | exact Hin].
    + intros Hi. assert (u ∈ (group_by_user rows).*1) as Hin by (apply Hk; right; exact Hi).
      apply list_elem_of_fmap in Hin as ([u' ts] & -> & Hin). exists ts. exact Hin.
Qed.

(** *** The queries of the digest *)

Lemma elem_of_insert_by_deadline (t : Task) (l : list Task) (x : Task) :
  x ∈ insert_by_deadline t l ↔ x = t ∨ x ∈ l.
Proof.
  induction l as [|u l IH]; cbn.
  - rewrite list_elem_of_singleton, elem_of_nil. tauto.
  - destruct (deadline_le t u); rewrite !elem_of_cons; [tauto|]. rewrite IH. tauto.
Qed.

Lemma elem_of_order_by_deadline (l : list Task) (x : Task) :
  x ∈ order_by_deadline l ↔ x ∈ l.
Proof.
  unfold order_by_deadline. induction l as [|u l IH]; cbn; [tauto|].
  rewrite elem_of_insert_by_deadline, elem_of_cons, IH. tauto.
Qed.

Lemma elem_of_get_tasks_today (now : Z) (db : Database) (tid : Z) (t : Task) :
  t ∈ get_tasks_today now db tid
  ↔ t ∈ tasks db ∧ task_team_id t = tid ∧ due_on (DATE now) t = true
    ∧ status_open (status t) = true.
Proof.
  unfold get_tasks_today. rewrite elem_of_order_by_deadline, list_elem_of_filter. tauto.
Qed.

Lemma elem_of_get_overdue_tasks (now : Z) (db : Database) (t : Task) :
  t ∈ get_overdue_tasks now db
  ↔ t ∈ tasks db ∧ status_active (status t) = true ∧ overdue now t = true.
Proof.
  unfold get_overdue_tasks. rewrite elem_of_order_by_deadline, list_elem_of_filter. tauto.
Qed.

Lemma elem_of_all_members (db : Database) (u tid : Z) (nm : string) :
  (u, (tid, nm)) ∈ all_members db
  ↔ ∃ m tm, m ∈ team_members db ∧ tm ∈ teams db ∧ tm_team_id m = team_id tm
            ∧ u = tm_user_id m ∧ tid = tm_team_id m ∧ nm = name tm.
Proof.
  unfold all_members. rewrite elem_of_remove_dups, list_elem_of_bind. split.
  - intros (m & Hin & Hm). apply list_elem_of_bind in Hin as (tm & Hin & Htm).
    case_bool_decide as Heq; [|apply elem_of_nil in Hin; destruct Hin].
    apply list_elem_of_singleton in Hin. injection Hin as -> -> ->.
    exists m, tm. repeat split; assumption.
  - intros (m & tm & Hm & Htm & Heq & -> & -> & ->).
    exists m. split; [|exact Hm]. apply list_elem_of_bind. exists tm. split; [|exact Htm].
    rewrite bool_decide_eq_true_2 by exact Heq. left.
Qed.

Lemma status_active_non_terminal (s : string) :
  status_active s = true ↔ non_terminal s.
Proof.
  unfold status_active, non_terminal.
  rewrite orb_true_iff, !String.eqb_eq. tauto.
Qed.

(** On the statuses of the data model, [NOT IN ('done', 'cancelled')] and
    [IN ('todo', 'in_progress')] select the same rows. *)
Lemma status_open_non_terminal (s : string) :
  s ∈ statuses -> status_open s = true ↔ non_terminal s.
Proof.
  unfold statuses, non_terminal. rewrite !elem_of_cons, elem_of_nil.
  intros [->|[->|[->|[->|[]]]]]; cbn; split; intros H;
    try discriminate; try (destruct H; discriminate); auto.
Qed.

(** *** The message of one user *)

Section Digest.
Context (now : Z) (db : Database) (user : Z).

Lemma overdue_lines_app (a b : list DigestLine) :
  overdue_lines (a ++ b) = (overdue_lines a + overdue_lines b)%nat.
Proof.
  induction a as [|x a IH]; [reflexivity|].
  destruct x; cbn; rewrite IH; reflexivity.
Qed.

Lemma overdue_lines_today (l : list Task) : overdue_lines (map today_line l) = 0%nat.
Proof. induction l as [|t l IH]; [reflexivity | exact IH]. Qed.

Lemma overdue_lines_overdue (l : list Task) :
  overdue_lines (map overdue_line l) = length l.
Proof. induction l as [|t l IH]; [reflexivity | cbn; rewrite IH; reflexivity]. Qed.

Lemma team_section_spec (acc : list DigestLine * bool) (info : Z * string) :
  ((team_section now db user acc info).2 = true
   ↔ acc.2 = true ∨ ∃ t, t ∈ get_tasks_today now db info.1 ∧ assignee_id t = Some user)
  ∧ overdue_lines (team_section now db user acc info).1 = overdue_lines acc.1.
Proof.
  unfold team_section.
  destruct (filter (fun t => assignee_id t = Some user) (get_tasks_today now db info.1))
    as [|t l] eqn:E.
  - split; [|reflexivity]. split; [auto|]. intros [H|(t & Ht & Ha)]; [exact H|].
    assert (t ∈ filter (fun t => assignee_id t = Some user) (get_tasks_today now db info.1))
      as Hin by (apply list_elem_of_filter; auto).
    rewrite E in Hin. apply elem_of_nil in Hin. destruct Hin.
  - split.
    + split; [|reflexivity]. intros _. right. exists t.
      assert (t ∈ filter (fun t => assignee_id t = Some user)
                         (get_tasks_today now db info.1)) as Hin by (rewrite E; left).
      apply list_elem_of_filter in Hin. tauto.
    + cbn [fst]. rewrite !overdue_lines_app, overdue_lines_today. cbn. lia.
Qed.

Lemma teams_spec (ts : list (Z * string)) (acc : list DigestLine * bool) :
  ((foldl (team_section now db user) acc ts).2 = true
   ↔ acc.2 = true
     ∨ ∃ info t, info ∈ ts ∧ t ∈ get_tasks_today now db info.1
                 ∧ assignee_id t = Some user)
  ∧ overdue_lines (foldl (team_section now db user) acc ts).1 = overdue_lines acc.1.
Proof.
  revert acc. induction ts as [|info ts IH]; intros acc; cbn [foldl].
  - split; [|reflexivity]. split; [auto|].
    intros [H|(info & t & Hin & _)]; [exact H | apply elem_of_nil in Hin; destruct Hin].
  - destruct (IH (team_section now db user acc info)) as [Hf Hl].
    destruct (team_section_spec acc info) as [Hf1 Hl1].
    split; [|congruence]. rewrite Hf, Hf1. split.
    + intros [[H|(t & Ht & Ha)]|(i & t & Hi & Ht & Ha)]; [left; exact H | right.. ].
      * exists info, t. split; [left | auto].
      * exists i, t. split; [right; exact Hi | auto].
    + intros [H|(i & t & Hi & Ht & Ha)]; [auto|].
      apply elem_of_cons in Hi as [->|Hi]; [left; right; eauto | right; eauto].
Qed.

Lemma overdue_section_spec (acc : list DigestLine * bool) :
  ((overdue_section now db user acc).2 = true
   ↔ acc.2 = true ∨ ∃ t, t ∈ get_overdue_tasks now db ∧ assignee_id t = Some user)
  ∧ (overdue_lines (overdue_section now db user acc).1 <= overdue_lines acc.1 + 5)%nat.
Proof.
  unfold overdue_section.
  destruct (filter (fun t => assignee_id t = Some user) (get_overdue_tasks now db))
    as [|t l] eqn:E.
  - split; [|lia]. split; [auto|]. intros [H|(t & Ht & Ha)]; [exact H|].
    assert (t ∈ filter (fun t => assignee_id t = Some user) (get_overdue_tasks now db))
      as Hin by (apply list_elem_of_filter; auto).
    rewrite E in Hin. apply elem_of_nil in Hin. destruct Hin.
  - split.
    + split; [|reflexivity]. intros _. right. exists t.
      assert (t ∈ filter (fun t => assignee_id t = Some user) (get_overdue_tasks now db))
        as Hin by (rewrite E; left).
      apply list_elem_of_filter in Hin. tauto.
    + cbn [fst]. rewrite !overdue_lines_app, overdue_lines_overdue, length_take.
      cbn [overdue_lines]. lia.
Qed.

(** The flag and the overdue section of the message built for [user]. *)
Lemma build_digest_spec (ts : list (Z * string)) :
  ((build_digest now db user ts).2 = true
   ↔ (∃ info t, info ∈ ts ∧ t ∈ get_tasks_today now db info.1 ∧ assignee_id t = Some user)
     ∨ ∃ t, t ∈ get_overdue_tasks now db ∧ assignee_id t = Some user)
  ∧ (overdue_lines ((build_digest now db user ts).1 ++ [LineFarewell]) <= 5)%nat.
Proof.
  unfold build_digest.
  destruct (teams_spec ts ([LineGreeting], false)) as [Hf Hl].
  destruct (overdue_section_spec (foldl (team_section now db user) ([LineGreeting], false) ts))
    as [Hf' Hl'].
  split.
  - rewrite Hf', Hf. cbn. split; [intros [[?|?]|?] | intros [?|?]]; auto. discriminate.
  - rewrite overdue_lines_app. cbn in Hl |- *. lia.
Qed.
End Digest.

(** *** The run *)

Lemma digest_sends (send_ok : nat -> bool) (now : Z) (db : Database)
    (G : list (Z * list (Z * string))) :
  ∀ out,
    let res := foldl (digest_user send_ok now db) out G in
    (∀ e, e ∈ res ->
          e ∈ out
          ∨ ∃ u ts, (u, ts) ∈ G ∧ chat_id e = u ∧ (build_digest now db u ts).2 = true
                    ∧ text e = (build_digest now db u ts).1 ++ [LineFarewell])
    ∧ (∀ u ts, (u, ts) ∈ G -> (build_digest now db u ts).2 = true ->
               ∃ e, e ∈ res ∧ chat_id e = u)
    ∧ (∀ e, e ∈ out -> e ∈ res).
Proof.
  induction G as [|[u0 ts0] G IH]; intros out; cbn [foldl].
  - split; [auto|]. split; [|auto]. intros u ts Hin. apply elem_of_nil in Hin. destruct Hin.
  - destruct (IH (digest_user send_ok now db out (u0, ts0))) as (Hfrom & Hto & Hkeep).
    assert (∀ e, e ∈ digest_user send_ok now db out (u0, ts0) ->
                 e ∈ out ∨ (chat_id e = u0 ∧ (build_digest now db u0 ts0).2 = true
                            ∧ text e = (build_digest now db u0 ts0).1 ++ [LineFarewell]))
      as Hstep.
    { intros e. unfold digest_user. cbn [fst snd].
      destruct (build_digest now db u0 ts0) as [msg [|]]; [|auto].
      intros He. apply elem_of_app in He as [He|He]; [auto|].
      apply list_elem_of_singleton in He. subst e. auto. }
    assert (∀ e, e ∈ out -> e ∈ digest_user send_ok now db out (u0, ts0)) as Hstep'.
    { intros e He. unfold digest_user.
      destruct (build_digest now db (u0, ts0).1 (u0, ts0).2) as [msg [|]]; [|exact He].
      apply elem_of_app. left. exact He. }
    split; [|split].
    + intros e He. destruct (Hfrom e He) as [Hin|(u & ts & Hin & H)].
      * destruct (Hstep e Hin) as [?|H]; [auto|]. right. exists u0, ts0. split; [left | exact H].
      * right. exists u, ts. split; [right; exact Hin | exact H].
    + intros u ts Hin Hflag. apply elem_of_cons in Hin as [Heq|Hin]; [|eauto].
      injection Heq as -> ->. 
      assert (∃ e, e ∈ digest_user send_ok now db out (u0, ts0) ∧ chat_id e = u0)
        as (e & He & Hc).
      { unfold digest_user. cbn [fst snd].
        destruct (build_digest now db u0 ts0) as [msg flag]. cbn in Hflag. subst flag.
        eexists. split; [apply elem_of_app; right; left | reflexivity]. }
      exists e. auto.
    + auto.
Qed.

Lemma status_open_spec (s : string) :
  status_open s = true ↔ s ≠ "done" ∧ s ≠ "cancelled".
Proof.
  unfold status_open. rewrite negb_true_iff, orb_false_iff, !String.eqb_neq. tauto.
Qed.

(** C7 (as the code has it). In a digest run an enumerated user is sent a
    message exactly when a task due today whose status is neither [done]
    nor [cancelled] is assigned to them in one of their teams, or an
    overdue task whose status is [todo] or [in_progress] is assigned to
    them; every message sent lists at most five overdue tasks. On a store
    whose tasks carry statuses of the data model the first condition is
    that of a non-terminal task due today. *)
Theorem digest_sent_iff_listed_task
    (send_ok : nat -> bool) (now : Z) (db : Database) :
  let sent := send_daily_summary SqlOk send_ok now db in
  (∀ user, enumerated db user ->
           (∃ e, e ∈ sent ∧ chat_id e = user)
           ↔ has_open_due_today now db user ∨ has_overdue now db user)
  ∧ (∀ e, e ∈ sent -> (overdue_lines (text e) <= 5)%nat)
  ∧ (statuses_valid db ->
     ∀ user, has_open_due_today now db user ↔ has_due_today now db user).
Proof.
  intros sent. subst sent. unfold send_daily_summary.
  destruct (group_by_user_spec (all_members db)) as (_ & Hmem & Hkeys).
  destruct (digest_sends send_ok now db (group_by_user (all_members db)) [])
    as (Hfrom & Hto & _).
  split; [|split].
  - intros user (m0 & tm0 & Hm0 & Htm0 & Hu0 & Ht0).
    assert (∃ ts, (user, ts) ∈ group_by_user (all_members db)) as [ts0 Hts0].
    { apply Hkeys. exists (tm_team_id m0, name tm0). apply elem_of_all_members.
      exists m0, tm0. repeat split; auto. }
    split.
    + intros (e & He & Hc).
      destruct (Hfrom e He) as [Hnil|(u & ts & Hin & Hcu & Hflag & _)];
        [apply elem_of_nil in Hnil; destruct Hnil|].
      assert (u = user) as -> by congruence.
      apply (build_digest_spec now db user ts) in Hflag
        as [([tid nm] & t & Hi & Ht & Ha)|(t & Ht & Ha)].
      * left. apply (Hmem user ts Hin) in Hi.
        apply elem_of_all_members in Hi as (m & tm & Hm & Htm & Heq & Hu & Htid & _).
        apply elem_of_get_tasks_today in Ht as (Htin & Hteam & Hdue & Hopen).
        apply status_open_spec in Hopen as [Hd Hcn].
        exists t, m, tm. cbn in Hteam.
        split; [exact Htin|]. split; [exact Hm|]. split; [exact Htm|].
        split; [congruence|]. split; [congruence|]. split; [congruence|].
        split; [exact Ha|]. split; [exact Hdue|]. split; assumption.
      * right. apply elem_of_get_overdue_tasks in Ht as (Htin & Hact & Hover).
        exists t. repeat split; [assumption.. |].
        apply status_active_non_terminal. exact Hact.
    + intros [(t & m & tm & Htin & Hm & Htm & Hu & Heq & Hteam & Ha & Hdue & Hd & Hcn)
             |(t & Htin & Ha & Hover & Hnt)].
      * assert ((user, (tm_team_id m, name tm)) ∈ all_members db) as Hrow.
        { apply elem_of_all_members. exists m, tm. repeat split; auto. }
        assert (∃ ts, (user, ts) ∈ group_by_user (all_members db)) as [ts Hts]
          by (apply Hkeys; eexists; exact Hrow).
        apply (Hto user ts Hts). apply build_digest_spec. left.
        exists (tm_team_id m, name tm), t.
        split; [apply (Hmem user ts Hts); exact Hrow|].
        split; [|exact Ha]. apply elem_of_get_tasks_today. cbn.
        repeat split; [assumption | congruence | assumption |].
        apply status_open_spec. split; assumption.
      * apply (Hto user ts0 Hts0). apply build_digest_spec. right.
        exists t. split; [|exact Ha]. apply elem_of_get_overdue_tasks.
        repeat split; [assumption | | assumption].
        apply status_active_non_terminal. exact Hnt.
  - intros e He.
    destruct (Hfrom e He) as [Hnil|(u & ts & _ & _ & _ & ->)];
      [apply elem_of_nil in Hnil; destruct Hnil|].
    apply build_digest_spec.
  - intros Hvalid user. unfold has_open_due_today, has_due_today.
    split; intros (t & m & tm & Htin & H).
    + destruct H as (Hm & Htm & Hu & Heq & Hteam & Ha & Hdue & Hd & Hcn).
      exists t, m, tm. repeat split; try assumption.
      apply (status_open_non_terminal _ (Hvalid t Htin)), status_open_spec.
      split; assumption.
    + destruct H as (Hm & Htm & Hu & Heq & Hteam & Ha & Hdue & Hnt).
      apply (status_open_non_terminal _ (Hvalid t Htin)), status_open_spec in Hnt
        as [Hd Hcn].
      exists t, m, tm. repeat split; assumption.
Qed.

(** C7, refuted as stated: Bob has moved task #7, due today and assigned
    to him, to the status [review] through the status handler. He is
    sent a digest, although no non-terminal task due today and no
    non-terminal overdue task is assigned to him. *)
Lemma digest_sent_without_non_terminal_task :
  let sent := send_daily_summary SqlOk (fun _ => true) morning review_db in
  status <$> get_task review_db 7 = Some "review"
  ∧ enumerated review_db 42
  ∧ (∃ e, e ∈ sent ∧ chat_id e = 42)
  ∧ ¬ (has_due_today morning review_db 42 ∨ has_overdue morning review_db 42).
Proof.
  cbv zeta.
  assert (∀ t, t ∈ tasks review_db -> status t = "review") as Hst.
  { intros t Ht. apply (list_elem_of_fmap_2 status) in Ht.
    change (status <$> tasks review_db) with ["review"] in Ht.
    apply list_elem_of_singleton in Ht. exact Ht. }
  split; [reflexivity|]. split; [|split].
  - exists (mkTeamMember 1 42 "admin" 5), alpha.
    split; [right; left|]. split; [left|]. split; reflexivity.
  - eexists. split; [left|]. reflexivity.
  - intros [(t & m & tm & Htin & _ & _ & _ & _ & _ & _ & _ & [Hnt|Hnt])
           |(t & Htin & _ & _ & [Hnt|Hnt])];
      rewrite (Hst t Htin) in Hnt; discriminate Hnt.
Qed.

(** The run on the sample store: Bob, who has task #7 due today, gets a
    digest; Alice, who has nothing assigned, gets none. *)
Example digest_of_sample_store :
  send_daily_summary SqlOk (fun _ => true) morning sweep_db
  = [mkSent 42 [LineGreeting; LineTeam "Alpha";
                LineToday 7 "🟡" "Ship the release" (Some 1771610400000000);
                LineBlank; LineFarewell] true].
Proof. reflexivity. Qed.

(* ===================================================================== *)
(** ** Further properties of the task store *)
(* ===================================================================== *)

(** X1. Looking a pair up after [mark_reminder_sent]: the pair just marked is
    found when the insert executed, and every other pair is found exactly
    when it was found before. *)
Theorem ledger_lookup_after_mark
    (exec : SqlOutcome) (stamp : Z) (db : Database) (tid : Z) (rt : string)
    (tid' : Z) (rt' : string) :
  is_reminder_sent (mark_reminder_sent exec stamp db tid rt) tid' rt' = true
  ↔ is_reminder_sent db tid' rt' = true ∨ (exec = SqlOk ∧ tid' = tid ∧ rt' = rt).
Proof.
  split; [apply mark_reminder_sent_inv|].
  intros [H|(-> & -> & ->)]; [apply mark_reminder_sent_mono; exact H|].
  apply mark_reminder_sent_marks.
Qed.

Lemma get_task_None (db : Database) (tid : Z) :
  get_task db tid = None ↔ ∀ t, t ∈ tasks db -> task_id t ≠ tid.
Proof.
  unfold get_task, fetchone. split.
  - intros H t Ht Hid.
    assert (t ∈ filter (fun t => task_id t = tid) (tasks db)) as Hin
      by (apply list_elem_of_filter; auto).
    destruct (filter _ (tasks db)); [apply elem_of_nil in Hin; destruct Hin | discriminate].
  - intros H. destruct (filter _ (tasks db)) as [|t l] eqn:E; [reflexivity|].
    assert (t ∈ filter (fun t => task_id t = tid) (tasks db)) as Hin by (rewrite E; left).
    apply list_elem_of_filter in Hin as [Hid Hin]. destruct (H t Hin Hid).
Qed.

(** X2. A status update aimed at a task id that no row carries reports
    success and leaves the store exactly as it was. *)
Theorem update_missing_task_is_silent
    (now : Z) (db : Database) (tid : Z) (st : string) :
  get_task db tid = None ->
  update_task_status SqlOk now db tid st = (db, true).
Proof.
  intros Hnone. cbn. f_equal.
  assert (map (updated_row now tid st) (tasks db) = tasks db) as Hmap.
  { rewrite <- (map_id (tasks db)) at 2. apply map_ext_in. intros t Ht.
    unfold updated_row. rewrite bool_decide_eq_false_2; [reflexivity|].
    apply (proj1 (get_task_None db tid) Hnone). apply list_elem_of_In. exact Ht. }
  unfold with_tasks. rewrite Hmap. destruct db; reflexivity.
Qed.

Lemma update_missing_task_is_silent_witness :
  update_task_status SqlOk 200 sample_db 8 "done" = (sample_db, true).
Proof. apply (update_missing_task_is_silent 200 sample_db 8 "done"). reflexivity. Defined.

(** One update keeps the rows in place, keeps their ids and never clears
    a completion stamp. *)
Lemma update_keeps_completed (op : StatusOp) (db : Database) (i : nat) (t : Task) (c : Z) :
  tasks db !! i = Some t -> completed_at t = Some c ->
  ∃ t' c', tasks (update_task_status (op_exec op) (op_now op) db (op_task op)
                                     (op_status op)).1 !! i = Some t'
           ∧ task_id t' = task_id t ∧ completed_at t' = Some c'.
Proof.
  intros Hi Hc. destruct (op_exec op); [|exists t, c; auto].
  rewrite lookup_update, Hi. cbn. unfold updated_row.
  case_bool_decide; [|exists t, c; auto].
  unfold set_status. destruct (String.eqb (op_status op) "done"); cbn; rewrite ?Hc; eauto.
Qed.

Lemma updates_keep_completed (ops : list StatusOp) (db : Database) (i : nat) (t : Task)
    (c : Z) :
  tasks db !! i = Some t -> completed_at t = Some c ->
  ∃ t' c', tasks (apply_status_updates db ops) !! i = Some t'
           ∧ task_id t' = task_id t ∧ completed_at t' = Some c'.
Proof.
  revert db t c. induction ops as [|op ops IH]; intros db t c Hi Hc; [exists t, c; auto|].
  destruct (update_keeps_completed op db i t c Hi Hc) as (t1 & c1 & Hi1 & Hid1 & Hc1).
  destruct (IH _ t1 c1 Hi1 Hc1) as (t' & c' & Hi' & Hid' & Hc').
  exists t', c'. cbn. split; [exact Hi'|]. split; [congruence | exact Hc'].
Qed.

Lemma updates_keep_rows (ops : list StatusOp) (db : Database) (i : nat) (t : Task) :
  tasks db !! i = Some t ->
  ∃ t', tasks (apply_status_updates db ops) !! i = Some t' ∧ task_id t' = task_id t.
Proof.
  revert db t. induction ops as [|op ops IH]; intros db t Hi; [exists t; auto|].
  assert (∃ t1, tasks (update_task_status (op_exec op) (op_now op) db (op_task op)
                                          (op_status op)).1 !! i = Some t1
                ∧ task_id t1 = task_id t) as (t1 & Hi1 & Hid1).
  { destruct (op_exec op); [|exists t; auto].
    rewrite lookup_update, Hi. cbn. eexists. split; [reflexivity|]. apply updated_row_id. }
  destruct (IH _ t1 Hi1) as (t' & Hi' & Hid'). exists t'. cbn. split; [exact Hi' | congruence].
Qed.

(** X3. Once an executed update has moved a task to [done], its
    [completed_at] stays non-null through every later sequence of status
    updates, whatever their statuses, targets and outcomes. *)
Theorem completed_at_never_cleared
    (before after : list StatusOp) (now : Z) (db : Database) (i : nat) (t : Task) :
  tasks db !! i = Some t ->
  let ops := before ++ [mkStatusOp SqlOk now (task_id t) "done"] ++ after in
  ∃ t' c, tasks (apply_status_updates db ops) !! i = Some t'
          ∧ task_id t' = task_id t ∧ completed_at t' = Some c.
Proof.
  intros Hi ops. subst ops. unfold apply_status_updates. rewrite !foldl_app.
  fold (apply_status_updates db before).
  destruct (updates_keep_rows before db i t Hi) as (t1 & Hi1 & Hid1).
  cbn [foldl op_exec op_now op_task op_status].
  set (db1 := apply_status_updates db before) in *.
  assert (∃ t2, tasks (update_task_status SqlOk now db1 (task_id t) "done").1 !! i = Some t2
                ∧ task_id t2 = task_id t ∧ completed_at t2 = Some now) as (t2 & Hi2 & Hid2 & Hc2).
  { rewrite lookup_update, Hi1. cbn. unfold updated_row.
    rewrite bool_decide_eq_true_2 by exact Hid1. eexists. split; [reflexivity|].
    split; [exact Hid1 | reflexivity]. }
  destruct (updates_keep_completed after _ i t2 now Hi2 Hc2) as (t' & c' & Hi' & Hid' & Hc').
  exists t', c'. split; [exact Hi'|]. split; [congruence | exact Hc'].
Qed.

Lemma completed_at_never_cleared_witness :
  ∃ t' c,
    tasks (apply_status_updates sweep_db
             ([mkStatusOp SqlOk 60 7 "todo"] ++ [mkStatusOp SqlOk 70 (task_id task7_open) "done"]
              ++ [mkStatusOp SqlOk 80 7 "cancelled"; mkStatusOp SqlError 90 7 "todo"]))
      !! 0%nat = Some t'
    ∧ task_id t' = task_id task7_open ∧ completed_at t' = Some c.
Proof.
  apply (completed_at_never_cleared [mkStatusOp SqlOk 60 7 "todo"]
           [mkStatusOp SqlOk 80 7 "cancelled"; mkStatusOp SqlError 90 7 "todo"]
           70 sweep_db 0%nat task7_open).
  reflexivity.
Defined.

(* ===================================================================== *)
(** ** Further properties of the deadline sweep *)
(* ===================================================================== *)

(** What one sweep may have done to the world it started from. *)
Lemma remind_appends (env : SweepEnv) (now : Z) (base : World) (rt : string) (w : World)
    (row : Task * string) :
  rt ∈ window_kinds ->
  (users (w_db w) = users (w_db base) ∧ team_members (w_db w) = team_members (w_db base)
   ∧ ∃ added, reminders (w_db w) = reminders (w_db base) ++ added
              ∧ ∀ r, r ∈ added -> reminder_type r ∈ window_kinds) ->
  users (w_db (remind env now rt w row)) = users (w_db base)
  ∧ team_members (w_db (remind env now rt w row)) = team_members (w_db base)
  ∧ ∃ added, reminders (w_db (remind env now rt w row)) = reminders (w_db base) ++ added
             ∧ ∀ r, r ∈ added -> reminder_type r ∈ window_kinds.
Proof.
  intros Hrt (Hu & Hm & added & Hr & Hadded).
  destruct (remind_cases env now rt w row) as [[-> _]|(_ & a & _ & _ & ->)]; [eauto|].
  cbn [w_db].
  destruct (send_returns env (length (w_outbox w))); [|eauto].
  destruct (insert_outcome env (length (w_outbox w))); [|cbn; eauto].
  cbn. split; [exact Hu|]. split; [exact Hm|].
  exists (added ++ [mkReminder (task_id row.1) rt (insert_stamp env (length (w_outbox w)))]).
  split; [rewrite Hr, app_assoc; reflexivity|].
  intros r Hin. apply elem_of_app in Hin as [Hin|Hin]; [auto|].
  apply list_elem_of_singleton in Hin. subst r. cbn. exact Hrt.
Qed.

(** X4. A sweep writes to the dispatch ledger and nowhere else: users, teams,
    memberships and tasks are as before, the ledger and the send log are
    the old ones with rows appended, and every appended ledger row is for
    one of the three window kinds. *)
Theorem sweep_only_appends_to_ledger (env : SweepEnv) (now : Z) (w : World) :
  let w' := check_upcoming_deadlines env now w in
  users (w_db w') = users (w_db w)
  ∧ teams (w_db w') = teams (w_db w)
  ∧ team_members (w_db w') = team_members (w_db w)
  ∧ tasks (w_db w') = tasks (w_db w)
  ∧ (∃ added, reminders (w_db w') = reminders (w_db w) ++ added
              ∧ ∀ r, r ∈ added -> reminder_type r ∈ window_kinds)
  ∧ ∃ extra, w_outbox w' = w_outbox w ++ extra.
Proof.
  intros w'. subst w'.
  destruct (sweep_extends env now w) as (Ht & Htm & _ & extra & Hout & _).
  assert (users (w_db (check_upcoming_deadlines env now w)) = users (w_db w)
          ∧ team_members (w_db (check_upcoming_deadlines env now w)) = team_members (w_db w)
          ∧ ∃ added, reminders (w_db (check_upcoming_deadlines env now w))
                     = reminders (w_db w) ++ added
                     ∧ ∀ r, r ∈ added -> reminder_type r ∈ window_kinds)
    as (Hu & Hm & Hadd).
  { apply (sweep_invariant env now
             (fun w1 => users (w_db w1) = users (w_db w)
                        ∧ team_members (w_db w1) = team_members (w_db w)
                        ∧ ∃ added, reminders (w_db w1) = reminders (w_db w) ++ added
                                   ∧ ∀ r, r ∈ added -> reminder_type r ∈ window_kinds)).
    - intros w1 rt row Hrt. apply remind_appends. exact Hrt.
    - split; [reflexivity|]. split; [reflexivity|]. exists [].
      split; [symmetry; apply app_nil_r|]. intros r Hr. apply elem_of_nil in Hr. destruct Hr. }
  repeat split; try assumption. exists extra. exact Hout.
Qed.

Lemma in_window_cases (now : Z) (rt : string) (d : Z) :
  in_window now rt d
  ↔ (rt = "24h" ∧ now + timedelta 23 30 <= d <= now + timedelta 24 30)
    ∨ (rt = "3h" ∧ now + timedelta 2 30 <= d <= now + timedelta 3 30)
    ∨ (rt = "now" ∧ now - timedelta 0 15 <= d <= now + timedelta 0 15).
Proof.
  unfold in_window, windows, BETWEEN. split.
  - intros (s & e & Hin & Hb). apply andb_true_iff in Hb as [Hs He].
    apply Z.leb_le in Hs, He.
    rewrite !elem_of_cons, elem_of_nil in Hin.
    destruct Hin as [H|[H|[H|[]]]]; injection H as -> -> ->; auto.
  - intros [[-> H]|[[-> H]|[-> H]]]; eexists _, _.
    + split; [left|]. apply andb_true_iff. split; apply Z.leb_le; lia.
    + split; [right; left|]. apply andb_true_iff. split; apply Z.leb_le; lia.
    + split; [right; right; left|]. apply andb_true_iff. split; apply Z.leb_le; lia.
Qed.

(** X5. The three windows of one sweep are pairwise disjoint: a deadline is
    inside at most one of them, so a task is a candidate of at most one
    window kind per sweep. *)
Theorem windows_disjoint (now d : Z) (rt1 rt2 : string) :
  in_window now rt1 d -> in_window now rt2 d -> rt1 = rt2.
Proof.
  rewrite !in_window_cases. unfold timedelta.
  intros [[-> H1]|[[-> H1]|[-> H1]]] [[-> H2]|[[-> H2]|[-> H2]]]; try reflexivity; lia.
Qed.

Lemma windows_disjoint_witness : "24h" = "24h".
Proof.
  apply (windows_disjoint day_before 1771610400000000 "24h" "24h");
    apply in_window_cases; left; (split; [reflexivity | unfold day_before, timedelta; lia]).
Defined.

(** On the grid of sweeps that starts at [now0], an instant not before
    [now0 + c] lies in exactly one half-hour cell that starts [c] after a
    sweep. *)
Lemma sweep_grid (now0 d c : Z) :
  now0 + c <= d ->
  ∃ k : nat, now0 + Z.of_nat k * 1800000000 + c <= d
             < now0 + Z.of_nat k * 1800000000 + c + 1800000000.
Proof.
  intros Hd. exists (Z.to_nat ((d - now0 - c) / 1800000000)).
  assert (0 <= (d - now0 - c) / 1800000000) as Hk by (apply Z.div_pos; lia).
  rewrite Z2Nat.id by exact Hk.
  pose proof (Z.div_mod (d - now0 - c) 1800000000 ltac:(lia)) as Hdm.
  pose proof (Z.mod_pos_bound (d - now0 - c) 1800000000 ltac:(lia)) as Hb.
  lia.
Qed.

Lemma windows_cases (now : Z) (rt : string) (s e : Z) :
  (rt, (s, e)) ∈ windows now ->
  (rt = "24h" ∧ s = now + timedelta 23 30)
  ∨ (rt = "3h" ∧ s = now + timedelta 2 30)
  ∨ (rt = "now" ∧ s = now - timedelta 0 15).
Proof.
  unfold windows. rewrite !elem_of_cons, elem_of_nil.
  intros [H|[H|[H|[]]]]; injection H as -> -> ->; auto.
Qed.

(** X6. Sweeps made every thirty minutes from a first sweep on miss no
    later deadline: a deadline that is not before the start of a window
    of the first sweep is inside the window of that kind at the first
    sweep or at one of the sweeps that follow it. *)
Theorem every_deadline_seen_by_each_window (now0 d : Z) (rt : string) (s e : Z) :
  (rt, (s, e)) ∈ windows now0 ->
  s <= d ->
  ∃ k : nat, in_window (now0 + Z.of_nat k * SWEEP_INTERVAL) rt d.
Proof.
  intros Hw Hd. apply windows_cases in Hw as [[-> ->]|[[-> ->]|[-> ->]]];
    unfold timedelta in Hd.
  - destruct (sweep_grid now0 d 84600000000 ltac:(lia)) as [k Hk]. exists k.
    rewrite in_window_cases. unfold SWEEP_INTERVAL, timedelta.
    left. split; [reflexivity|lia].
  - destruct (sweep_grid now0 d 9000000000 ltac:(lia)) as [k Hk]. exists k.
    rewrite in_window_cases. unfold SWEEP_INTERVAL, timedelta.
    right; left. split; [reflexivity|lia].
  - destruct (sweep_grid now0 d (-900000000) ltac:(lia)) as [k Hk]. exists k.
    rewrite in_window_cases. unfold SWEEP_INTERVAL, timedelta.
    right; right. split; [reflexivity|lia].
Qed.

Lemma every_deadline_seen_by_each_window_witness :
  ∃ k : nat, in_window (day_before + Z.of_nat k * SWEEP_INTERVAL) "now" 1771610400000000.
Proof.
  apply (every_deadline_seen_by_each_window day_before 1771610400000000 "now"
           (day_before - timedelta 0 15) (day_before + timedelta 0 15)).
  - right. right. left.
  - unfold day_before, timedelta. lia.
Defined.

(** X7. The 24h and 3h windows are an hour wide while sweeps are thirty
    minutes apart: a deadline at least half an hour after the start of
    such a window of the first sweep is inside the window of that kind at
    two sweeps that follow one another, so only the ledger keeps these
    reminders from being sent twice. *)
Theorem early_windows_overlap (now0 d : Z) (rt : string) (s e : Z) :
  rt = "24h" ∨ rt = "3h" ->
  (rt, (s, e)) ∈ windows now0 ->
  s + SWEEP_INTERVAL <= d ->
  ∃ k : nat, in_window (now0 + Z.of_nat k * SWEEP_INTERVAL) rt d
             ∧ in_window (now0 + Z.of_nat (S k) * SWEEP_INTERVAL) rt d.
Proof.
  intros Hrt Hw Hd. unfold SWEEP_INTERVAL, timedelta in Hd.
  apply windows_cases in Hw as [[-> ->]|[[-> ->]|[-> ->]]]; unfold timedelta in Hd.
  - destruct (sweep_grid now0 d 86400000000 ltac:(lia)) as [k Hk]. exists k.
    rewrite !in_window_cases, Nat2Z.inj_succ. unfold SWEEP_INTERVAL, timedelta.
    split; left; (split; [reflexivity|lia]).
  - destruct (sweep_grid now0 d 10800000000 ltac:(lia)) as [k Hk]. exists k.
    rewrite !in_window_cases, Nat2Z.inj_succ. unfold SWEEP_INTERVAL, timedelta.
    split; right; left; (split; [reflexivity|lia]).
  - destruct Hrt as [H|H]; discriminate H.
Qed.

Lemma early_windows_overlap_witness :
  ∃ k : nat, in_window (day_before + Z.of_nat k * SWEEP_INTERVAL) "3h" 1771610400000000
             ∧ in_window (day_before + Z.of_nat (S k) * SWEEP_INTERVAL) "3h"
                         1771610400000000.
Proof.
  apply (early_windows_overlap day_before 1771610400000000 "3h"
           (day_before + timedelta 2 30) (day_before + timedelta 3 30)).
  - right. reflexivity.
  - right. left.
  - unfold day_before, SWEEP_INTERVAL, timedelta. lia.
Defined.

(* ===================================================================== *)
(** ** Further properties of the daily digest *)
(* ===================================================================== *)

Lemma digest_recipients (send_ok : nat -> bool) (now : Z) (db : Database)
    (G : list (Z * list (Z * string))) :
  ∀ out, ∃ ks, chat_id <$> foldl (digest_user send_ok now db) out G = (chat_id <$> out) ++ ks
               ∧ ks `sublist_of` G.*1.
Proof.
  induction G as [|[u ts] G IH]; intros out; cbn [foldl].
  - exists []. split; [symmetry; apply app_nil_r | constructor].
  - destruct (IH (digest_user send_ok now db out (u, ts))) as (ks & Hks & Hsub).
    unfold digest_user in Hks |- *. cbn [fst snd] in Hks |- *.
    destruct (build_digest now db u ts) as [msg [|]].
    + exists (u :: ks). split.
      * rewrite Hks, fmap_app, <- app_assoc. reflexivity.
      * cbn. apply sublist_skip. exact Hsub.
    + exists ks. split; [exact Hks|]. cbn. apply sublist_cons. exact Hsub.
Qed.

(** X8. A digest run sends at most one message to each user, however many
    teams the user belongs to. *)
Theorem digest_one_message_per_user
    (query : SqlOutcome) (send_ok : nat -> bool) (now : Z) (db : Database) :
  NoDup (chat_id <$> send_daily_summary query send_ok now db).
Proof.
  unfold send_daily_summary. destruct query; [|apply NoDup_nil_2].
  destruct (digest_recipients send_ok now db (group_by_user (all_members db)) [])
    as (ks & -> & Hsub).
  cbn. eapply sublist_NoDup; [apply group_by_user_spec | exact Hsub].
Qed.

Lemma digest_outcomes_irrelevant (ok1 ok2 : nat -> bool) (now : Z) (db : Database)
    (G : list (Z * list (Z * string))) :
  ∀ out1 out2,
    (fun e => (chat_id e, text e)) <$> out1 = (fun e => (chat_id e, text e)) <$> out2 ->
    (fun e => (chat_id e, text e)) <$> foldl (digest_user ok1 now db) out1 G
    = (fun e => (chat_id e, text e)) <$> foldl (digest_user ok2 now db) out2 G.
Proof.
  induction G as [|[u ts] G IH]; intros out1 out2 Heq; cbn [foldl]; [exact Heq|].
  apply IH. unfold digest_user. cbn [fst snd].
  destruct (build_digest now db u ts) as [msg [|]]; [|exact Heq].
  rewrite !fmap_app, Heq. reflexivity.
Qed.

(** X9. A send that raises stops nothing: the recipients of a digest run and
    the message built for each of them are the same whatever the outcomes
    of the sends. *)
Theorem digest_failures_do_not_abort
    (ok1 ok2 : nat -> bool) (now : Z) (db : Database) :
  (fun e => (chat_id e, text e)) <$> send_daily_summary SqlOk ok1 now db
  = (fun e => (chat_id e, text e)) <$> send_daily_summary SqlOk ok2 now db.
Proof. apply digest_outcomes_irrelevant. reflexivity. Qed.

(* ===================================================================== *)
(** ** Further properties of the validators *)
(* ===================================================================== *)

Lemma parsed_date_format (lib : StdLib) (text : string) (fmts : list string) (dt : Z) :
  parsed_date lib text fmts = Some dt ->
  ∃ fmt, fmt ∈ fmts ∧ strptime lib text fmt = Some dt.
Proof.
  induction fmts as [|fmt rest IH]; cbn; [discriminate|].
  destruct (strptime lib text fmt) as [x|] eqn:E.
  - intros [= ->]. exists fmt. split; [left | exact E].
  - intros H. destruct (IH H) as (f & Hin & Hf). exists f. split; [right; exact Hin | exact Hf].
Qed.

Lemma parsed_date_None (lib : StdLib) (text : string) (fmts : list string) :
  parsed_date lib text fmts = None ↔ ∀ fmt, fmt ∈ fmts -> strptime lib text fmt = None.
Proof.
  induction fmts as [|fmt rest IH]; cbn.
  - split; [|reflexivity]. intros _ f Hf. apply elem_of_nil in Hf. destruct Hf.
  - destruct (strptime lib text fmt) as [x|] eqn:E.
    + split; [discriminate|]. intros H. specialize (H fmt ltac:(left)). congruence.
    + rewrite IH. split.
      * intros H f Hf. apply elem_of_cons in Hf as [->|Hf]; [exact E | apply H; exact Hf].
      * intros H f Hf. apply H. right. exact Hf.
Qed.

(** X10. What the deadline validator returns: a date it returns is the parse
    of the stripped text under one of the six formats and is not before
    the current instant; a text that no format parses yields [None]. *)
Theorem validate_deadline_sound (lib : StdLib) (now : Z) (text : string) :
  (∀ dt, validate_deadline lib now text = Some dt ->
         now <= dt ∧ ∃ fmt, fmt ∈ formats ∧ strptime lib (strip lib text) fmt = Some dt)
  ∧ ((∀ fmt, fmt ∈ formats -> strptime lib (strip lib text) fmt = None) ->
     validate_deadline lib now text = None).
Proof.
  unfold validate_deadline. rewrite validate_deadline_from_parsed. split.
  - intros dt. destruct (parsed_date lib (strip lib text) formats) as [x|] eqn:E; [|discriminate].
    destruct (x <? now) eqn:Hlt; [discriminate|]. intros [= ->].
    split; [apply Z.ltb_ge; exact Hlt | apply parsed_date_format; exact E].
  - intros Hnone. apply parsed_date_None in Hnone. rewrite Hnone. reflexivity.
Qed.

(** X11. The first format that parses decides: when it gives a date before the
    current instant the text is rejected, also when a later format would
    have read the same text as a date in the future. *)
Theorem first_format_decides
    (lib : StdLib) (now : Z) (text : string) (before : list string) (fmt : string)
    (after : list string) (dt : Z) :
  formats = before ++ fmt :: after ->
  (∀ f, f ∈ before -> strptime lib (strip lib text) f = None) ->
  strptime lib (strip lib text) fmt = Some dt ->
  validate_deadline lib now text = (if dt <? now then None else Some dt).
Proof.
  intros Hf Hbefore Hfmt. unfold validate_deadline. rewrite validate_deadline_from_parsed, Hf.
  clear Hf. induction before as [|b before IH]; cbn.
  - rewrite Hfmt. reflexivity.
  - rewrite (Hbefore b ltac:(left)). apply IH. intros f Hin. apply Hbefore. right. exact Hin.
Qed.

Lemma first_format_decides_witness :
  validate_deadline sample_lib 1771610400000000 "31.12.2020 10:00"
  = (if 1609408800000000 <? 1771610400000000 then None else Some 1609408800000000).
Proof.
  apply (first_format_decides sample_lib 1771610400000000 "31.12.2020 10:00" []
           "%d.%m.%Y %H:%M"
           ["%d.%m.%Y"; "%Y-%m-%d %H:%M"; "%Y-%m-%d"; "%d/%m/%Y %H:%M"; "%d/%m/%Y"]
           1609408800000000).
  - reflexivity.
  - intros f Hf. apply elem_of_nil in Hf. destruct Hf.
  - reflexivity.
Defined.

(* ===================================================================== *)
(** ** Callback data: what the keyboards write and the handlers read *)
(* ===================================================================== *)

Lemma pretty_N_char_numeric (x : N) : numeric_char (pretty_N_char x) = true.
Proof.
  unfold pretty_N_char.
  repeat (match goal with |- context [match ?y with _ => _ end] => destruct y end;
          try reflexivity).
Qed.

Lemma pretty_N_go_numeric (x : N) (s : string) :
  numeric s = true -> numeric (pretty_N_go x s) = true.
Proof.
  revert s. induction (N.lt_wf_0 x) as [x _ IH]. intros s Hs.
  destruct (decide (0 < x)%N) as [Hpos|Hzero].
  - rewrite pretty_N_go_step by exact Hpos. apply IH.
    + apply N.div_lt; [exact Hpos | reflexivity].
    + cbn. rewrite pretty_N_char_numeric. exact Hs.
  - assert (x = 0%N) as -> by lia. rewrite pretty_N_go_0. exact Hs.
Qed.

Lemma pretty_N_numeric (x : N) : numeric (pretty x) = true.
Proof.
  unfold pretty, pretty_N. case_decide; [reflexivity|].
  apply pretty_N_go_numeric. reflexivity.
Qed.

(** [str] of an integer is made of digits and at most a minus sign. *)
Lemma str_numeric (z : Z) : numeric (str z) = true.
Proof.
  unfold str, pretty, pretty_Z. destruct z as [|p|p]; [reflexivity | |].
  - apply (pretty_N_numeric (Npos p)).
  - cbn. apply (pretty_N_numeric (Npos p)).
Qed.

Lemma numeric_char_not (c d : ascii) :
  numeric_char c = true -> numeric_char d = false -> Ascii.eqb c d = false.
Proof.
  intros Hc Hd. destruct (Ascii.eqb c d) eqn:E; [|reflexivity].
  apply Ascii.eqb_eq in E. subst d. congruence.
Qed.

(** A numeral does not start with a text that starts with a letter. *)
Lemma numeric_no_prefix (c : ascii) (q p : string) :
  numeric_char c = false -> numeric p = true -> String.prefix (String c q) p = false.
Proof.
  intros Hc Hp. destruct p as [|d p]; [reflexivity|].
  cbn in Hp |- *. apply andb_true_iff in Hp as [Hd _].
  destruct (ascii_dec c d) as [->|Hne]; [congruence | reflexivity].
Qed.

Lemma append_cons (c : ascii) (a b : string) : String c a +:+ b = String c (a +:+ b).
Proof. reflexivity. Qed.

Lemma append_nil (b : string) : "" +:+ b = b.
Proof. reflexivity. Qed.

Lemma partition_numeric (p r : string) :
  numeric p = true ->
  partition_underscore (p ++ String "_" r) = (p, Some r).
Proof.
  induction p as [|c p IH]; intros Hp; [reflexivity|].
  cbn in Hp. apply andb_true_iff in Hp as [Hc Hp].
  rewrite append_cons. cbn [partition_underscore].
  rewrite (numeric_char_not c "_" Hc eq_refl), (IH Hp). reflexivity.
Qed.

Lemma split_status_data (tid : Z) (s : string) :
  split_underscore_2 ("status_" ++ str tid ++ "_" ++ s) = ["status"; str tid; s].
Proof.
  unfold split_underscore_2. rewrite !append_cons, !append_nil.
  cbn [partition_underscore Ascii.eqb Bool.eqb].
  rewrite (partition_numeric (str tid) s (str_numeric tid)). reflexivity.
Qed.

Lemma remove_from_numeric (c : ascii) (q p : string) :
  numeric_char c = false -> numeric p = true -> remove_from (String c q) 0 p = p.
Proof.
  intros Hc. induction p as [|d p IH]; intros Hp; [reflexivity|].
  cbn [remove_from]. rewrite (numeric_no_prefix c q (String d p) Hc Hp).
  cbn in Hp. apply andb_true_iff in Hp as [_ Hp]. rewrite (IH Hp). reflexivity.
Qed.

Lemma remove_from_skip (pat q p : string) :
  remove_from pat (String.length q) (q +:+ p) = remove_from pat 0 p.
Proof.
  induction q as [|c q IH]; [reflexivity|].
  rewrite append_cons. cbn [String.length remove_from]. exact IH.
Qed.

Lemma prefix_append (pat p : string) : String.prefix pat (pat +:+ p) = true.
Proof.
  induction pat as [|c pat IH]; [destruct p; reflexivity|].
  rewrite append_cons. cbn [String.prefix].
  destruct (ascii_dec c c) as [_|Hne]; [exact IH | destruct Hne; reflexivity].
Qed.

(** Stripping the prefix a keyboard put before a task id gives the id's
    numeral back. *)
Lemma remove_all_prefix (c : ascii) (q p : string) :
  numeric_char c = false -> numeric p = true ->
  remove_all (String c q) (String c q +:+ p) = p.
Proof.
  intros Hc Hp. unfold remove_all.
  pose proof (prefix_append (String c q) p) as Hpre.
  rewrite append_cons in Hpre |- *. cbn [remove_from]. rewrite Hpre.
  cbn [String.length Nat.pred]. rewrite remove_from_skip.
  apply remove_from_numeric; assumption.
Qed.

(** *** Where the router sends the data of each button *)

Lemma prefix_nil (b : string) : String.prefix "" b = true.
Proof. destruct b; reflexivity. Qed.

Lemma prefix_cons_same (c : ascii) (a b : string) :
  String.prefix (String c a) (String c b) = String.prefix a b.
Proof. cbn [String.prefix]. destruct (ascii_dec c c) as [_|Hne]; [reflexivity|]. destruct Hne; reflexivity. Qed.

Lemma prefix_cons_diff (c d : ascii) (a b : string) :
  c ≠ d -> String.prefix (String c a) (String d b) = false.
Proof. intros Hne. cbn [String.prefix]. destruct (ascii_dec c d); [contradiction | reflexivity]. Qed.

Ltac route_by_head :=
  unfold callback_route, startswith; rewrite ?append_cons, ?append_nil;
  cbn [String.eqb Ascii.eqb Bool.eqb andb];
  repeat first [ rewrite prefix_cons_same
               | rewrite prefix_cons_diff by discriminate
               | rewrite prefix_nil ].

Lemma route_status (tid : Z) (s : string) :
  callback_route ("status_" ++ str tid ++ "_" ++ s) = RouteStatus.
Proof. route_by_head. reflexivity. Qed.

Lemma route_comment (tid : Z) : callback_route ("comment_" ++ str tid) = RouteComment.
Proof. route_by_head. reflexivity. Qed.

Lemma route_edit (tid : Z) : callback_route ("edit_" ++ str tid) = RouteEdit.
Proof. route_by_head. reflexivity. Qed.

Lemma route_delete (tid : Z) : callback_route ("delete_" ++ str tid) = RouteDelete.
Proof. route_by_head. reflexivity. Qed.

Lemma route_confirm_delete (tid : Z) :
  callback_route ("confirm_delete_" ++ str tid) = RouteConfirmDelete.
Proof. route_by_head. reflexivity. Qed.

Lemma route_cancel_delete (tid : Z) :
  callback_route ("cancel_delete_" ++ str tid) = RouteCancelDelete.
Proof. route_by_head. reflexivity. Qed.

Lemma route_cancel (tid : Z) : callback_route ("cancel_" ++ str tid) = RouteCancelTask.
Proof.
  assert (String.prefix "delete_" (str tid) = false) as Hd
    by (apply numeric_no_prefix; [reflexivity | apply str_numeric]).
  route_by_head. rewrite Hd. reflexivity.
Qed.

(** X12. The data of a status button goes to the status branch of the router
    and is read back there as the task id and the status: the split stops
    after the task id, so a status that itself contains underscores comes
    back whole. *)
Theorem status_data_round_trip (tid : Z) (s : string) :
  callback_route ("status_" +:+ str tid +:+ "_" +:+ s) = RouteStatus
  ∧ split_underscore_2 ("status_" +:+ str tid +:+ "_" +:+ s) = ["status"; str tid; s].
Proof. split; [apply route_status | apply split_status_data]. Qed.

(** *** What the task card offers *)

(** Every button of the task card: the way back to the menu, a status
    button, the comment button, or (only for a role that may manage) the
    edit, cancel and delete buttons. A status button is offered only for a
    task whose status is one of the four of the data model, and it leads
    to another of the four. *)
Lemma task_keyboard_buttons
    (tid : Z) (st : string) (user_role : option string) (back : bool)
    (b : InlineKeyboardButton) :
  b ∈ buttons (get_task_keyboard tid st user_role back) ->
  (callback_data b = "back_to_menu" ∧ back = true)
  ∨ (∃ s, callback_data b = "status_" +:+ str tid +:+ "_" +:+ s
          ∧ s ∈ statuses ∧ st ∈ statuses ∧ s ≠ st)
  ∨ callback_data b = "comment_" +:+ str tid
  ∨ (may_manage user_role = true
     ∧ (callback_data b = "edit_" +:+ str tid
        ∨ callback_data b = "cancel_" +:+ str tid
        ∨ callback_data b = "delete_" +:+ str tid)).
Proof.
  unfold get_task_keyboard, buttons, statuses.
  destruct (String.eqb st "todo") eqn:E1;
    [apply String.eqb_eq in E1; subst st|];
    [|destruct (String.eqb st "in_progress") eqn:E2;
      [apply String.eqb_eq in E2; subst st|];
      [|destruct (String.eqb st "done") eqn:E3;
        [apply String.eqb_eq in E3; subst st|];
        [|destruct (String.eqb st "cancelled") eqn:E4;
          [apply String.eqb_eq in E4; subst st|]]]];
    destruct (may_manage user_role) eqn:Em; destruct back; cbn;
    intros Hb;
    repeat (apply elem_of_cons in Hb as [->|Hb]);
    try (apply elem_of_nil in Hb; destruct Hb);
    cbn [callback_data].
  all: first
    [ left; split; reflexivity
    | right; right; left; reflexivity
    | right; right; right; split; [reflexivity|];
      first [left; reflexivity | right; left; reflexivity | right; right; reflexivity]
    | right; left; exists "in_progress"; split; [reflexivity|];
      split; [set_solver|]; split; [set_solver | discriminate]
    | right; left; exists "done"; split; [reflexivity|];
      split; [set_solver|]; split; [set_solver | discriminate]
    | right; left; exists "todo"; split; [reflexivity|];
      split; [set_solver|]; split; [set_solver | discriminate] ].
Qed.

(** X13. The delete button of the task card is offered exactly to the roles
    that may manage: owner, admin, and a user who has no role at all; a
    plain member is offered nothing that the router sends to the edit,
    cancel or delete branches. *)
Theorem manage_buttons_by_role
    (tid : Z) (st : string) (user_role : option string) (back : bool) :
  ((∃ b, b ∈ buttons (get_task_keyboard tid st user_role back)
         ∧ callback_route (callback_data b) = RouteDelete)
   ↔ user_role = None ∨ user_role = Some "owner" ∨ user_role = Some "admin")
  ∧ (may_manage user_role = false ->
     ∀ b, b ∈ buttons (get_task_keyboard tid st user_role back) ->
          callback_route (callback_data b) ∈ [RouteBackToMenu; RouteStatus; RouteComment]).
Proof.
  assert (may_manage user_role = true
          ↔ user_role = None ∨ user_role = Some "owner" ∨ user_role = Some "admin") as Hrole.
  { unfold may_manage. destruct user_role as [r|]; [|tauto].
    rewrite orb_true_iff, !String.eqb_eq. split.
    - intros [->| ->]; auto.
    - intros [H|[H|H]]; [discriminate | injection H; auto | injection H; auto]. }
  split.
  - rewrite <- Hrole. split.
    + intros (b & Hb & Hr).
      destruct (task_keyboard_buttons tid st user_role back b Hb)
        as [[Hd _]|[(s & Hd & _)|[Hd|[Hm _]]]]; [| | |exact Hm]; rewrite Hd in Hr.
      * discriminate Hr.
      * rewrite route_status in Hr. discriminate Hr.
      * rewrite route_comment in Hr. discriminate Hr.
    + intros Hm. exists (mkButton "🗑 Удалить" ("delete_" ++ str tid)).
      split; [|apply route_delete].
      unfold get_task_keyboard, buttons. rewrite Hm.
      rewrite !concat_app. apply elem_of_app. right. apply elem_of_app. right.
      apply elem_of_app. left. cbn. right. left.
  - intros Hm b Hb.
    destruct (task_keyboard_buttons tid st user_role back b Hb)
      as [[Hd _]|[(s & Hd & _)|[Hd|[Hm' _]]]]; [| | |congruence]; rewrite Hd.
    + left.
    + rewrite route_status. right. left.
    + rewrite route_comment. right. right. left.
Qed.

(** X14. The two buttons of the delete confirmation go to the confirm and the
    cancel-delete branches; the second is not taken for the cancel-task
    button although its data starts with [cancel_]. *)
Theorem delete_confirmation_routes (tid : Z) :
  (fun b => callback_route (callback_data b)) <$> buttons (get_delete_confirm_keyboard tid)
  = [RouteConfirmDelete; RouteCancelDelete].
Proof.
  cbn. rewrite route_confirm_delete, route_cancel_delete. reflexivity.
Qed.

(** *** From a button to the store *)

Lemma status_callback_store
    (lib : StdLib) (env : CallbackEnv) (now : Z) (db : Database) (user : TgUser)
    (tid : Z) (s : string) (task : Task) :
  int lib (str tid) = Some tid ->
  get_task db tid = Some task ->
  cb_exec env = SqlOk ->
  h_db (handle_status_callback lib env now db user ("status_" ++ str tid ++ "_" ++ s))
  = (update_task_status SqlOk now db tid s).1.
Proof.
  intros Hi Ht Hx. unfold handle_status_callback.
  rewrite split_status_data, Hi, Ht, Hx.
  change (update_task_status SqlOk now db tid s)
    with ((update_task_status SqlOk now db tid s).1, true).
  cbv iota beta. cbn [negb].
  rewrite get_task_update, Ht. cbn [fmap option_fmap option_map].
  destruct (cb_edit_returns env); cbn [negb]; [|reflexivity].
  case_bool_decide; reflexivity.
Qed.

(** X15. Pressing a status button of a task's card stores, for that task, a
    status of the data model other than the one the card was drawn for:
    through the keyboard no status outside the enumeration is written. *)
Theorem status_button_stores_valid_status
    (lib : StdLib) (env : CallbackEnv) (now : Z) (db : Database) (user : TgUser)
    (tid : Z) (task : Task) (user_role : option string) (back : bool)
    (b : InlineKeyboardButton) :
  int lib (str tid) = Some tid ->
  get_task db tid = Some task ->
  cb_exec env = SqlOk ->
  b ∈ buttons (get_task_keyboard tid (status task) user_role back) ->
  callback_route (callback_data b) = RouteStatus ->
  ∃ s, s ∈ statuses ∧ s ≠ status task
       ∧ status <$> get_task (h_db (handle_status_callback lib env now db user
                                      (callback_data b))) tid = Some s.
Proof.
  intros Hi Ht Hx Hb Hr.
  assert (task_id task = tid) as Hid.
  { unfold get_task, fetchone in Ht. apply head_Some_elem_of in Ht.
    apply list_elem_of_filter in Ht. tauto. }
  destruct (task_keyboard_buttons tid (status task) user_role back b Hb)
    as [[Hd _]|[(s & Hd & Hs & _ & Hne)|[Hd|[_ [Hd|[Hd|Hd]]]]]]; rewrite Hd in Hr |- *.
  - discriminate Hr.
  - exists s. split; [exact Hs|]. split; [exact Hne|].
    rewrite (status_callback_store lib env now db user tid s task Hi Ht Hx).
    rewrite get_task_update, Ht. cbn. unfold updated_row.
    rewrite bool_decide_eq_true_2 by exact Hid. reflexivity.
  - rewrite route_comment in Hr. discriminate Hr.
  - rewrite route_edit in Hr. discriminate Hr.
  - rewrite route_cancel in Hr. discriminate Hr.
  - rewrite route_delete in Hr. discriminate Hr.
Qed.

Lemma status_button_stores_valid_status_witness :
  ∃ s, s ∈ statuses ∧ s ≠ status task7_open
       ∧ status <$> get_task (h_db (handle_status_callback sample_lib calm 200 sweep_db tg_bob
                                      (callback_data (mkButton "✅ Выполнено" "status_7_done"))))
                             7 = Some s.
Proof.
  apply (status_button_stores_valid_status sample_lib calm 200 sweep_db tg_bob 7 task7_open
           (Some "admin") true (mkButton "✅ Выполнено" "status_7_done"));
    [reflexivity | reflexivity | reflexivity | left | reflexivity].
Defined.

Lemma delete_task_lookup (db : Database) (tid k : Z) :
  get_task (delete_task SqlOk db tid).1 k = if bool_decide (k = tid) then None else get_task db k.
Proof.
  unfold get_task, fetchone. cbn [delete_task fst tasks].
  induction (tasks db) as [|t l IH]; [case_bool_decide; reflexivity|].
  rewrite (filter_cons (fun t => task_id t ≠ tid)).
  destruct (decide (task_id t ≠ tid)) as [Hne|Heq].
  - rewrite !filter_cons. destruct (decide (task_id t = k)) as [Hk|Hk].
    + subst k. cbn. rewrite bool_decide_eq_false_2 by exact Hne. reflexivity.
    + exact IH.
  - rewrite filter_cons. destruct (decide (task_id t = k)) as [Hk|Hk]; [|exact IH].
    assert (task_id t = tid) as Ht by (destruct (decide (task_id t = tid)); tauto).
    assert (k = tid) as -> by congruence.
    rewrite IH. rewrite bool_decide_eq_true_2 by reflexivity. reflexivity.
Qed.

(** X16. Deleting a task removes it and, by the cascade, every dispatch record
    of it; every other task and the dispatch records of every other task
    stay. Users, teams and memberships are not touched. *)
Theorem delete_task_cascades (db : Database) (tid : Z) :
  let db' := (delete_task SqlOk db tid).1 in
  get_task db' tid = None
  ∧ (∀ rt, is_reminder_sent db' tid rt = false)
  ∧ (∀ k, k ≠ tid -> get_task db' k = get_task db k
                     ∧ ∀ rt, is_reminder_sent db' k rt = is_reminder_sent db k rt)
  ∧ users db' = users db ∧ teams db' = teams db ∧ team_members db' = team_members db.
Proof.
  intros db'. subst db'. split; [|split; [|split; [|auto]]].
  - rewrite delete_task_lookup, bool_decide_eq_true_2 by reflexivity. reflexivity.
  - intros rt. destruct (is_reminder_sent _ tid rt) eqn:E; [|reflexivity].
    apply is_reminder_sent_spec in E as (r & Hr & Hid & _). cbn in Hr.
    apply list_elem_of_filter in Hr as [Hne _]. contradiction.
  - intros k Hk. split.
    + rewrite delete_task_lookup, bool_decide_eq_false_2 by exact Hk. reflexivity.
    + intros rt. apply eq_true_iff_eq. rewrite !is_reminder_sent_spec. cbn. split.
      * intros (r & Hr & H). apply list_elem_of_filter in Hr as [_ Hr]. eauto.
      * intros (r & Hr & Hid & Hrt). exists r. split; [|auto].
        apply list_elem_of_filter. split; [congruence | exact Hr].
Qed.

(** X17. The deletion dialogue end to end: the delete button of a task's card
    opens the confirmation for that task, and its "yes" button deletes
    that task and nothing else. *)
Theorem delete_dialogue (lib : StdLib) (db : Database) (tid : Z) :
  int lib (str tid) = Some tid ->
  handle_delete_callback lib ("delete_" ++ str tid)
  = Some (ReplyConfirmDelete tid (get_delete_confirm_keyboard tid))
  ∧ handle_confirm_delete_callback lib SqlOk db ("confirm_delete_" ++ str tid)
    = Some ((delete_task SqlOk db tid).1, ReplyDeleted tid).
Proof.
  intros Hi. unfold handle_delete_callback, handle_confirm_delete_callback.
  rewrite !remove_all_prefix by (reflexivity || apply str_numeric).
  rewrite Hi. split; reflexivity.
Qed.

Lemma delete_dialogue_witness :
  handle_delete_callback sample_lib ("delete_" ++ str 7)
  = Some (ReplyConfirmDelete 7 (get_delete_confirm_keyboard 7))
  ∧ handle_confirm_delete_callback sample_lib SqlOk sweep_db ("confirm_delete_" ++ str 7)
    = Some ((delete_task SqlOk sweep_db 7).1, ReplyDeleted 7).
Proof. apply (delete_dialogue sample_lib sweep_db 7). reflexivity. Defined.

(* ===================================================================== *)
(** ** Teams and memberships *)
(* ===================================================================== *)

Section Fetch.
Context {A : Type} (P : A -> Prop) `{Pdec : !∀ x, Decision (P x)}.

Lemma fetchone_filter_None (l : list A) :
  fetchone (filter P l) = None ↔ ∀ x, x ∈ l -> ¬ P x.
Proof.
  unfold fetchone. split.
  - intros Hn x Hx HP.
    assert (x ∈ filter P l) as Hin by (apply list_elem_of_filter; auto).
    destruct (filter P l); [apply elem_of_nil in Hin; destruct Hin | discriminate].
  - intros Hn. destruct (filter P l) as [|x k] eqn:E; [reflexivity|].
    assert (x ∈ filter P l) as Hin by (rewrite E; left).
    apply list_elem_of_filter in Hin as [HP Hin]. destruct (Hn x Hin HP).
Qed.

Lemma fetchone_filter_Some (l : list A) (x : A) :
  fetchone (filter P l) = Some x -> x ∈ l ∧ P x.
Proof.
  unfold fetchone. intros Hs. apply head_Some_elem_of in Hs.
  apply list_elem_of_filter in Hs. tauto.
Qed.

Lemma fetchone_filter_app (l k : list A) :
  fetchone (filter P (l ++ k))
  = match fetchone (filter P l) with
    | Some y => Some y
    | None => fetchone (filter P k)
    end.
Proof.
  unfold fetchone. rewrite filter_app. destruct (filter P l); reflexivity.
Qed.

Lemma fetchone_filter_is_Some (l : list A) :
  is_Some (fetchone (filter P l)) ↔ ∃ x, x ∈ l ∧ P x.
Proof.
  split.
  - intros [x Hx]. exists x. apply fetchone_filter_Some. exact Hx.
  - intros (x & Hx & HP). destruct (fetchone (filter P l)) eqn:E; [eauto|].
    destruct (proj1 (fetchone_filter_None l) E x Hx HP).
Qed.
End Fetch.

Lemma get_member_role_None (db : Database) (tid uid : Z) :
  get_member_role db tid uid = None
  ↔ ∀ m, m ∈ team_members db -> ¬ (tm_team_id m = tid ∧ tm_user_id m = uid).
Proof.
  unfold get_member_role. rewrite fmap_None. apply fetchone_filter_None.
Qed.

Lemma get_member_role_Some (db : Database) (tid uid : Z) (r : string) :
  get_member_role db tid uid = Some r ->
  ∃ m, m ∈ team_members db ∧ tm_team_id m = tid ∧ tm_user_id m = uid ∧ role m = r.
Proof.
  unfold get_member_role. intros H. apply fmap_Some in H as (m & Hm & ->).
  apply fetchone_filter_Some in Hm as (Hin & H1 & H2). eauto.
Qed.

Lemma member_count_app (db : Database) (ms : list TeamMember) (tid : Z) :
  get_team_member_count (with_team_members db (team_members db ++ ms)) tid
  = get_team_member_count db tid
    + Z.of_nat (length (filter (fun m => tm_team_id m = tid) ms)).
Proof.
  unfold get_team_member_count. cbn. rewrite filter_app, length_app. lia.
Qed.

Lemma get_team_in (db : Database) (tid : Z) (t : Team) :
  get_team db tid = Some t -> t ∈ teams db ∧ team_id t = tid.
Proof. apply (fetchone_filter_Some (fun t => team_id t = tid)). Qed.

(** With unique team ids, a team is found under its id. *)
Lemma get_team_unique (db : Database) (t : Team) :
  team_ids_unique db -> t ∈ teams db -> get_team db (team_id t) = Some t.
Proof.
  unfold team_ids_unique, get_team, fetchone.
  induction (teams db) as [|x l IH]; intros Hnd Hin; [apply elem_of_nil in Hin; destruct Hin|].
  cbn in Hnd. apply NoDup_cons in Hnd as [Hx Hnd]. rewrite filter_cons.
  apply elem_of_cons in Hin as [->|Hin].
  - rewrite decide_True by reflexivity. reflexivity.
  - rewrite decide_False; [apply IH; assumption|].
    intros Heq. apply Hx. rewrite Heq. apply list_elem_of_fmap_2. exact Hin.
Qed.


Lemma add_team_member_cases (exec : SqlOutcome) (now : Z) (db : Database) (tid uid : Z)
    (r : string) :
  add_team_member exec now db tid uid r = (db, false)
  ∨ (is_Some (get_team db tid) ∧ is_Some (get_user db uid)
     ∧ get_member_role db tid uid = None
     ∧ add_team_member exec now db tid uid r
       = (with_team_members db (team_members db ++ [mkTeamMember tid uid r now]), true)).
Proof.
  unfold add_team_member. destruct exec; [|left; reflexivity].
  destruct (get_team db tid) as [t|]; [|left; reflexivity].
  destruct (get_user db uid) as [u|]; [|left; reflexivity].
  destruct (get_member_role db tid uid) eqn:E; [left; reflexivity|].
  right. repeat split; eauto.
Qed.


Lemma club_db_consistent : store_consistent club_db.
Proof.
  split; [|split; [|split]].
  - unfold team_ids_unique. cbn. apply NoDup_singleton.
  - unfold memberships_unique. cbn. apply NoDup_cons.
    split; [|apply NoDup_singleton].
    intros Hin. apply list_elem_of_singleton in Hin. discriminate Hin.
  - intros m Hm. cbn in Hm. apply elem_of_cons in Hm as [->|Hm];
      [|apply list_elem_of_singleton in Hm; subst m]; split; eexists; reflexivity.
  - intros t Ht. cbn in Ht. apply list_elem_of_singleton in Ht. subst t.
    exists (mkTeamMember 1 1 "owner" 0). cbn. split; [left | auto].
Qed.


Lemma getitem_allowed (allowed : bool) (current limit : Z) (plan : string) :
  getitem (limit_decision allowed current limit plan) "allowed" = Ok (VBool allowed).
Proof. reflexivity. Qed.

(** The result of a check on an existing team has every key the limit
    message reads. *)
Lemma format_limit_decision (allowed : bool) (current limit : Z) (plan item : string) :
  format_limit_message (limit_decision allowed current limit plan) item
  = Ok (mkLimitMessage plan (VInt current) (VInt limit) item).
Proof. reflexivity. Qed.

(** A call of [join_command] either leaves the store as it is or adds the
    caller to the team of the invite code, which then had room. *)
Lemma join_command_cases (env : Environ) (exec : SqlOutcome) (send_ok : nat -> bool)
    (now : Z) (db : Database) (user : TgUser) (args : list string) :
  th_db (join_command env exec send_ok now db user args) = db
  ∨ ∃ code rest team t0,
      args = code :: rest
      ∧ get_team_by_invite db code = Some team
      ∧ get_team db (team_id team) = Some t0
      ∧ get_team_member_count db (team_id team) < member_ceiling env t0
      ∧ add_team_member exec now db (team_id team) (tg_id user) "member"
        = (th_db (join_command env exec send_ok now db user args), true).
Proof.
  unfold join_command. destruct args as [|code rest]; [left; reflexivity|].
  destruct (get_team_by_invite db code) as [team|] eqn:Et; [|left; reflexivity].
  destruct (get_team db (team_id team)) as [t0|] eqn:E0.
  - rewrite (check_member_limit_existing env db (team_id team) t0 E0). cbv zeta.
    rewrite getitem_allowed. cbn [py_truthy].
    destruct (get_team_member_count db (team_id team) <? _) eqn:Elt; cbn [negb];
      [|destruct (format_limit_message _ _); left; reflexivity].
    destruct (add_team_member exec now db (team_id team) (tg_id user) "member")
      as [db1 [|]] eqn:Ea; cbn [negb].
    + right. exists code, rest, team, t0. cbn [th_db].
      apply Z.ltb_lt in Elt. auto.
    + left. cbn [th_db].
      destruct (add_team_member_cases exec now db (team_id team) (tg_id user) "member")
        as [H|(_ & _ & _ & H)]; rewrite H in Ea; congruence.
  - unfold check_member_limit. rewrite E0. cbn. left. reflexivity.
Qed.

(** X19. Joining never takes a team above the member ceiling of its tier:
    after [join_command] the team of the invite code has at most as many
    members as the ceiling allows, unless it had more before, and then it
    has as many as before. *)
Theorem join_respects_member_ceiling
    (env : Environ) (exec : SqlOutcome) (send_ok : nat -> bool) (now : Z) (db : Database)
    (user : TgUser) (code : string) (rest : list string) (team : Team) :
  team_ids_unique db ->
  get_team_by_invite db code = Some team ->
  let db' := th_db (join_command env exec send_ok now db user (code :: rest)) in
  get_team_member_count db' (team_id team)
  <= Z.max (get_team_member_count db (team_id team)) (member_ceiling env team)
  ∧ ∀ other, other ≠ team_id team ->
             get_team_member_count db' other = get_team_member_count db other.
Proof.
  intros Hids Hinv db'. subst db'.
  destruct (join_command_cases env exec send_ok now db user (code :: rest))
    as [->|(code' & rest' & team' & t0 & Hargs & Hinv' & Ht0 & Hlt & Hadd)].
  { split; [lia | reflexivity]. }
  injection Hargs as <- <-. rewrite Hinv in Hinv'. injection Hinv' as <-.
  assert (t0 = team) as ->.
  { apply (fetchone_filter_Some (fun t => invite_code t = code)) in Hinv as [Hin _].
    rewrite (get_team_unique db team Hids Hin) in Ht0. congruence. }
  destruct (add_team_member_cases exec now db (team_id team) (tg_id user) "member")
    as [H|(_ & _ & _ & H)]; rewrite H in Hadd; [discriminate|].
  pose proof (f_equal fst Hadd) as Hdb. cbn [fst] in Hdb. rewrite <- Hdb. split.
  - rewrite member_count_app. rewrite (filter_cons (fun m => tm_team_id m = team_id team)).
    rewrite decide_True by reflexivity. cbn [length filter]. cbn. lia.
  - intros other Hne. rewrite member_count_app.
    rewrite (filter_cons (fun m => tm_team_id m = other)).
    rewrite decide_False by (cbn; congruence). cbn. lia.
Qed.

Lemma join_respects_member_ceiling_witness :
  let db' := th_db (join_command default_environ SqlOk (fun _ => true) 9 club_db tg_carol
                      ["abc123"]) in
  get_team_member_count db' (team_id alpha)
  <= Z.max (get_team_member_count club_db (team_id alpha)) (member_ceiling default_environ alpha)
  ∧ ∀ other, other ≠ team_id alpha ->
             get_team_member_count db' other = get_team_member_count club_db other.
Proof.
  apply (join_respects_member_ceiling default_environ SqlOk (fun _ => true) 9 club_db tg_carol
           "abc123" [] alpha).
  - apply club_db_consistent.
  - reflexivity.
Defined.

(** Carol joins team Alpha, which has two of its three places taken: she
    becomes a member and the two who were there are told. A fourth
    person is then refused. *)
Example carol_joins_alpha :
  let r := join_command default_environ SqlOk (fun _ => true) 9 club_db tg_carol ["abc123"] in
  th_reply r = Some (ReplyJoined "Alpha")
  ∧ get_member_role (th_db r) 1 5 = Some "member"
  ∧ th_notified r = [mkSent 1 (mkNewMemberText "Carol" "Alpha") true;
                     mkSent 42 (mkNewMemberText "Carol" "Alpha") true]
  ∧ th_reply (join_command default_environ SqlOk (fun _ => true) 10 (th_db r)
                (mkTgUser 6 None None) ["abc123"])
    = Some (ReplyMemberLimit (mkLimitMessage "free" (VInt 3) (VInt 3) "участника")).
Proof. cbv zeta. repeat split. Qed.

(** *** Consistency of the store under the team operations *)

Lemma get_user_is_Some (db : Database) (uid : Z) :
  is_Some (get_user db uid) ↔ ∃ u, u ∈ users db ∧ user_id u = uid.
Proof. apply (fetchone_filter_is_Some (fun u => user_id u = uid)). Qed.

Lemma get_team_is_Some (db : Database) (tid : Z) :
  is_Some (get_team db tid) ↔ ∃ t, t ∈ teams db ∧ team_id t = tid.
Proof. apply (fetchone_filter_is_Some (fun t => team_id t = tid)). Qed.

Lemma add_user_keeps_ids (exec : SqlOutcome) (db : Database) (uid : Z)
    (un fn ln : option string) (k : Z) :
  is_Some (get_user db k) -> is_Some (get_user (add_user exec db uid un fn ln) k).
Proof.
  destruct exec; [|exact id]. rewrite !get_user_is_Some. intros (u & Hu & Hk).
  cbn [add_user users]. destruct (get_user db uid) eqn:E.
  - destruct (decide (user_id u = uid)) as [Heq|Hne].
    + exists (mkUser uid un fn ln). split; [|cbn; congruence].
      apply list_elem_of_fmap. exists u. rewrite bool_decide_eq_true_2 by exact Heq. auto.
    + exists u. split; [|exact Hk].
      apply list_elem_of_fmap. exists u. rewrite bool_decide_eq_false_2 by exact Hne. auto.
  - exists u. split; [apply elem_of_app; left; exact Hu | exact Hk].
Qed.

Lemma store_consistent_split (db : Database) :
  store_consistent db ↔ schema_consistent db ∧ owners_are_members db.
Proof. unfold store_consistent, schema_consistent. tauto. Qed.

Lemma add_user_tables (exec : SqlOutcome) (db : Database) (uid : Z)
    (un fn ln : option string) :
  teams (add_user exec db uid un fn ln) = teams db
  ∧ team_members (add_user exec db uid un fn ln) = team_members db.
Proof. destruct exec; split; reflexivity. Qed.

Lemma add_user_schema (exec : SqlOutcome) (db : Database) (uid : Z)
    (un fn ln : option string) :
  schema_consistent db -> schema_consistent (add_user exec db uid un fn ln).
Proof.
  intros (Hids & Huniq & Hrefer).
  destruct (add_user_tables exec db uid un fn ln) as [Ht Hm].
  split; [unfold team_ids_unique; rewrite Ht; exact Hids|].
  split; [unfold memberships_unique; rewrite Hm; exact Huniq|].
  intros m. rewrite Hm. intros Hin. destruct (Hrefer m Hin) as [H1 H2]. split.
  - unfold get_team. rewrite Ht. exact H1.
  - apply add_user_keeps_ids. exact H2.
Qed.

Lemma add_user_owners (exec : SqlOutcome) (db : Database) (uid : Z)
    (un fn ln : option string) :
  owners_are_members db -> owners_are_members (add_user exec db uid un fn ln).
Proof.
  intros Hown. destruct (add_user_tables exec db uid un fn ln) as [Ht Hm].
  intros t. rewrite Ht, Hm. apply Hown.
Qed.

(** The three ways a call of [create_team] ends on a store whose
    memberships refer to existing teams: nothing is written; both rows
    are written; or the team row is written and the second [INSERT]
    raises, which leaves the team without its owner's membership. *)
Lemma create_team_cases (exec member_exec : SqlOutcome) (rowid now : Z) (db : Database)
    (team_name : string) (owner : Z) (code : string) :
  memberships_refer db ->
  create_team exec member_exec rowid now db team_name owner code = (db, 0)
  ∨ (is_Some (get_user db owner) ∧ get_team_by_invite db code = None
     ∧ get_team db rowid = None
     ∧ ((member_exec = SqlOk
         ∧ create_team exec member_exec rowid now db team_name owner code
           = ({| users := users db;
                 teams := teams db ++ [mkTeam rowid team_name owner code "free" None];
                 team_members := team_members db ++ [mkTeamMember rowid owner "owner" now];
                 tasks := tasks db; reminders := reminders db |}, rowid))
        ∨ (member_exec = SqlError
           ∧ create_team exec member_exec rowid now db team_name owner code
             = ({| users := users db;
                   teams := teams db ++ [mkTeam rowid team_name owner code "free" None];
                   team_members := team_members db;
                   tasks := tasks db; reminders := reminders db |}, 0)))).
Proof.
  intros Hrefer. unfold create_team. destruct exec; [|left; reflexivity].
  destruct (get_user db owner) as [u|] eqn:Eu; [|left; reflexivity].
  destruct (get_team_by_invite db code) eqn:Ec; [left; reflexivity|].
  destruct (get_team db rowid) eqn:Et; [left; reflexivity|].
  right. split; [eauto|]. split; [reflexivity|]. split; [reflexivity|].
  destruct member_exec; [left | right; split; reflexivity].
  split; [reflexivity|].
  assert (get_member_role
            {| users := users db;
               teams := teams db ++ [mkTeam rowid team_name owner code "free" None];
               team_members := team_members db; tasks := tasks db;
               reminders := reminders db |} rowid owner = None) as ->; [|reflexivity].
  apply get_member_role_None. cbn [team_members]. intros m Hm [H1 _].
  destruct (Hrefer m Hm) as [[t Ht] _]. rewrite H1, Et in Ht. discriminate.
Qed.

Lemma create_team_fresh (db : Database) (rowid : Z) :
  memberships_refer db -> get_team db rowid = None ->
  ∀ m, m ∈ team_members db -> tm_team_id m ≠ rowid.
Proof.
  intros Hrefer Ht m Hm Heq. destruct (Hrefer m Hm) as [[t Hsome] _].
  rewrite Heq, Ht in Hsome. discriminate.
Qed.

(** Appending a team under a free id keeps the team ids unique and the
    memberships referring to existing teams. *)
Lemma new_team_schema (db : Database) (t : Team) (ms : list TeamMember) :
  schema_consistent db -> get_team db (team_id t) = None ->
  team_ids_unique {| users := users db; teams := teams db ++ [t]; team_members := ms;
                     tasks := tasks db; reminders := reminders db |}
  ∧ ∀ m, m ∈ team_members db ->
         is_Some (get_team {| users := users db; teams := teams db ++ [t];
                              team_members := ms; tasks := tasks db;
                              reminders := reminders db |} (tm_team_id m))
         ∧ is_Some (get_user db (tm_user_id m)).
Proof.
  intros (Hids & _ & Hrefer) Ht. split.
  - unfold team_ids_unique in *. cbn. rewrite fmap_app. apply NoDup_app.
    split; [exact Hids|]. split; [|apply NoDup_singleton].
    intros k Hk Hk'. cbn in Hk'. apply list_elem_of_singleton in Hk'. subst k.
    apply list_elem_of_fmap in Hk as (t' & Heq & Hin).
    apply (proj1 (fetchone_filter_None (fun x => team_id x = team_id t) (teams db)) Ht t' Hin).
    symmetry. exact Heq.
  - intros m Hm. destruct (Hrefer m Hm) as [H1 H2]. split; [|exact H2].
    apply get_team_is_Some. apply get_team_is_Some in H1 as (t' & Hin & Hid).
    exists t'. split; [cbn; apply elem_of_app; left; exact Hin | exact Hid].
Qed.

Lemma create_team_schema
    (exec member_exec : SqlOutcome) (rowid now : Z) (db : Database) (team_name : string)
    (owner : Z) (code : string) :
  schema_consistent db ->
  schema_consistent (create_team exec member_exec rowid now db team_name owner code).1.
Proof.
  intros Hs. pose proof Hs as (Hids & Huniq & Hrefer).
  destruct (create_team_cases exec member_exec rowid now db team_name owner code Hrefer)
    as [->|(Hu & Hc & Ht & [(_ & ->)|(_ & ->)])]; cbn [fst snd]; [exact Hs| |].
  - pose proof (create_team_fresh db rowid Hrefer Ht) as Hfresh.
    destruct (new_team_schema db (mkTeam rowid team_name owner code "free" None)
                (team_members db ++ [mkTeamMember rowid owner "owner" now]) Hs Ht)
      as [Hids' Hrefer'].
    split; [exact Hids'|]. split.
    + unfold memberships_unique in *. cbn. rewrite fmap_app. apply NoDup_app.
      split; [exact Huniq|]. split; [|apply NoDup_singleton].
      intros p Hp Hp'. cbn in Hp'. apply list_elem_of_singleton in Hp'. subst p.
      apply list_elem_of_fmap in Hp as (m & Heq & Hm). injection Heq as H1 H2.
      apply (Hfresh m Hm). symmetry. exact H1.
    + intros m Hm. cbn in Hm. apply elem_of_app in Hm as [Hm|Hm]; [exact (Hrefer' m Hm)|].
      apply list_elem_of_singleton in Hm. subst m. cbn [tm_team_id tm_user_id].
      split; [|exact Hu]. apply get_team_is_Some. eexists.
      split; [cbn; apply elem_of_app; right; left | reflexivity].
  - destruct (new_team_schema db (mkTeam rowid team_name owner code "free" None)
                (team_members db) Hs Ht) as [Hids' Hrefer'].
    split; [exact Hids'|]. split; [exact Huniq|]. exact Hrefer'.
Qed.

Lemma create_team_owners
    (exec : SqlOutcome) (rowid now : Z) (db : Database) (team_name : string)
    (owner : Z) (code : string) :
  schema_consistent db -> owners_are_members db ->
  owners_are_members (create_team exec SqlOk rowid now db team_name owner code).1.
Proof.
  intros (Hids & Huniq & Hrefer) Hown.
  destruct (create_team_cases exec SqlOk rowid now db team_name owner code Hrefer)
    as [->|(Hu & Hc & Ht & [(_ & ->)|(Hx & _)])]; cbn [fst snd];
    [exact Hown| |discriminate Hx].
  intros t Hin. cbn in Hin. apply elem_of_app in Hin as [Hin|Hin].
  - destruct (Hown t Hin) as (m & Hm & H). exists m.
    split; [cbn; apply elem_of_app; left; exact Hm | exact H].
  - apply list_elem_of_singleton in Hin. subst t.
    exists (mkTeamMember rowid owner "owner" now).
    split; [cbn; apply elem_of_app; right; left | cbn; auto].
Qed.



(** The second [INSERT] of [create_team] raises: Carol's team Beta is in
    the store, the call has returned 0, and Carol is no member of it. *)
Example create_team_leaves_team_without_owner :
  let res := create_team SqlOk SqlError 2 9 club_db "Beta" 5 "xyz789" in
  res.2 = 0
  ∧ get_team res.1 2 = Some (mkTeam 2 "Beta" 5 "xyz789" "free" None)
  ∧ get_member_role res.1 2 5 = None
  ∧ get_user_active_team res.1 5 = None.
Proof. cbv zeta. repeat split. Qed.

Lemma get_user_active_team_in (db : Database) (uid : Z) (team : Team) :
  get_user_active_team db uid = Some team ->
  team ∈ teams db
  ∧ ∃ m, m ∈ team_members db ∧ tm_team_id m = team_id team ∧ tm_user_id m = uid.
Proof.
  unfold get_user_active_team, get_user_teams. intros H. apply head_Some_elem_of in H.
  apply list_elem_of_bind in H as (m & Hin & Hm).
  apply list_elem_of_bind in Hin as (t & Hin & Ht).
  case_bool_decide as Hd; [|apply elem_of_nil in Hin; destruct Hin].
  apply list_elem_of_singleton in Hin. subst t. destruct Hd as [H1 H2].
  split; [exact Ht|]. exists m. auto.
Qed.

(** The active team is the team of the user's earliest membership, not
    the team with the lowest id: Carol's is Beta, which she owns, so her
    [leave_command] is refused. *)
Example active_team_is_first_membership :
  get_user_teams two_team_db 5 = [beta; alpha]
  ∧ get_user_active_team two_team_db 5 = Some beta
  ∧ th_db (leave_command SqlOk two_team_db tg_carol) = two_team_db
  ∧ th_reply (leave_command SqlOk two_team_db tg_carol) = Some ReplyOwnerCannotLeave.
Proof. repeat split. Qed.

Lemma leave_command_cases (exec : SqlOutcome) (db : Database) (user : TgUser) :
  th_db (leave_command exec db user) = db
  ∨ ∃ team, get_user_active_team db (tg_id user) = Some team
            ∧ owner_id team ≠ tg_id user
            ∧ th_db (leave_command exec db user)
              = with_team_members db
                  (filter (fun m => ¬ (tm_team_id m = team_id team ∧ tm_user_id m = tg_id user))
                          (team_members db)).
Proof.
  unfold leave_command. destruct (get_user_active_team db (tg_id user)) as [team|] eqn:E;
    [|left; reflexivity].
  case_bool_decide as Ho; [left; reflexivity|].
  destruct exec; [|left; reflexivity].
  right. exists team. auto.
Qed.

Lemma leave_command_schema (exec : SqlOutcome) (db : Database) (user : TgUser) :
  schema_consistent db -> schema_consistent (th_db (leave_command exec db user)).
Proof.
  intros Hs. destruct (leave_command_cases exec db user) as [->|(team & Hact & Hown' & ->)];
    [exact Hs|].
  destruct Hs as (Hids & Huniq & Hrefer).
  split; [exact Hids|]. split.
  - unfold memberships_unique in *. cbn [team_members with_team_members].
    eapply sublist_NoDup; [exact Huniq|]. apply fmap_sublist, sublist_filter.
  - intros m Hm. cbn in Hm. apply list_elem_of_filter in Hm as [_ Hm]. exact (Hrefer m Hm).
Qed.

Lemma leave_command_owners (exec : SqlOutcome) (db : Database) (user : TgUser) :
  schema_consistent db -> owners_are_members db ->
  owners_are_members (th_db (leave_command exec db user)).
Proof.
  intros (Hids & _ & _) Hown.
  destruct (leave_command_cases exec db user) as [->|(team & Hact & Hown' & ->)];
    [exact Hown|].
  destruct (get_user_active_team_in db (tg_id user) team Hact) as [Hteam _].
  intros t Ht. cbn in Ht. destruct (Hown t Ht) as (m & Hm & H1 & H2 & H3).
  exists m. split; [|auto]. cbn. apply list_elem_of_filter. split; [|exact Hm].
  intros [Ha Hb]. apply Hown'.
  assert (t = team) as ->; [|congruence].
  pose proof (get_team_unique db t Hids Ht) as Hg1.
  pose proof (get_team_unique db team Hids Hteam) as Hg2.
  rewrite <- H1, Ha in Hg1. congruence.
Qed.

Lemma join_command_schema (env : Environ) (exec : SqlOutcome) (send_ok : nat -> bool)
    (now : Z) (db : Database) (user : TgUser) (args : list string) :
  schema_consistent db ->
  schema_consistent (th_db (join_command env exec send_ok now db user args)).
Proof.
  intros Hs.
  destruct (join_command_cases env exec send_ok now db user args)
    as [->|(code & rest & team & t0 & _ & _ & _ & _ & Hadd)]; [exact Hs|].
  pose proof (f_equal fst Hadd) as Hdb. cbn [fst] in Hdb. rewrite <- Hdb.
  destruct (add_team_member_cases exec now db (team_id team) (tg_id user) "member")
    as [E|(Ht & Hu & Hnew & E)]; rewrite E; cbn [fst]; [exact Hs|].
  destruct Hs as (Hids & Huniq & Hrefer).
  split; [exact Hids|]. split.
  - unfold memberships_unique in *. cbn. rewrite fmap_app. apply NoDup_app.
    split; [exact Huniq|]. split; [|apply NoDup_singleton].
    intros p Hp Hp'. cbn in Hp'. apply list_elem_of_singleton in Hp'. subst p.
    apply list_elem_of_fmap in Hp as (m & Heq & Hm). injection Heq as H1 H2.
    apply (proj1 (get_member_role_None db (team_id team) (tg_id user)) Hnew m Hm). auto.
  - intros m Hm. cbn in Hm. apply elem_of_app in Hm as [Hm|Hm]; [exact (Hrefer m Hm)|].
    apply list_elem_of_singleton in Hm. subst m. cbn [tm_team_id tm_user_id].
    split; assumption.
Qed.

Lemma join_command_owners (env : Environ) (exec : SqlOutcome) (send_ok : nat -> bool)
    (now : Z) (db : Database) (user : TgUser) (args : list string) :
  owners_are_members db ->
  owners_are_members (th_db (join_command env exec send_ok now db user args)).
Proof.
  intros Hown.
  destruct (join_command_cases env exec send_ok now db user args)
    as [->|(code & rest & team & t0 & _ & _ & _ & _ & Hadd)]; [exact Hown|].
  pose proof (f_equal fst Hadd) as Hdb. cbn [fst] in Hdb. rewrite <- Hdb.
  destruct (add_team_member_cases exec now db (team_id team) (tg_id user) "member")
    as [E|(Ht & Hu & Hnew & E)]; rewrite E; cbn [fst]; [exact Hown|].
  intros t Ht'. destruct (Hown t Ht') as (m & Hm & H). exists m.
  split; [cbn; apply elem_of_app; left; exact Hm | exact H].
Qed.

Lemma run_team_op_schema (env : Environ) (db : Database) (op : TeamOp) :
  schema_consistent db -> schema_consistent (run_team_op env db op).
Proof.
  intros Hs.
  destruct op as [exec uid un fn ln|exec member_exec rowid now team_name owner code
                 |exec send_ok now user args|exec user]; cbn [run_team_op].
  - apply add_user_schema. exact Hs.
  - apply create_team_schema. exact Hs.
  - apply join_command_schema. exact Hs.
  - apply leave_command_schema. exact Hs.
Qed.

(** X21. Registering users, creating teams, joining and leaving, in any
    order and with any outcomes of the statements, keep the constraints
    of the schema: team ids and memberships are unique and memberships
    refer to existing teams and users. They also keep every team's owner
    a member of it with the role [owner], provided the second [INSERT]
    of every [create_team] executes. *)
Theorem team_operations_keep_store_consistent
    (env : Environ) (ops : list TeamOp) (db : Database) :
  schema_consistent db ->
  schema_consistent (run_team_ops env db ops)
  ∧ (owner_inserts_execute ops -> owners_are_members db ->
     owners_are_members (run_team_ops env db ops)).
Proof.
  revert db. induction ops as [|op ops IH]; intros db Hs; [split; auto|].
  cbn [run_team_ops foldl].
  destruct (IH (run_team_op env db op) (run_team_op_schema env db op Hs)) as [Hs' Ho'].
  split; [exact Hs'|]. intros Hex Hown. apply Ho'.
  - intros exec member_exec rowid now team_name owner code Hin.
    apply (Hex exec member_exec rowid now team_name owner code). right. exact Hin.
  - destruct op as [exec uid un fn ln|exec member_exec rowid now team_name owner code
                   |exec send_ok now user args|exec user]; cbn [run_team_op].
    + apply add_user_owners. exact Hown.
    + rewrite (Hex exec member_exec rowid now team_name owner code) by left.
      apply create_team_owners; assumption.
    + apply join_command_owners. exact Hown.
    + apply leave_command_owners; assumption.
Qed.

Lemma empty_db_consistent : store_consistent empty_db.
Proof.
  split; [apply NoDup_nil_2|]. split; [apply NoDup_nil_2|]. split.
  - intros m Hm. apply elem_of_nil in Hm. destruct Hm.
  - intros t Ht. apply elem_of_nil in Ht. destruct Ht.
Qed.

Lemma team_operations_keep_store_consistent_witness :
  let ops := [OpAddUser SqlOk 1 (Some "alice") (Some "Alice") None;
              OpAddUser SqlOk 5 (Some "carol") (Some "Carol") None;
              OpCreateTeam SqlOk SqlOk 1 3 "Alpha" 1 "abc123";
              OpJoin SqlOk (fun _ => false) 4 tg_carol ["abc123"];
              OpLeave SqlOk tg_alice;
              OpLeave SqlOk tg_carol] in
  schema_consistent (run_team_ops default_environ empty_db ops)
  ∧ (owner_inserts_execute ops -> owners_are_members empty_db ->
     owners_are_members (run_team_ops default_environ empty_db ops)).
Proof.
  apply team_operations_keep_store_consistent.
  apply (proj1 (proj1 (store_consistent_split empty_db) empty_db_consistent)).
Defined.

(** X22. The owner cannot leave: [leave_command] called by the owner of the
    caller's active team changes nothing; called by any other member it
    removes exactly that member's row of that team. *)
Theorem leave_removes_only_the_leaver
    (exec : SqlOutcome) (db : Database) (user : TgUser) (team : Team) :
  get_user_active_team db (tg_id user) = Some team ->
  let r := leave_command exec db user in
  (owner_id team = tg_id user ->
   th_db r = db ∧ th_reply r = Some ReplyOwnerCannotLeave)
  ∧ (owner_id team ≠ tg_id user -> exec = SqlOk ->
     get_member_role (th_db r) (team_id team) (tg_id user) = None
     ∧ ∀ m, m ∈ team_members db ->
            ¬ (tm_team_id m = team_id team ∧ tm_user_id m = tg_id user) ->
            m ∈ team_members (th_db r)).
Proof.
  intros Hact r. subst r. unfold leave_command. rewrite Hact. split.
  - intros Ho. rewrite bool_decide_eq_true_2 by exact Ho. split; reflexivity.
  - intros Ho ->. rewrite bool_decide_eq_false_2 by exact Ho. cbn [th_db]. split.
    + apply get_member_role_None. cbn. intros m Hm. apply list_elem_of_filter in Hm. tauto.
    + intros m Hm Hne. cbn. apply list_elem_of_filter. auto.
Qed.

Lemma leave_removes_only_the_leaver_witness :
  let r := leave_command SqlOk club_db tg_bob in
  (owner_id alpha = tg_id tg_bob ->
   th_db r = club_db ∧ th_reply r = Some ReplyOwnerCannotLeave)
  ∧ (owner_id alpha ≠ tg_id tg_bob -> SqlOk = SqlOk ->
     get_member_role (th_db r) (team_id alpha) (tg_id tg_bob) = None
     ∧ ∀ m, m ∈ team_members club_db ->
            ¬ (tm_team_id m = team_id alpha ∧ tm_user_id m = tg_id tg_bob) ->
            m ∈ team_members (th_db r)).
Proof. apply (leave_removes_only_the_leaver SqlOk club_db tg_bob alpha). reflexivity. Defined.

(* ===================================================================== *)
(** ** The creation wizard *)
(* ===================================================================== *)

Lemma numeric_not_none (p : string) : numeric p = true -> String.eqb p "none" = false.
Proof.
  intros Hp. destruct (String.eqb p "none") eqn:E; [|reflexivity].
  apply String.eqb_eq in E. subst p. discriminate Hp.
Qed.

(** Pressing the button of the member with id [a]. *)
Lemma assignee_data (lib : StdLib) (a : Z) (draft : gmap string Value) :
  int lib (str a) = Some a ->
  task_assignee_selected lib ("assign_" +:+ str a) draft
  = mkStepOut (Some ReplyAskDeadline) STATE_DEADLINE (<["assignee_id" := VInt a]> draft) None.
Proof.
  intros Hi. unfold task_assignee_selected.
  rewrite (remove_all_prefix "a" "ssign_" (str a) eq_refl (str_numeric a)).
  rewrite (numeric_not_none (str a) (str_numeric a)), Hi. reflexivity.
Qed.

Lemma elem_of_insert_member (m x : TeamMember) (l : list TeamMember) :
  x ∈ insert_member m l ↔ x = m ∨ x ∈ l.
Proof.
  induction l as [|y l IH]; cbn [insert_member].
  - rewrite list_elem_of_singleton, elem_of_nil. tauto.
  - destruct (member_before m y).
    + rewrite elem_of_cons. tauto.
    + rewrite !elem_of_cons, IH. tauto.
Qed.

Lemma elem_of_sorted_members (x : TeamMember) (l : list TeamMember) :
  x ∈ foldr insert_member [] l ↔ x ∈ l.
Proof.
  induction l as [|y l IH]; [reflexivity|].
  cbn [foldr]. rewrite elem_of_insert_member, IH, elem_of_cons. tauto.
Qed.

(** The rows of [get_team_members]: the registered users that have a
    membership of the team, each with the role of that membership. *)
Lemma elem_of_get_team_members (db : Database) (tid : Z) (u : User) (r : string) :
  (u, r) ∈ get_team_members db tid
  ↔ u ∈ users db
    ∧ ∃ m, m ∈ team_members db ∧ tm_team_id m = tid ∧ tm_user_id m = user_id u
           ∧ role m = r.
Proof.
  unfold get_team_members. rewrite list_elem_of_bind. split.
  - intros (m & Hin & Hm). apply list_elem_of_bind in Hin as (u' & Hin & Hu).
    case_bool_decide as Hd; [|apply elem_of_nil in Hin; destruct Hin].
    apply list_elem_of_singleton in Hin. injection Hin as -> ->.
    apply elem_of_sorted_members, list_elem_of_filter in Hm as [Ht Hm].
    split; [exact Hu|]. exists m. auto.
  - intros (Hu & m & Hm & Ht & Hid & Hr). exists m. split.
    + apply list_elem_of_bind. exists u. split; [|exact Hu].
      rewrite bool_decide_eq_true_2 by (symmetry; exact Hid). subst r. left.
    + apply elem_of_sorted_members, list_elem_of_filter. auto.
Qed.

(** X23. Every button of the assignee keyboard of a team, pressed at the
    assignee step, is accepted: the step moves on to the deadline and the
    draft holds no assignee or the id of a registered member of that
    team. *)
Theorem assignee_button_selects_member
    (lib : StdLib) (db : Database) (team : Z) (draft : gmap string Value)
    (b : InlineKeyboardButton) :
  Forall (fun m => int lib (str (user_id m.1)) = Some (user_id m.1))
         (get_team_members db team) ->
  b ∈ buttons (get_members_keyboard (get_team_members db team) "assign") ->
  let r := task_assignee_selected lib (callback_data b) draft in
  so_raised r = None
  ∧ so_state r = STATE_DEADLINE
  ∧ (so_draft r = <["assignee_id" := VNone]> draft
     ∨ ∃ uid, so_draft r = <["assignee_id" := VInt uid]> draft
              ∧ is_Some (get_user db uid)
              ∧ is_Some (get_member_role db team uid)).
Proof.
  intros Hint Hb r. subst r. unfold get_members_keyboard, buttons in Hb.
  rewrite concat_app in Hb. apply elem_of_app in Hb as [Hb|Hb].
  - apply list_elem_of_In, in_concat in Hb as (row & Hrow & Hb).
    apply in_map_iff in Hrow as ([u r] & <- & Hm).
    destruct Hb as [<-|[]]. apply list_elem_of_In in Hm.
    rewrite Forall_forall in Hint. pose proof (Hint (u, r) Hm) as Hi. cbn [fst] in Hi.
    unfold member_button. cbn [callback_data fst snd].
    change ("assign" +:+ "_" +:+ str (user_id u)) with ("assign_" +:+ str (user_id u)).
    rewrite (assignee_data lib (user_id u) draft Hi). cbn [so_raised so_state so_draft].
    split; [reflexivity|]. split; [reflexivity|]. right. exists (user_id u).
    split; [reflexivity|].
    apply elem_of_get_team_members in Hm as (Hu & m & Hin & Ht & Hid & Hr).
    split.
    + apply get_user_is_Some. exists u. auto.
    + unfold get_member_role. apply fmap_is_Some.
      apply (fetchone_filter_is_Some
               (fun m => tm_team_id m = team ∧ tm_user_id m = user_id u)).
      exists m. auto.
  - cbn in Hb. apply list_elem_of_singleton in Hb. subst b.
    cbn. split; [reflexivity|]. split; [reflexivity|]. left. reflexivity.
Qed.

Lemma assignee_button_selects_member_witness :
  let r := task_assignee_selected sample_lib
             (callback_data (member_button "assign" (bob, "admin"))) ∅ in
  so_raised r = None
  ∧ so_state r = STATE_DEADLINE
  ∧ (so_draft r = <["assignee_id" := VNone]> ∅
     ∨ ∃ uid, so_draft r = <["assignee_id" := VInt uid]> ∅
              ∧ is_Some (get_user club_db uid)
              ∧ is_Some (get_member_role club_db 1 uid)).
Proof.
  apply (assignee_button_selects_member sample_lib club_db 1 ∅
           (member_button "assign" (bob, "admin"))).
  - repeat constructor.
  - right. left.
Defined.

(** *** Starting the wizard *)

(** X24. [newtask_command] never raises. It opens the wizard exactly for a
    caller whose active team has fewer active tasks than the ceiling of
    its tier, and then the draft holds that team's id and nothing else;
    in every other case the conversation ends with no draft. *)
Theorem newtask_starts_below_ceiling (env : Environ) (db : Database) (user : TgUser) :
  ∃ reply st dr,
    newtask_command env db user = Ok (reply, st, dr)
    ∧ (st = STATE_TITLE
       ↔ ∃ team t0, get_user_active_team db (tg_id user) = Some team
                    ∧ get_team db (team_id team) = Some t0
                    ∧ get_active_tasks_count db (team_id team) < task_ceiling env t0)
    ∧ (st ≠ STATE_TITLE -> st = END ∧ dr = None)
    ∧ (st = STATE_TITLE ->
       ∃ team, get_user_active_team db (tg_id user) = Some team
               ∧ dr = Some {[ "team_id" := VInt (team_id team) ]}).
Proof.
  unfold newtask_command.
  destruct (get_user_active_team db (tg_id user)) as [team|] eqn:Ea.
  - destruct (get_user_active_team_in db (tg_id user) team Ea) as [Hin _].
    assert (is_Some (get_team db (team_id team))) as [t0 Ht0].
    { apply get_team_is_Some. exists team. auto. }
    rewrite (check_task_limit_existing env db (team_id team) t0 Ht0). cbv zeta.
    cbn [bind_result]. rewrite getitem_allowed. cbn [py_truthy].
    fold (task_ceiling env t0).
    destruct (get_active_tasks_count db (team_id team) <? task_ceiling env t0) eqn:Elt;
      cbn [negb]; [|rewrite format_limit_decision; cbn [bind_result]];
      do 3 eexists; (split; [reflexivity|]).
    + apply Z.ltb_lt in Elt. split; [|split].
      * split; [intros _; exists team, t0; auto | reflexivity].
      * intros H. destruct H. reflexivity.
      * intros _. exists team. split; reflexivity.
    + apply Z.ltb_ge in Elt. split; [|split].
      * split; [discriminate|]. intros (team' & t1 & H1 & H2 & H3).
        injection H1 as <-. rewrite Ht0 in H2. injection H2 as <-. lia.
      * intros _. split; reflexivity.
      * discriminate.
  - do 3 eexists. split; [reflexivity|]. split; [|split].
    + split; [discriminate|]. intros (team & t0 & H & _). discriminate H.
    + intros _. split; reflexivity.
    + discriminate.
Qed.

(** *** Confirming the draft *)

Lemma create_task_cases (exec : SqlOutcome) (rowid now : Z) (db : Database)
    (team : Z) (title_ : string) (author : Z) (description_ : option string)
    (assignee deadline_ : option Z) (priority_ : string) :
  create_task exec rowid now db team title_ author description_ assignee deadline_ priority_
  = (db, 0)
  ∨ (is_Some (get_team db team) ∧ is_Some (get_user db author)
     ∧ (∀ a, assignee = Some a -> is_Some (get_user db a))
     ∧ get_task db rowid = None
     ∧ create_task exec rowid now db team title_ author description_ assignee deadline_
                   priority_
       = (with_tasks db
            (tasks db ++ [new_task rowid now team title_ author description_ assignee
                                   deadline_ priority_]), rowid)).
Proof.
  unfold create_task. destruct exec; [|left; reflexivity].
  destruct (bool_decide (is_Some (get_team db team))) eqn:E1; [|left; reflexivity].
  destruct (bool_decide (is_Some (get_user db author))) eqn:E2; [|left; reflexivity].
  destruct (match assignee with
            | Some a => bool_decide (is_Some (get_user db a))
            | None => true
            end) eqn:E3; [|left; reflexivity].
  destruct (bool_decide (get_task db rowid = None)) eqn:E4; [|left; reflexivity].
  apply bool_decide_eq_true_1 in E1, E2, E4.
  right. cbn [andb]. split; [exact E1|]. split; [exact E2|]. split; [|split; [exact E4|reflexivity]].
  intros a ->. apply bool_decide_eq_true_1 in E3. exact E3.
Qed.

Lemma get_task_new (db : Database) (t : Task) :
  get_task db (task_id t) = None ->
  get_task (with_tasks db (tasks db ++ [t])) (task_id t) = Some t.
Proof.
  intros Hnone. unfold get_task in *. cbn [tasks with_tasks].
  rewrite fetchone_filter_app, Hnone.
  rewrite (filter_cons (fun x => task_id x = task_id t)).
  rewrite decide_True by reflexivity. reflexivity.
Qed.

(** What [task_confirmed] does to the store and whom it notifies. *)
Lemma task_confirmed_cases (env : ConfirmEnv) (now : Z) (db : Database) (user : TgUser)
    (data : string) (draft : gmap string Value) :
  let c := task_confirmed env now db user data draft in
  (cf_db c = db ∧ cf_notified c = []
   ∧ ∀ tid ttl, cf_reply c ≠ Some (ReplyCreated tid ttl))
  ∨ ∃ team title_ description_ assignee deadline_ priority_,
      let t := new_task (ce_rowid env) now team title_ (tg_id user) description_ assignee
                        deadline_ priority_ in
      draft_fields draft = Ok (team, title_, description_, assignee, deadline_, priority_)
      ∧ data ≠ "confirm_no"
      ∧ is_Some (get_team db team) ∧ is_Some (get_user db (tg_id user))
      ∧ (∀ a, assignee = Some a -> is_Some (get_user db a))
      ∧ get_task db (ce_rowid env) = None
      ∧ cf_db c = with_tasks db (tasks db ++ [t])
      ∧ cf_raised c = None
      ∧ cf_state c = END
      ∧ cf_draft c = None
      ∧ cf_reply c = Some (if ce_rowid env =? 0 then ReplyCreationFailed
                           else ReplyCreated (ce_rowid env) title_)
      ∧ cf_notified c
        = if (ce_rowid env =? 0)
             || negb (truthy assignee && negb (bool_decide (assignee = Some (tg_id user))))
          then []
          else notify_task_assigned (ce_send_returns env) (default 0 assignee) t
                 (or_else (tg_first_name user)
                          (or_else (tg_username user) (str (tg_id user)))).
Proof.
  cbv zeta. unfold task_confirmed.
  destruct (String.eqb data "confirm_no") eqn:Ed.
  { left. cbn. split; [reflexivity|]. split; [reflexivity | discriminate]. }
  apply String.eqb_neq in Ed.
  destruct (draft_fields draft) as [[[[[[team title_] description_] assignee] deadline_]
                                       priority_]|e] eqn:Ef.
  2:{ left. cbn. split; [reflexivity|]. split; [reflexivity | discriminate]. }
  destruct (create_task_cases (ce_exec env) (ce_rowid env) now db team title_ (tg_id user)
              description_ assignee deadline_ priority_)
    as [->|(Ht & Hu & Ha & Hfresh & ->)].
  { left. cbn. split; [reflexivity|]. split; [reflexivity | discriminate]. }
  right. exists team, title_, description_, assignee, deadline_, priority_.
  split; [reflexivity|]. split; [exact Ed|]. split; [exact Ht|]. split; [exact Hu|].
  split; [exact Ha|]. split; [exact Hfresh|].
  destruct (ce_rowid env =? 0) eqn:E0; cbn [orb].
  { cbn. repeat split. }
  destruct (truthy assignee && negb (bool_decide (assignee = Some (tg_id user)))) eqn:En;
    cbn [negb].
  2:{ cbn. repeat split. }
  pose proof (get_task_new db
                (new_task (ce_rowid env) now team title_ (tg_id user) description_ assignee
                          deadline_ priority_) Hfresh) as Hget.
  change (task_id (new_task (ce_rowid env) now team title_ (tg_id user) description_
                            assignee deadline_ priority_)) with (ce_rowid env) in Hget.
  rewrite Hget. cbn. repeat split.
Qed.

(** X25. Whatever the button and the draft, [task_confirmed] touches only the
    table of tasks, and adds to it at most one row: a task in status
    [todo], not completed, under an id that was free, written by the
    caller, whose team, author and assignee (if any) exist in the store. *)
Theorem confirmation_adds_one_referenced_task
    (env : ConfirmEnv) (now : Z) (db : Database) (user : TgUser) (data : string)
    (draft : gmap string Value) :
  let c := task_confirmed env now db user data draft in
  users (cf_db c) = users db ∧ teams (cf_db c) = teams db
  ∧ team_members (cf_db c) = team_members db ∧ reminders (cf_db c) = reminders db
  ∧ (tasks (cf_db c) = tasks db
     ∨ ∃ t, tasks (cf_db c) = tasks db ++ [t]
            ∧ get_task db (task_id t) = None
            ∧ status t = "todo" ∧ completed_at t = None
            ∧ author_id t = tg_id user
            ∧ is_Some (get_team db (task_team_id t))
            ∧ is_Some (get_user db (author_id t))
            ∧ ∀ a, assignee_id t = Some a -> is_Some (get_user db a)).
Proof.
  destruct (task_confirmed_cases env now db user data draft)
    as [(Hdb & _)|(team & title_ & description_ & assignee & deadline_ & priority_ & _ & _
                    & Ht & Hu & Ha & Hfresh & Hdb & _)]; cbv zeta; rewrite Hdb.
  - repeat (split; [reflexivity|]). left. reflexivity.
  - repeat (split; [reflexivity|]). right. eexists. split; [reflexivity|].
    cbn. auto 10.
Qed.

(** X26. The assignment notice: [task_confirmed] attempts at most one, only
    for a task it has just created, to that task's assignee, who is not
    the caller; and it attempts one whenever it reports a created task
    that has an assignee other than the caller (and other than 0). *)
Theorem assignment_notice_goes_to_another_assignee
    (env : ConfirmEnv) (now : Z) (db : Database) (user : TgUser) (data : string)
    (draft : gmap string Value) :
  let c := task_confirmed env now db user data draft in
  (length (cf_notified c) <= 1)%nat
  ∧ (∀ s, s ∈ cf_notified c ->
       chat_id s ≠ tg_id user
       ∧ delivered s = ce_send_returns env
       ∧ get_task db (as_task_id (text s)) = None
       ∧ ∃ t, get_task (cf_db c) (as_task_id (text s)) = Some t
              ∧ assignee_id t = Some (chat_id s) ∧ author_id t = tg_id user
              ∧ as_title (text s) = title t)
  ∧ (∀ tid ttl t a,
       cf_reply c = Some (ReplyCreated tid ttl) ->
       get_task (cf_db c) tid = Some t -> assignee_id t = Some a ->
       a ≠ 0 -> a ≠ tg_id user ->
       ∃ s, s ∈ cf_notified c ∧ chat_id s = a ∧ as_task_id (text s) = tid).
Proof.
  destruct (task_confirmed_cases env now db user data draft)
    as [(Hdb & Hn & Hr)|(team & title_ & description_ & assignee & deadline_ & priority_ & _
                         & _ & _ & _ & _ & Hfresh & Hdb & _ & _ & _ & Hr & Hn)];
    cbv zeta in *; rewrite Hn.
  { split; [cbn; lia|]. split.
    - intros s Hs. apply elem_of_nil in Hs. destruct Hs.
    - intros tid ttl t a H. destruct (Hr tid ttl H). }
  rewrite Hdb, Hr. clear Hn Hr Hdb.
  set (t := new_task (ce_rowid env) now team title_ (tg_id user) description_ assignee
                     deadline_ priority_).
  pose proof (get_task_new db t Hfresh) as Hget.
  change (task_id t) with (ce_rowid env) in Hget.
  destruct (ce_rowid env =? 0) eqn:E0; cbn [orb].
  { split; [cbn; lia|]. split.
    - intros s Hs. apply elem_of_nil in Hs. destruct Hs.
    - intros tid ttl t' a H. discriminate H. }
  destruct assignee as [a0|]; cbn [truthy andb negb].
  2:{ split; [cbn; lia|]. split.
      - intros s Hs. apply elem_of_nil in Hs. destruct Hs.
      - intros tid ttl t' a H. injection H as <- <-. rewrite Hget. intros H1 H2. injection H1 as <-. discriminate H2. }
  destruct (a0 =? 0) eqn:Ea; cbn [negb andb].
  { apply Z.eqb_eq in Ea. subst a0. split; [cbn; lia|]. split.
    - intros s Hs. apply elem_of_nil in Hs. destruct Hs.
    - intros tid ttl t' a H. injection H as <- <-. rewrite Hget. intros H1 H2. injection H1 as <-. injection H2 as <-.
      intros H0. destruct H0. reflexivity. }
  case_bool_decide as Hself; cbn [negb].
  { injection Hself as ->. split; [cbn; lia|]. split.
    - intros s Hs. apply elem_of_nil in Hs. destruct Hs.
    - intros tid ttl t' a H. injection H as <- <-. rewrite Hget. intros H1 H2. injection H1 as <-. injection H2 as <-.
      intros _ H0. destruct H0. reflexivity. }
  unfold notify_task_assigned. cbn [default]. split; [cbn; lia|]. split.
  - intros s Hs. apply list_elem_of_singleton in Hs. subst s.
    cbn [chat_id delivered text as_task_id as_title].
    split; [intros Heq; apply Hself; f_equal; exact Heq|].
    split; [reflexivity|]. split; [exact Hfresh|]. exists t. split; [exact Hget|].
    repeat split.
  - intros tid ttl t' a H. injection H as <- <-. rewrite Hget. intros H1 H2. injection H1 as <-. injection H2 as <-.
    intros _ _. eexists. split; [left|]. split; reflexivity.
Qed.

(** *** From the first message to the stored task *)

(** The draft after the five steps, and what [task_confirmed] reads from
    it. *)
Lemma draft_fields_complete (team a dl : Z) (t d p : string) :
  draft_fields
    (<["priority" := VStr p]>
     (<["deadline" := VTime dl]>
      (<["assignee_id" := VInt a]>
       (<["description" := VStr d]>
        (<["title" := VStr t]> {[ "team_id" := VInt team ]})))))
  = Ok (team, t, Some d, Some a, Some dl, p).
Proof. reflexivity. Qed.

Lemma preview_complete (db : Database) (team a dl : Z) (t d p : string) :
  ∃ r, preview db p
         (<["priority" := VStr p]>
          (<["deadline" := VTime dl]>
           (<["assignee_id" := VInt a]>
            (<["description" := VStr d]>
             (<["title" := VStr t]> {[ "team_id" := VInt team ]})))))
       = Ok r.
Proof. eexists. reflexivity. Qed.

(** X27. A run of the wizard with acceptable answers: a title of 2 to 200
    characters, a description of at most 1000, a registered assignee, a
    deadline the validator accepts, one of the three priorities, and any
    confirmation other than [confirm_no]. When the caller and the draft's
    team exist and the store accepts the insert under a fresh non-zero id,
    the steps go through the six states in order and the store gains
    exactly the task of the answers: the stripped title and description,
    the assignee, the parsed deadline and the priority, in status [todo],
    written by the caller. *)
Theorem wizard_stores_the_answers
    (lib : StdLib) (len : Len) (env : ConfirmEnv) (now now' : Z) (db : Database)
    (user : TgUser) (team a dl : Z) (t d dl_text p data : string) :
  2 <= len (strip lib t) <= 200 ->
  len (strip lib d) <= 1000 ->
  int lib (str a) = Some a ->
  validate_deadline lib now (strip lib dl_text) = Some dl ->
  p ∈ ["low"; "medium"; "high"] ->
  data ≠ "confirm_no" ->
  ce_exec env = SqlOk -> ce_rowid env ≠ 0 -> get_task db (ce_rowid env) = None ->
  is_Some (get_team db team) -> is_Some (get_user db (tg_id user)) ->
  is_Some (get_user db a) ->
  let s1 := task_title_received lib len t {[ "team_id" := VInt team ]} in
  let s2 := task_description_received lib len db d (so_draft s1) in
  let s3 := task_assignee_selected lib ("assign_" +:+ str a) (so_draft s2) in
  let s4 := task_deadline_received lib now dl_text (so_draft s3) in
  let s5 := task_priority_selected db ("priority_" +:+ p) s4.2 in
  let c := task_confirmed env now' db user data (so_draft s5) in
  [so_state s1; so_state s2; so_state s3; s4.1.2; so_state s5; cf_state c]
  = [STATE_DESCRIPTION; STATE_ASSIGNEE; STATE_DEADLINE; STATE_PRIORITY; STATE_CONFIRM; END]
  ∧ tasks (cf_db c)
    = tasks db ++ [new_task (ce_rowid env) now' team (strip lib t) (tg_id user)
                            (Some (strip lib d)) (Some a) (Some dl) p]
  ∧ cf_reply c = Some (ReplyCreated (ce_rowid env) (strip lib t))
  ∧ cf_draft c = None.
Proof.
  intros [Hlo Hhi] Hd Hi Hv Hp Hdata Hx Hrow Hfresh Hteam Hauthor Hassignee.
  cbv zeta. unfold task_title_received.
  rewrite (proj2 (Z.ltb_ge 200 _) Hhi), (proj2 (Z.ltb_ge _ 2) Hlo).
  cbn [so_draft so_state]. unfold task_description_received.
  rewrite (proj2 (Z.ltb_ge 1000 _) Hd).
  assert (∀ v, _ask_assignee db STATE_DESCRIPTION
                 (<["description" := v]>
                  (<["title" := VStr (strip lib t)]> {[ "team_id" := VInt team ]}))
               = mkStepOut
                   (Some (ReplyAskAssignee
                            (get_members_keyboard (get_team_members db team) "assign")))
                   STATE_ASSIGNEE
                   (<["description" := v]>
                    (<["title" := VStr (strip lib t)]> {[ "team_id" := VInt team ]}))
                   None) as Hask by reflexivity.
  rewrite Hask. cbn [so_draft so_state].
  rewrite (assignee_data lib a _ Hi). cbn [so_draft so_state].
  unfold task_deadline_received. rewrite Hv. cbn [fst snd].
  assert (task_priority_selected db ("priority_" +:+ p)
            (<["deadline" := VTime dl]>
             (<["assignee_id" := VInt a]>
              (<["description" := VStr (strip lib d)]>
               (<["title" := VStr (strip lib t)]> {[ "team_id" := VInt team ]}))))
          = mkStepOut (so_reply (task_priority_selected db ("priority_" +:+ p)
            (<["deadline" := VTime dl]>
             (<["assignee_id" := VInt a]>
              (<["description" := VStr (strip lib d)]>
               (<["title" := VStr (strip lib t)]> {[ "team_id" := VInt team ]}))))))
              STATE_CONFIRM
              (<["priority" := VStr p]>
               (<["deadline" := VTime dl]>
                (<["assignee_id" := VInt a]>
                 (<["description" := VStr (strip lib d)]>
                  (<["title" := VStr (strip lib t)]> {[ "team_id" := VInt team ]})))))
              None) as Hprio.
  { unfold task_priority_selected.
    assert (remove_all "priority_" ("priority_" +:+ p) = p) as ->.
    { repeat (apply elem_of_cons in Hp as [->|Hp]); [reflexivity ..|].
      apply elem_of_nil in Hp. destruct Hp. }
    destruct (preview_complete db team a dl (strip lib t) (strip lib d) p) as [r ->].
    reflexivity. }
  rewrite Hprio. cbn [so_draft so_state]. clear Hprio Hask.
  unfold task_confirmed. rewrite (proj2 (String.eqb_neq _ _) Hdata).
  rewrite draft_fields_complete, Hx.
  unfold create_task.
  rewrite !bool_decide_eq_true_2 by assumption. cbn [andb].
  rewrite (proj2 (Z.eqb_neq _ _) Hrow).
  destruct (truthy (Some a) && negb (bool_decide (Some a = Some (tg_id user)))).
  - pose proof (get_task_new db
                  (new_task (ce_rowid env) now' team (strip lib t) (tg_id user)
                            (Some (strip lib d)) (Some a) (Some dl) p) Hfresh) as Hget.
    change (task_id (new_task (ce_rowid env) now' team (strip lib t) (tg_id user)
                              (Some (strip lib d)) (Some a) (Some dl) p))
      with (ce_rowid env) in Hget.
    rewrite Hget. cbn. repeat split.
  - cbn. repeat split.
Qed.

Lemma wizard_stores_the_answers_witness :
  let s1 := task_title_received sample_lib len_bytes "  Ship it " {[ "team_id" := VInt 1 ]} in
  let s2 := task_description_received sample_lib len_bytes club_db "soon" (so_draft s1) in
  let s3 := task_assignee_selected sample_lib ("assign_" +:+ str 42) (so_draft s2) in
  let s4 := task_deadline_received sample_lib 0 "20.02.2026 18:00" (so_draft s3) in
  let s5 := task_priority_selected club_db ("priority_" +:+ "high") s4.2 in
  let c := task_confirmed smooth 100 club_db tg_alice "confirm_yes" (so_draft s5) in
  [so_state s1; so_state s2; so_state s3; s4.1.2; so_state s5; cf_state c]
  = [STATE_DESCRIPTION; STATE_ASSIGNEE; STATE_DEADLINE; STATE_PRIORITY; STATE_CONFIRM; END]
  ∧ tasks (cf_db c)
    = tasks club_db ++ [new_task (ce_rowid smooth) 100 1 (strip sample_lib "  Ship it ")
                                 (tg_id tg_alice) (Some (strip sample_lib "soon")) (Some 42)
                                 (Some 1771610400000000) "high"]
  ∧ cf_reply c = Some (ReplyCreated (ce_rowid smooth) (strip sample_lib "  Ship it "))
  ∧ cf_draft c = None.
Proof.
  apply (wizard_stores_the_answers sample_lib len_bytes smooth 0 100 club_db tg_alice 1 42
           1771610400000000 "  Ship it " "soon" "20.02.2026 18:00" "high" "confirm_yes").
  - vm_compute. split; discriminate.
  - vm_compute. discriminate.
  - reflexivity.
  - reflexivity.
  - right. right. left.
  - discriminate.
  - reflexivity.
  - discriminate.
  - reflexivity.
  - eexists. reflexivity.
  - eexists. reflexivity.
  - eexists. reflexivity.
Defined.

(* ===================================================================== *)
(** ** Subscriptions *)
(* ===================================================================== *)

(** X28. [check_feature_access] grants each of the three features exactly to
    the teams on the [pro] and [enterprise] tiers: a team on the free
    tier, on a tier outside the table, or a team that does not exist, gets
    [False]. *)
Theorem features_only_for_paid_tiers
    (env : Environ) (db : Database) (tid : Z) (feature : string) :
  feature ∈ features ->
  check_feature_access env db tid feature
  = Ok (VBool (match get_team db tid with
               | Some team =>
                   bool_decide (subscription_type team = "pro"
                                ∨ subscription_type team = "enterprise")
               | None => false
               end)).
Proof.
  intros Hf. unfold check_feature_access.
  destruct (get_team db tid) as [team|]; [|reflexivity].
  rewrite limits_free. cbn [bind_result].
  destruct (decide (subscription_type team = "pro")) as [Hp|Hp].
  { rewrite Hp. rewrite bool_decide_eq_true_2 by (left; reflexivity).
    unfold features in Hf.
    repeat (apply elem_of_cons in Hf as [->|Hf]); [reflexivity ..|].
    apply elem_of_nil in Hf. destruct Hf. }
  destruct (decide (subscription_type team = "enterprise")) as [He|He].
  { rewrite He. rewrite bool_decide_eq_true_2 by (right; reflexivity).
    unfold features in Hf.
    repeat (apply elem_of_cons in Hf as [->|Hf]); [reflexivity ..|].
    apply elem_of_nil in Hf. destruct Hf. }
  rewrite bool_decide_eq_false_2 by tauto.
  assert (dict_get (SUBSCRIPTION_LIMITS env) (subscription_type team) (free_limits env)
          = free_limits env) as ->.
  { unfold dict_get. destruct (decide (subscription_type team = "free")) as [Hfr|Hfr].
    - rewrite Hfr. reflexivity.
    - rewrite (limits_unknown env _ Hfr Hp He). reflexivity. }
  unfold features in Hf.
  repeat (apply elem_of_cons in Hf as [->|Hf]); [reflexivity ..|].
  apply elem_of_nil in Hf. destruct Hf.
Qed.

Lemma features_only_for_paid_tiers_witness :
  check_feature_access default_environ club_db 1 "reminders"
  = Ok (VBool (match get_team club_db 1 with
               | Some team =>
                   bool_decide (subscription_type team = "pro"
                                ∨ subscription_type team = "enterprise")
               | None => false
               end)).
Proof.
  apply (features_only_for_paid_tiers default_environ club_db 1 "reminders"). left.
Defined.

Lemma get_team_update_subscription (db : Database) (tid k : Z) (sub : string)
    (e : option Z) :
  get_team (update_subscription SqlOk db tid sub e).1 k
  = (if bool_decide (k = tid) then set_subscription sub e else id) <$> get_team db k.
Proof.
  unfold get_team, fetchone. cbn [update_subscription fst teams with_teams].
  induction (teams db) as [|t l IH]; [reflexivity|].
  cbn [map]. rewrite !filter_cons.
  assert (team_id (if bool_decide (team_id t = tid) then set_subscription sub e t else t)
          = team_id t) as Hsame by (destruct (bool_decide (team_id t = tid)); reflexivity).
  rewrite Hsame. destruct (decide (team_id t = k)) as [Hk|Hk]; [|exact IH].
  cbn [head fmap option_fmap option_map]. rewrite Hk.
  destruct (bool_decide (k = tid)); reflexivity.
Qed.

Lemma update_subscription_same (exec : SqlOutcome) (db : Database) (tid : Z) (sub : string)
    (e : option Z) :
  same_but_subscriptions db (update_subscription exec db tid sub e).1.
Proof.
  unfold same_but_subscriptions.
  destruct exec;
    cbn [update_subscription fst with_teams users team_members tasks reminders teams];
    repeat (split; [reflexivity|]); [|reflexivity].
  induction (teams db) as [|t l IH]; [reflexivity|].
  cbn [map]. rewrite !fmap_cons. f_equal; [|exact IH].
  destruct (bool_decide (team_id t = tid)); reflexivity.
Qed.

(** X29. After [update_subscription] of an existing team, the three checks use
    the limits of the tier written (those of the free tier when the table
    has no such tier), whatever the expiry date stored with it: the
    expiry is never consulted. Other teams keep their rows. *)
Theorem subscription_update_decides_the_limits
    (env : Environ) (db : Database) (tid : Z) (team : Team) (sub feature : string)
    (expires : option Z) :
  get_team db tid = Some team ->
  let db' := (update_subscription SqlOk db tid sub expires).1 in
  let limits := dict_get (SUBSCRIPTION_LIMITS env) sub (free_limits env) in
  check_feature_access env db' tid feature = Ok (limits_get limits feature)
  ∧ check_task_limit env db' tid
    = Ok (limit_decision (get_active_tasks_count db tid <? max_tasks limits)
                         (get_active_tasks_count db tid) (max_tasks limits) sub)
  ∧ check_member_limit env db' tid
    = Ok (limit_decision (get_team_member_count db tid <? max_members limits)
                         (get_team_member_count db tid) (max_members limits) sub)
  ∧ ∀ k, k ≠ tid -> get_team db' k = get_team db k.
Proof.
  intros Ht db' limits.
  assert (get_team db' tid = Some (set_subscription sub expires team)) as Ht'.
  { subst db'. rewrite get_team_update_subscription, Ht.
    rewrite bool_decide_eq_true_2 by reflexivity. reflexivity. }
  split; [|split; [|split]].
  - unfold check_feature_access. rewrite Ht', limits_free. reflexivity.
  - rewrite (check_task_limit_existing env db' tid _ Ht'). reflexivity.
  - rewrite (check_member_limit_existing env db' tid _ Ht'). reflexivity.
  - intros k Hk. subst db'. rewrite get_team_update_subscription.
    rewrite bool_decide_eq_false_2 by exact Hk. destruct (get_team db k); reflexivity.
Qed.

Lemma subscription_update_decides_the_limits_witness :
  let db' := (update_subscription SqlOk club_db 1 "pro" (Some 0)).1 in
  let limits := dict_get (SUBSCRIPTION_LIMITS default_environ) "pro"
                         (free_limits default_environ) in
  check_feature_access default_environ db' 1 "analytics" = Ok (limits_get limits "analytics")
  ∧ check_task_limit default_environ db' 1
    = Ok (limit_decision (get_active_tasks_count club_db 1 <? max_tasks limits)
                         (get_active_tasks_count club_db 1) (max_tasks limits) "pro")
  ∧ check_member_limit default_environ db' 1
    = Ok (limit_decision (get_team_member_count club_db 1 <? max_members limits)
                         (get_team_member_count club_db 1) (max_members limits) "pro")
  ∧ ∀ k, k ≠ 1 -> get_team db' k = get_team club_db k.
Proof.
  apply (subscription_update_decides_the_limits default_environ club_db 1 alpha "pro"
           "analytics" (Some 0)).
  reflexivity.
Defined.

(** *** The sweep and the tiers *)

Lemma get_upcoming_tasks_same (db db' : Database) (s e : Z) :
  same_but_subscriptions db db' ->
  get_upcoming_tasks db' s e = get_upcoming_tasks db s e.
Proof.
  intros (_ & _ & Ht & _ & Hteams). unfold get_upcoming_tasks. rewrite Ht. clear Ht.
  assert (∀ t : Task,
            (teams db' ≫= λ tm,
               if bool_decide (task_team_id t = team_id tm)
                  && status_active (status t) && BETWEEN (deadline t) s e
               then [(t, name tm)] else [])
            = (teams db ≫= λ tm,
                 if bool_decide (task_team_id t = team_id tm)
                    && status_active (status t) && BETWEEN (deadline t) s e
                 then [(t, name tm)] else [])) as Hinner.
  { intros t. revert Hteams. generalize (teams db) as l2. generalize (teams db') as l1.
    induction l1 as [|x l1 IH]; intros [|y l2] Heq; try discriminate Heq; [reflexivity|].
    rewrite !fmap_cons in Heq. injection Heq as H1 H2 _ _ Hrest.
    rewrite !bind_cons, H1, H2. f_equal. apply IH. exact Hrest. }
  induction (tasks db) as [|t l IH]; [reflexivity|].
  rewrite !bind_cons, Hinner, IH. reflexivity.
Qed.

Lemma remind_alike (env : SweepEnv) (now : Z) (rt : string) (w w' : World)
    (row : Task * string) :
  sweep_alike w w' -> sweep_alike (remind env now rt w row) (remind env now rt w' row).
Proof.
  intros [(Hu & Hm & Ht & Hr & Hteams) Hout]. unfold remind.
  assert (is_reminder_sent (w_db w') (task_id row.1) rt
          = is_reminder_sent (w_db w) (task_id row.1) rt) as ->
    by (unfold is_reminder_sent; rewrite Hr; reflexivity).
  destruct (is_reminder_sent (w_db w) (task_id row.1) rt).
  { split; [repeat split|]; assumption. }
  destruct (assignee_id row.1) as [a|]; [|split; [repeat split|]; assumption].
  destruct (a =? 0); [split; [repeat split|]; assumption|].
  rewrite Hout. destruct (send_returns env (length (w_outbox w))).
  - split; [|reflexivity].
    destruct (insert_outcome env (length (w_outbox w))); cbn;
      repeat split; try assumption.
    cbn. rewrite Hr. reflexivity.
  - split; [repeat split; assumption | reflexivity].
Qed.

Lemma foldl_alike {A : Type} (f : World -> A -> World) (l : list A) :
  (∀ w w' x, sweep_alike w w' -> sweep_alike (f w x) (f w' x)) ->
  ∀ w w', sweep_alike w w' -> sweep_alike (foldl f w l) (foldl f w' l).
Proof.
  intros Hstep. induction l as [|x l IH]; intros w w' Hw; [exact Hw|].
  cbn [foldl]. apply IH, Hstep, Hw.
Qed.

(** X30. The deadline sweep does not look at the tiers: on two stores that
    differ only in the subscriptions of their teams it makes the same
    sends and leaves the same ledger. The tasks of a team on the free
    tier, whose entry in [SUBSCRIPTION_LIMITS] has [reminders] off, are
    reminded like any other. *)
Theorem sweep_ignores_subscriptions
    (env : SweepEnv) (now : Z) (db db' : Database) (out : list (Sent ReminderText)) :
  same_but_subscriptions db db' ->
  let w := check_upcoming_deadlines env now (mkWorld db out) in
  let w' := check_upcoming_deadlines env now (mkWorld db' out) in
  w_outbox w' = w_outbox w ∧ reminders (w_db w') = reminders (w_db w).
Proof.
  intros Hsame w w'.
  assert (sweep_alike w w') as [(_ & _ & _ & Hr & _) Hout]; [|auto].
  subst w w'. unfold check_upcoming_deadlines. apply foldl_alike.
  - intros w w' [rt [s e]] Hw. unfold sweep_window.
    rewrite (get_upcoming_tasks_same (w_db w) (w_db w') s e (proj1 Hw)).
    apply foldl_alike; [|exact Hw].
    intros w1 w1' row. apply remind_alike.
  - split; [exact Hsame | reflexivity].
Qed.

Lemma sweep_ignores_subscriptions_witness :
  let w := check_upcoming_deadlines reliable day_before (mkWorld sweep_db []) in
  let w' := check_upcoming_deadlines reliable day_before
              (mkWorld (update_subscription SqlOk sweep_db 1 "pro" None).1 []) in
  w_outbox w' = w_outbox w ∧ reminders (w_db w') = reminders (w_db w).
Proof.
  apply (sweep_ignores_subscriptions reliable day_before sweep_db
           (update_subscription SqlOk sweep_db 1 "pro" None).1 []).
  repeat split.
Defined.
